(** * Agent managers of MAF-Agents: provisioning, teardown, chat and CLI

    A shallow embedding of the two [agent_manager.py] scripts of the
    repository,

    - [AgentId/src/agent_manager.py]           (module [AgentId]) and
    - [Foundry-IaC-Agent/src/agent_manager.py] (module [Foundry]),

    followed by the properties of the specification that concern them.

    Both scripts are sequences of side effects: reads of [os.environ],
    lines written to standard output, lines read from standard input,
    shell commands, sleeps and calls to the remote agent service.  They are
    embedded in a small reader/state/error monad [M] whose state is the
    chronological trace of those effects. *)

From Stdlib Require Import String Ascii List Bool Arith ZArith Lia.
From stdpp Require Import base option gmap strings list.

Import ListNotations.
Local Open Scope string_scope.
Local Open Scope list_scope.

(** ** Python strings

    [str] values are modelled by [string], one character per code point
    (a character stands for a code point, not for a byte of an encoding),
    for the code points below 256; [lower] and [isspace] are Python's on
    that range.  Text with a code point of 256 or more has no counterpart
    in the model. *)

Module PyStr.

(** The line feed of the literals ["\nYou: "] and ["\nAssistant: "]. *)
Definition nl : string := String (ascii_of_nat 10) "".

(** [c in s] for a one-character needle. *)
Fixpoint contains (c : ascii) (s : string) : bool :=
  match s with
  | EmptyString => false
  | String a s' => if Ascii.eqb a c then true else contains c s'
  end.

(** [s.split(c)]: cut at every occurrence of [c]; never the empty list. *)
Fixpoint split (c : ascii) (s : string) : list string :=
  match s with
  | EmptyString => [EmptyString]
  | String a s' =>
      if Ascii.eqb a c then EmptyString :: split c s'
      else match split c s' with
           | h :: t => String a h :: t
           | [] => [String a EmptyString]
           end
  end.

(** [s.rsplit(c, 1)]: cut at the last occurrence of [c] only; a
    one-element list when [c] does not occur. *)
Fixpoint rsplit1 (c : ascii) (s : string) : list string :=
  match s with
  | EmptyString => [EmptyString]
  | String a s' =>
      match rsplit1 c s' with
      | [h; t] => [String a h; t]
      | _ => if Ascii.eqb a c then [EmptyString; s'] else [String a s']
      end
  end.

(** [str.lower] on one character: the capitals of the range, ['A'..'Z']
    (65..90) and the accented ones (192..222, the multiplication sign 215
    apart), move 32 places up; every other character stays. *)
Definition lower_char (a : ascii) : ascii :=
  let n := nat_of_ascii a in
  if (((65 <=? n) && (n <=? 90))
      || ((192 <=? n) && (n <=? 222) && negb (n =? 215)))%nat
  then ascii_of_nat (n + 32) else a.

Fixpoint lower (s : string) : string :=
  match s with
  | EmptyString => EmptyString
  | String a s' => String (lower_char a) (lower s')
  end.

(** [str.isspace] on one character: TAB, LF, VT, FF, CR (9..13), FS, GS,
    RS, US and the space (28..32), NEL (133) and the no-break space
    (160). *)
Definition isspace (a : ascii) : bool :=
  let n := nat_of_ascii a in
  (((9 <=? n) && (n <=? 13)) || ((28 <=? n) && (n <=? 32))
   || (n =? 133) || (n =? 160))%nat.

Fixpoint lstrip (s : string) : string :=
  match s with
  | EmptyString => EmptyString
  | String a s' => if isspace a then lstrip s' else s
  end.

(** Drops trailing white space: a character is kept when something
    that is kept follows it, or when it is not white space itself. *)
Fixpoint rstrip (s : string) : string :=
  match s with
  | EmptyString => EmptyString
  | String a s' =>
      match rstrip s' with
      | EmptyString => if isspace a then EmptyString else String a EmptyString
      | r => String a r
      end
  end.

(** [s.strip()] *)
Definition strip (s : string) : string := rstrip (lstrip s).

(** [c * n] for a one-character string [c]. *)
Fixpoint repeat_char (c : ascii) (n : nat) : string :=
  match n with
  | O => EmptyString
  | S n' => String c (repeat_char c n')
  end.

(** Truth value of an [os.environ.get] result: [None] and [""] are
    false.  Returns the string when it is true. *)
Definition truthy (v : option string) : option string :=
  match v with
  | Some s => if String.eqb s "" then None else Some s
  | None => None
  end.

(** [s.count(c)] for a one-character needle (used by the properties
    only). *)
Fixpoint count (c : ascii) (s : string) : nat :=
  match s with
  | EmptyString => 0
  | String a s' => (if Ascii.eqb a c then 1 else 0) + count c s'
  end.

(** [x in l] for a list of string literals. *)
Definition mem (x : string) (l : list string) : bool :=
  existsb (String.eqb x) l.

End PyStr.

(** ** Exceptions, remote objects and the effect trace *)

(** The exception classes the scripts raise or meet.  [OSError] stands for
    what [open] raises, [ServiceError] for whatever [Exception] a call of
    the SDK raises. *)
Inductive exn : Type :=
| ValueError (msg : string)
| RuntimeError (msg : string)
| FileNotFoundError (msg : string)
| IndexError (msg : string)
| EOFError
| OSError (msg : string)
| ServiceError (msg : string).

(** [str(e)], as the f-strings of the warnings print it. *)
Definition str_exn (e : exn) : string :=
  match e with
  | ValueError m | RuntimeError m | FileNotFoundError m
  | IndexError m | OSError m | ServiceError m => m
  | EOFError => ""
  end.

(** What a remote call gives back: it raises ([inl]) or returns ([inr]). *)
Definition reply (A : Type) : Type := (exn + A)%type.

(** A vector store as the service reports it; [v_text] is what
    [f"{vs_status}"] renders. *)
Record VectorStore : Type := { v_id : string; v_status : string; v_text : string }.

(** A versioned agent: its [id] and its [name]. *)
Record Agent : Type := { a_id : string; a_name : string }.

(** JSON literals of the tool schemas. *)
#[warnings="-register-all"]
Inductive json : Type :=
| JStr (s : string)
| JList (items : list json)
| JDict (fields : list (string * json)).

Inductive Tool : Type :=
| FunctionTool (name description : string) (parameters : json) (strict : bool)
| FileSearchTool (vector_store_ids : list string).

Record PromptAgentDefinition : Type :=
  { model : string; instructions : string; tools : list Tool }.

(** The operations of the remote service the scripts call. *)
Inductive call : Type :=
| FilesCreate (purpose : string)
| FilesDelete (file_id : string)
| VectorStoresCreate (name : string) (file_ids : list string)
| VectorStoresRetrieve (vector_store_id : string)
| VectorStoresDelete (vector_store_id : string)
| AgentsCreateVersion (name : string) (definition : PromptAgentDefinition)
| AgentsDeleteVersion (name version : string)
| AgentsList
| ConversationsCreate
| ConversationsDelete (conversation_id : string)
| ConversationsItemsCreate (conversation_id content : string)
| ResponsesCreate (conversation_id agent : string).

(** The value a remote call returned, as the trace records it. *)
Inductive answer : Type :=
| ANone
| AId (id : string)
| AStore (v : VectorStore)
| AAgent (a : Agent)
| AAgents (l : list Agent)
| AText (t : string).

Inductive event : Type :=
| Print (line : string)            (* print(line) *)
| Prompt (text : string)           (* the prompt written by input(text) *)
| System (cmd : string)            (* os.system(cmd) *)
| Sleep (secs : nat)               (* time.sleep(secs) *)
| Remote (c : call) (r : reply answer).

(** The remote service: every operation answers as a function of its
    arguments and of everything that happened before it. *)
Record Service : Type := {
  files_create : list event -> string -> reply string;
  files_delete : list event -> string -> reply unit;
  vector_stores_create : list event -> string -> list string -> reply VectorStore;
  vector_stores_retrieve : list event -> string -> reply VectorStore;
  vector_stores_delete : list event -> string -> reply unit;
  agents_create_version : list event -> string -> PromptAgentDefinition -> reply Agent;
  agents_delete_version : list event -> string -> string -> reply unit;
  agents_list : list event -> reply (list Agent);
  conversations_create : list event -> reply string;
  conversations_delete : list event -> string -> reply unit;
  conversations_items_create : list event -> string -> string -> reply unit;
  responses_create : list event -> string -> string -> reply string
}.

(** What an invocation finds and cannot change: the process environment,
    the document next to the script, and the service.  Of the document,
    [docs_file] is the text [pathlib] renders for
    [Path(__file__).parent / "docs" / "product_manual.md"] (it depends on
    the platform and on where the script lies, and is not computed here),
    [docs_exists] is what [exists()] answers for it, and [docs_open] is
    the exception [open(docs_path, "rb")] raises, if it raises. *)
Record Host : Type := {
  environ : gmap string string;
  docs_file : string;
  docs_exists : bool;
  docs_open : option exn;
  service : Service
}.

(** What an invocation consumes and produces: the lines still to come on
    standard input, and the effects so far, oldest first. *)
Record State : Type := { stdin : list string; trace : list event }.

Definition emit (e : event) (s : State) : State :=
  {| stdin := stdin s; trace := trace s ++ [e] |}.

(** ** The monad *)

(** How a computation ends: it returns, an exception propagates,
    [sys.exit(code)] unwinds, or the loop bound of the model ran out. *)
Inductive outcome (A : Type) : Type :=
| Returned (a : A)
| Raised (e : exn)
| Exited (code : Z)
| OutOfFuel.

Arguments Returned {A} a.
Arguments Raised {A} e.
Arguments Exited {A} code.
Arguments OutOfFuel {A}.

Definition M (A : Type) : Type := Host -> State -> outcome A * State.

Definition ret {A} (a : A) : M A := fun _ s => (Returned a, s).

Definition bind {A B} (m : M A) (k : A -> M B) : M B :=
  fun h s =>
    match m h s with
    | (Returned a, s') => k a h s'
    | (Raised e, s') => (Raised e, s')
    | (Exited c, s') => (Exited c, s')
    | (OutOfFuel, s') => (OutOfFuel, s')
    end.

Declare Scope py_scope.
Delimit Scope py_scope with py.
Notation "x ← y ; z" := (bind y (fun x => z))
  (at level 20, y at level 100, z at level 200, only parsing) : py_scope.
Notation "' x ← y ; z" := (bind y (fun x => z))
  (at level 20, x pattern, y at level 100, z at level 200, only parsing) : py_scope.
Notation "x ;; z" := (bind x (fun _ => z))
  (at level 100, z at level 200, only parsing, right associativity) : py_scope.
Local Open Scope py_scope.

Definition raise {A} (e : exn) : M A := fun _ s => (Raised e, s).
Definition sys_exit {A} (code : Z) : M A := fun _ s => (Exited code, s).
Definition out_of_fuel {A} : M A := fun _ s => (OutOfFuel, s).

(** [try: body / except Exception as e: handler e]: [SystemExit] is not
    an [Exception] and passes through. *)
Definition try_except {A} (body : M A) (handler : exn -> M A) : M A :=
  fun h s =>
    match body h s with
    | (Raised e, s') => handler e h s'
    | r => r
    end.

(** [try: body / except: handler] catches [SystemExit] as well. *)
Definition try_bare {A} (body : M A) (handler : M A) : M A :=
  fun h s =>
    match body h s with
    | (Raised _, s') | (Exited _, s') => handler h s'
    | r => r
    end.

(** *** Effects *)

Definition print (line : string) : M unit :=
  fun _ s => (Returned tt, emit (Print line) s).

Definition os_system (cmd : string) : M unit :=
  fun _ s => (Returned tt, emit (System cmd) s).

Definition time_sleep (secs : nat) : M unit :=
  fun _ s => (Returned tt, emit (Sleep secs) s).

(** [input(text)]: writes the prompt, then takes the next line; at end
    of input Python raises [EOFError]. *)
Definition input (text : string) : M string :=
  fun _ s =>
    match stdin s with
    | line :: rest =>
        (Returned line, {| stdin := rest; trace := trace s ++ [Prompt text] |})
    | [] => (Raised EOFError, emit (Prompt text) s)
    end.

(** [os.environ.get(name)] and [os.environ.get(name, default)] *)
Definition environ_get (name : string) : M (option string) :=
  fun h s => (Returned (environ h !! name), s).

Definition environ_get_default (name fallback : string) : M string :=
  fun h s => (Returned (default fallback (environ h !! name)), s).

(** A call of the service: the service answers from the trace so far, the
    call and its answer are appended to the trace, and the answer is
    returned or raised. *)
Definition remote {A} (c : call) (ask : Service -> list event -> reply A)
    (record : A -> answer) : M A :=
  fun h s =>
    match ask (service h) (trace s) with
    | inr a => (Returned a, emit (Remote c (inr (record a))) s)
    | inl e => (Raised e, emit (Remote c (inl e)) s)
    end.

Definition no_answer (_ : unit) : answer := ANone.

Definition call_files_create (purpose : string) : M string :=
  remote (FilesCreate purpose) (fun sv t => files_create sv t purpose) AId.

Definition call_files_delete (file_id : string) : M unit :=
  remote (FilesDelete file_id) (fun sv t => files_delete sv t file_id) no_answer.

Definition call_vector_stores_create (name : string) (file_ids : list string)
    : M VectorStore :=
  remote (VectorStoresCreate name file_ids)
         (fun sv t => vector_stores_create sv t name file_ids) AStore.

Definition call_vector_stores_retrieve (id : string) : M VectorStore :=
  remote (VectorStoresRetrieve id)
         (fun sv t => vector_stores_retrieve sv t id) AStore.

Definition call_vector_stores_delete (id : string) : M unit :=
  remote (VectorStoresDelete id)
         (fun sv t => vector_stores_delete sv t id) no_answer.

Definition call_agents_create_version (name : string)
    (definition : PromptAgentDefinition) : M Agent :=
  remote (AgentsCreateVersion name definition)
         (fun sv t => agents_create_version sv t name definition) AAgent.

Definition call_agents_delete_version (name version : string) : M unit :=
  remote (AgentsDeleteVersion name version)
         (fun sv t => agents_delete_version sv t name version) no_answer.

Definition call_agents_list : M (list Agent) :=
  remote AgentsList (fun sv t => agents_list sv t) AAgents.

Definition call_conversations_create : M string :=
  remote ConversationsCreate (fun sv t => conversations_create sv t) AId.

Definition call_conversations_delete (id : string) : M unit :=
  remote (ConversationsDelete id)
         (fun sv t => conversations_delete sv t id) no_answer.

Definition call_conversations_items_create (id content : string) : M unit :=
  remote (ConversationsItemsCreate id content)
         (fun sv t => conversations_items_create sv t id content) no_answer.

Definition call_responses_create (id agent : string) : M string :=
  remote (ResponsesCreate id agent)
         (fun sv t => responses_create sv t id agent) AText.

(** [a, b = l]: unpacking a list into two names. *)
Definition unpack2 (l : list string) : M (string * string) :=
  match l with
  | [a; b] => ret (a, b)
  | [] | [_] => raise (ValueError "not enough values to unpack (expected 2)")
  | _ => raise (ValueError "too many values to unpack (expected 2)")
  end.

(** [l[0]] *)
Definition index0 (l : list string) : M string :=
  match l with
  | x :: _ => ret x
  | [] => raise (IndexError "list index out of range")
  end.

(** The double quote inside the f-strings of the shell commands. *)
Definition dq : string := String (ascii_of_nat 34) "".

(** How the interpreter ends the process once [main()] has ended: 0 after
    a normal return, the code of [sys.exit], 1 after an uncaught
    exception (and nothing when the model's loop bound ran out). *)
Definition exit_status {A} (o : outcome A) : option Z :=
  match o with
  | Returned _ => Some 0%Z
  | Exited c => Some c
  | Raised _ => Some 1%Z
  | OutOfFuel => None
  end.

(** Projections of a trace. *)
Definition remote_calls (t : list event) : list call :=
  omap (fun e => match e with Remote c _ => Some c | _ => None end) t.

Definition shell_commands (t : list event) : list string :=
  omap (fun e => match e with System c => Some c | _ => None end) t.

Definition printed (t : list event) : list string :=
  omap (fun e => match e with Print l => Some l | _ => None end) t.

(** ** Foundry-IaC-Agent/src/agent_manager.py *)

Module Foundry.

(** [get_project_client]: the credential and the client objects are
    built without any call of the service; only the endpoint check is
    observable. *)
Definition get_project_client : M unit :=
  endpoint ← environ_get "PROJECT_ENDPOINT";
  match PyStr.truthy endpoint with
  | None => raise (ValueError "PROJECT_ENDPOINT environment variable is required")
  | Some _ => ret tt
  end.

(** The instructions literal of [create_agent_with_vector_store]. *)
Definition INSTRUCTIONS : string :=
  String.concat PyStr.nl
    [ "You are a helpful product documentation assistant.";
      "You have access to product documentation via file search.";
      "When users ask questions, search the documents to provide accurate answers.";
      "Always cite the source when providing information from documents.";
      "If you cannot find relevant information, say so clearly." ].

(** [Path(__file__).parent / "docs" / "product_manual.md"], as the
    f-string of the error message renders it. *)
Definition docs_path : M string :=
  fun h s => (Returned (docs_file h), s).

Definition path_exists : M bool :=
  fun h s => (Returned (docs_exists h), s).

(** [open(docs_path, "rb")]: the file object is only handed to the upload;
    what is observable is whether the opening raises. *)
Definition open_docs : M unit :=
  fun h s =>
    match docs_open h with
    | Some e => (Raised e, s)
    | None => (Returned tt, s)
    end.

(** The [while True] loop of [create_agent_with_vector_store] that waits
    for the vector store; [fuel] bounds the number of polls. *)
Fixpoint await_ready (fuel : nat) (vector_store_id : string) : M unit :=
  match fuel with
  | O => out_of_fuel
  | S fuel' =>
      vs_status ← call_vector_stores_retrieve vector_store_id;
      if String.eqb (v_status vs_status) "completed" then
        print "  Vector store ready!"
      else if String.eqb (v_status vs_status) "failed" then
        raise (RuntimeError ("Vector store creation failed: " +:+ v_text vs_status))
      else
        time_sleep 1;;
        await_ready fuel' vector_store_id
  end.

Definition create_agent_with_vector_store (fuel : nat)
    : M (string * string * string) :=
  print "Creating Standard Agent with Vector Store...";;
  model_deployment ← environ_get_default "CHAT_MODEL_DEPLOYMENT" "gpt-4.1-mini";
  get_project_client;;
  print "  Uploading document...";;
  path ← docs_path;
  present ← path_exists;
  (if present then ret tt
   else raise (FileNotFoundError ("Document not found: " +:+ path)));;
  open_docs;;
  uploaded_file ← call_files_create "assistants";
  print ("  FILE_ID: " +:+ uploaded_file);;
  print "  Creating vector store...";;
  vector_store ← call_vector_stores_create "ProductDocsVectorStore" [uploaded_file];
  print ("  VECTORSTORE_ID: " +:+ v_id vector_store);;
  print "  Waiting for vector store processing...";;
  await_ready fuel (v_id vector_store);;
  print "  Creating Standard Agent...";;
  let agent_definition :=
    {| model := model_deployment;
       instructions := INSTRUCTIONS;
       tools := [FileSearchTool [v_id vector_store]] |} in
  agent ← call_agents_create_version "IaCDocumentAgent" agent_definition;
  print ("  AGENT_ID: " +:+ a_id agent);;
  print "";;
  print (PyStr.repeat_char "=" 50);;
  print "Standard Agent created successfully!";;
  print ("  Agent ID: " +:+ a_id agent);;
  print ("  Vector Store ID: " +:+ v_id vector_store);;
  print ("  File ID: " +:+ uploaded_file);;
  print (PyStr.repeat_char "=" 50);;
  ret (a_id agent, v_id vector_store, uploaded_file).

(** The name and version [delete_agent_and_resources] takes from the
    agent id (format: ["AgentName:version"]). *)
Definition parse_agent_id (agent_id : string) : M (string * string) :=
  if PyStr.contains ":" agent_id then unpack2 (PyStr.rsplit1 ":" agent_id)
  else ret (agent_id, "1").

Definition delete_agent_and_resources : M unit :=
  print "Deleting Standard Agent and resources...";;
  agent_id ← environ_get "AGENT_ID";
  vectorstore_id ← environ_get "VECTORSTORE_ID";
  file_id ← environ_get "FILE_ID";
  get_project_client;;
  match PyStr.truthy agent_id with
  | Some agent_id =>
      try_except
        ('(agent_name, agent_version) ← parse_agent_id agent_id;
         print ("  Deleting agent: " +:+ agent_name +:+ " version " +:+ agent_version);;
         call_agents_delete_version agent_name agent_version;;
         print "  Agent deleted.")
        (fun e => print ("  Warning: Could not delete agent: " +:+ str_exn e))
  | None => ret tt
  end;;
  match PyStr.truthy vectorstore_id with
  | Some vectorstore_id =>
      try_except
        (print ("  Deleting vector store: " +:+ vectorstore_id);;
         call_vector_stores_delete vectorstore_id;;
         print "  Vector store deleted.")
        (fun e => print ("  Warning: Could not delete vector store: " +:+ str_exn e))
  | None => ret tt
  end;;
  match PyStr.truthy file_id with
  | Some file_id =>
      try_except
        (print ("  Deleting file: " +:+ file_id);;
         call_files_delete file_id;;
         print "  File deleted.")
        (fun e => print ("  Warning: Could not delete file: " +:+ str_exn e))
  | None => ret tt
  end;;
  print "";;
  print "Cleanup completed.".

(** The agent name [chat_with_agent] takes from the agent id. *)
Definition chat_agent_name (agent_id : string) : M string :=
  if PyStr.contains ":" agent_id then index0 (PyStr.split ":" agent_id)
  else ret agent_id.

(** The [while True] loop of [chat_with_agent]; [fuel] bounds the number
    of lines read. *)
Fixpoint chat_loop (fuel : nat) (agent_name conversation_id : string) : M unit :=
  match fuel with
  | O => out_of_fuel
  | S fuel' =>
      line ← input (PyStr.nl +:+ "You: ");
      let user_input := PyStr.strip line in
      if PyStr.mem (PyStr.lower user_input) ["quit"; "exit"; "q"] then
        try_bare (call_conversations_delete conversation_id) (ret tt);;
        print "Goodbye!"
      else if String.eqb user_input "" then
        chat_loop fuel' agent_name conversation_id
      else
        call_conversations_items_create conversation_id user_input;;
        response ← call_responses_create conversation_id agent_name;
        print (PyStr.nl +:+ "Assistant: " +:+ response);;
        chat_loop fuel' agent_name conversation_id
  end.

Definition chat_with_agent (fuel : nat) : M unit :=
  agent_id ← environ_get "AGENT_ID";
  match PyStr.truthy agent_id with
  | None =>
      print "Error: AGENT_ID not set. Run 'create' first.";;
      sys_exit 1
  | Some agent_id =>
      agent_name ← chat_agent_name agent_id;
      print ("Starting chat with Standard Agent '" +:+ agent_name +:+ "'...");;
      print "Type 'quit' or 'exit' to end the session.";;
      print (PyStr.repeat_char "-" 50);;
      get_project_client;;
      conversation ← call_conversations_create;
      print ("Conversation started (id: " +:+ conversation +:+ ")");;
      chat_loop fuel agent_name conversation
  end.

Definition usage : M unit :=
  print "Usage: python agent_manager.py <command>";;
  print "Commands:";;
  print "  create  - Create agent with vector store";;
  print "  delete  - Delete agent and resources";;
  print "  chat    - Interactive chat with agent".

Definition main (fuel : nat) (argv : list string) : M unit :=
  match argv with
  | [] | [_] => usage;; sys_exit 1
  | _ :: arg1 :: _ =>
      let command := PyStr.lower arg1 in
      if String.eqb command "create" then
        create_agent_with_vector_store fuel;; ret tt
      else if String.eqb command "delete" then
        delete_agent_and_resources
      else if String.eqb command "chat" then
        chat_with_agent fuel
      else
        print ("Unknown command: " +:+ command);;
        sys_exit 1
  end.

End Foundry.

(** ** AgentId/src/agent_manager.py *)

Module AgentId.

Definition get_env_or_fail (name : string) : M string :=
  value ← environ_get name;
  match PyStr.truthy value with
  | None =>
      print ("Error: " +:+ name +:+ " environment variable not set");;
      sys_exit 1
  | Some value => ret value
  end.

(** As in [Foundry], the client objects are built without any call of
    the service. *)
Definition get_project_client : M unit :=
  get_env_or_fail "PROJECT_ENDPOINT";;
  ret tt.

Definition get_function_tools : list Tool :=
  [ FunctionTool "list_files"
      "List files in the user's OneDrive. Can optionally filter by folder path."
      (JDict
         [ ("type", JStr "object");
           ("properties",
            JDict
              [ ("folder_path",
                 JDict
                   [ ("type", JStr "string");
                     ("description",
                      JStr "Optional folder path to list files from. Use '/' for root, or specify a path like 'Documents' or 'Documents/Projects'. If not provided, lists files in the root folder.") ]);
                ("include_subfolders",
                 JDict
                   [ ("type", JStr "boolean");
                     ("description",
                      JStr "Whether to include files from subfolders. Default is false.") ]) ]);
           ("required", JList []) ])
      false;
    FunctionTool "get_drive_info"
      "Get information about the user's OneDrive, including total storage, used storage, and remaining storage."
      (JDict
         [ ("type", JStr "object");
           ("properties", JDict []);
           ("required", JList []) ])
      false;
    FunctionTool "search_files"
      "Search for files in the user's OneDrive by name or content."
      (JDict
         [ ("type", JStr "object");
           ("properties",
            JDict
              [ ("query",
                 JDict
                   [ ("type", JStr "string");
                     ("description",
                      JStr "The search query to find files. Can search by filename or content.") ]) ]);
           ("required", JList [JStr "query"]) ])
      false ].

Definition AGENT_INSTRUCTIONS : string :=
  String.concat PyStr.nl
    [ "You are an OneDrive assistant that helps users manage and explore their files.";
      "";
      "You can:";
      "- List files in any folder in the user's OneDrive";
      "- Search for files by name or content";
      "- Show drive storage information";
      "";
      "Always be helpful and provide clear, organized responses. When listing files, format them nicely.";
      "If an operation fails, explain what happened and suggest alternatives.";
      "";
      "Note: You access the user's OneDrive on their behalf using delegated permissions." ].

Definition create_agent : M unit :=
  model_deployment ← get_env_or_fail "CHAT_MODEL_DEPLOYMENT";
  agent_name ← environ_get_default "AGENT_NAME" "OneDrive-Agent";
  print ("Creating Standard Agent: " +:+ agent_name);;
  get_project_client;;
  let agent_definition :=
    {| model := model_deployment;
       instructions := AGENT_INSTRUCTIONS;
       tools := get_function_tools |} in
  agent ← call_agents_create_version agent_name agent_definition;
  print ("Created agent: " +:+ a_id agent);;
  os_system ("azd env set AGENT_ID " +:+ dq +:+ a_id agent +:+ dq);;
  os_system ("azd env set AGENT_NAME " +:+ dq +:+ agent_name +:+ dq);;
  print "";;
  print (PyStr.repeat_char "=" 50);;
  print "Standard Agent created successfully!";;
  print ("  Agent ID: " +:+ a_id agent);;
  print ("  Agent Name: " +:+ agent_name);;
  print (PyStr.repeat_char "=" 50);;
  print (PyStr.nl +:+ "Agent visible in Foundry portal under: Build > Agents > "
           +:+ agent_name).

Definition delete_agent : M unit :=
  agent_id ← environ_get "AGENT_ID";
  agent_name ← environ_get_default "AGENT_NAME" "OneDrive-Agent";
  match PyStr.truthy agent_id with
  | None => print "No agent to delete (AGENT_ID not set)"
  | Some agent_id =>
      print ("Deleting agent: " +:+ agent_name +:+ " (ID: " +:+ agent_id +:+ ")");;
      get_project_client;;
      try_except
        ((if PyStr.contains ":" agent_id then
            '(name, version) ← unpack2 (PyStr.rsplit1 ":" agent_id);
            call_agents_delete_version name version
          else
            call_agents_delete_version agent_name "1");;
         print "Agent deleted successfully")
        (fun e => print ("Error deleting agent: " +:+ str_exn e))
  end.

(** The body of [for agent in agents]. *)
Fixpoint print_agents (agents : list Agent) : M unit :=
  match agents with
  | [] => ret tt
  | agent :: rest =>
      print ("  " +:+ a_name agent +:+ " (id: " +:+ a_id agent +:+ ")");;
      print_agents rest
  end.

Definition list_agents : M unit :=
  print "Standard Agents in project:";;
  print (PyStr.repeat_char "-" 50);;
  get_project_client;;
  agents ← call_agents_list;
  print_agents agents.

Definition usage : M unit :=
  print "Usage: python agent_manager.py <command>";;
  print "Commands:";;
  print "  create  - Create Standard Agent";;
  print "  delete  - Delete Standard Agent";;
  print "  list    - List all agents".

Definition main (argv : list string) : M unit :=
  match argv with
  | [] | [_] => usage;; sys_exit 1
  | _ :: arg1 :: _ =>
      let command := PyStr.lower arg1 in
      if String.eqb command "create" then create_agent
      else if String.eqb command "delete" then delete_agent
      else if String.eqb command "list" then list_agents
      else
        print ("Unknown command: " +:+ command);;
        sys_exit 1
  end.

End AgentId.

(** ** Services and hosts for the examples *)

(** Number of status polls in a trace. *)
Definition is_poll (e : event) : bool :=
  match e with
  | Remote (VectorStoresRetrieve _) _ => true
  | _ => false
  end.

Definition polls (t : list event) : nat := length (List.filter is_poll t).

Definition store (id status : string) : VectorStore :=
  {| v_id := id; v_status := status; v_text := "VectorStore(id=" +:+ id +:+ ", status=" +:+ status +:+ ")" |}.

(** A service on which every call succeeds; the store of id ["vs_1"] is
    ready at the first poll. *)
Definition nominal : Service := {|
  files_create := fun _ _ => inr "file_1";
  files_delete := fun _ _ => inr tt;
  vector_stores_create := fun _ _ _ => inr (store "vs_1" "in_progress");
  vector_stores_retrieve := fun _ id => inr (store id "completed");
  vector_stores_delete := fun _ _ => inr tt;
  agents_create_version := fun _ name _ => inr {| a_id := name +:+ ":1"; a_name := name |};
  agents_delete_version := fun _ _ _ => inr tt;
  agents_list := fun _ => inr [];
  conversations_create := fun _ => inr "conv_1";
  conversations_delete := fun _ _ => inr tt;
  conversations_items_create := fun _ _ _ => inr tt;
  responses_create := fun _ _ _ => inr "Hi!"
|}.

(** [nominal], except that the k-th poll reports the k-th status of
    [script] (and ["in_progress"] once the script is over). *)
Definition scripted (script : list string) : Service := {|
  files_create := files_create nominal;
  files_delete := files_delete nominal;
  vector_stores_create := vector_stores_create nominal;
  vector_stores_retrieve := fun t id =>
    inr (store id (default "in_progress" (script !! polls t)));
  vector_stores_delete := vector_stores_delete nominal;
  agents_create_version := agents_create_version nominal;
  agents_delete_version := agents_delete_version nominal;
  agents_list := agents_list nominal;
  conversations_create := conversations_create nominal;
  conversations_delete := conversations_delete nominal;
  conversations_items_create := conversations_items_create nominal;
  responses_create := responses_create nominal
|}.

(** [nominal], except that the three deletions of the teardown and the
    deletion of the conversation raise. *)
Definition refusing : Service := {|
  files_create := files_create nominal;
  files_delete := fun _ _ => inl (ServiceError "file busy");
  vector_stores_create := vector_stores_create nominal;
  vector_stores_retrieve := vector_stores_retrieve nominal;
  vector_stores_delete := fun _ _ => inl (ServiceError "store busy");
  agents_create_version := agents_create_version nominal;
  agents_delete_version := fun _ _ _ => inl (ServiceError "agent busy");
  agents_list := agents_list nominal;
  conversations_create := conversations_create nominal;
  conversations_delete := fun _ _ => inl (ServiceError "gone");
  conversations_items_create := conversations_items_create nominal;
  responses_create := responses_create nominal
|}.

Definition host_of (env : list (string * string)) (sv : Service) : Host :=
  {| environ := list_to_map env;
     docs_file := "/app/src/docs/product_manual.md";
     docs_exists := true; docs_open := None; service := sv |}.

Definition start (lines : list string) : State :=
  {| stdin := lines; trace := [] |}.

(** * Vocabulary of the properties *)

(** The events a computation added to the trace [t0] it started from. *)
Definition added (t0 : list event) (s' : State) : list event :=
  drop (length t0) (trace s').

(** [s] with the events [d] appended. *)
Definition after (s : State) (d : list event) : State :=
  {| stdin := stdin s; trace := trace s ++ d |}.

(** [m] returns [a] after adding exactly the events [d], reading no
    input. *)
Definition returns {A} (m : M A) (h : Host) (s : State) (a : A)
    (d : list event) : Prop :=
  m h s = (Returned a, after s d).

(** The deletion a present (non-empty) identifier calls for. *)
Definition due (mk : string -> call) (v : option string) : list call :=
  match PyStr.truthy v with
  | Some id => [mk id]
  | None => []
  end.

(** The warning [delete_agent_and_resources] prints for a failure. *)
Definition warning (what : string) (e : exn) : event :=
  Print ("  Warning: Could not delete " +:+ what +:+ ": " +:+ str_exn e).

Definition only_store_host : Host :=
  host_of [("PROJECT_ENDPOINT", "https://example.test"); ("VECTORSTORE_ID", "vs_9")]
          refusing.

Definition terminal (st : string) : Prop := st = "completed" \/ st = "failed".

(** The statuses the polls of a trace reported. *)
Definition statuses_seen (t : list event) : list string :=
  omap (fun e => match e with
                 | Remote (VectorStoresRetrieve _) (inr (AStore v)) => Some (v_status v)
                 | _ => None
                 end) t.

(** The service answers the polls that come after the trace [t0] with the
    statuses of [script], in order. *)
Definition obeys (sv : Service) (t0 : list event) (script : list string) : Prop :=
  forall t id k st,
    polls t = polls t0 + k -> script !! k = Some st ->
    exists v, vector_stores_retrieve sv t id = inr v /\ v_status v = st.

(** The events of a wait that goes on: a poll that reported a status which
    is not terminal, or the sleep after it. *)
Definition waiting (id : string) (e : event) : Prop :=
  e = Sleep 1 \/
  exists v, e = Remote (VectorStoresRetrieve id) (inr (AStore v)) /\
            ~ terminal (v_status v).

(** The agent creations of a trace, and the vector stores a definition
    refers to. *)
Definition agent_creations (t : list event) : list call :=
  omap (fun e => match e with
                 | Remote (AgentsCreateVersion n d) _ => Some (AgentsCreateVersion n d)
                 | _ => None
                 end) t.

Definition stores_of (d : PromptAgentDefinition) : list string :=
  flat_map (fun t => match t with
                     | FileSearchTool ids => ids
                     | FunctionTool _ _ _ _ => []
                     end) (tools d).

(** [yields m h s post]: run from [s], the computation [m] reads no input,
    ends with some outcome [o] after adding some events [d], and
    [post o d] holds. *)
Definition yields {A} (m : M A) (h : Host) (s : State)
    (post : outcome A -> list event -> Prop) : Prop :=
  exists o d, m h s = (o, after s d) /\ post o d.

(** Whenever an agent creation is issued, the events before it contain a
    poll that reported ["completed"] for the one vector store the agent's
    definition refers to. *)
Definition created_after_completed (d : list event) : Prop :=
  forall pre name def r post,
    d = pre ++ Remote (AgentsCreateVersion name def) r :: post ->
    exists id v,
      stores_of def = [id] /\
      In (Remote (VectorStoresRetrieve id) (inr (AStore v))) pre /\
      v_status v = "completed".

(** A poll that reported ["failed"] ends the run with [RuntimeError], no
    agent having been created. *)
Definition failed_aborts {A} (o : outcome A) (d : list event) : Prop :=
  forall id v,
    In (Remote (VectorStoresRetrieve id) (inr (AStore v))) d ->
    v_status v = "failed" ->
    (exists msg, o = Raised (RuntimeError msg)) /\ agent_creations d = [].

(** The same property, checked along the trace: [ready] holds the stores
    already seen completed. *)
Fixpoint guarded (ready : list string) (d : list event) : Prop :=
  match d with
  | [] => True
  | Remote (VectorStoresRetrieve id) (inr (AStore v)) :: d' =>
      guarded (if String.eqb (v_status v) "completed" then id :: ready else ready) d'
  | Remote (AgentsCreateVersion _ def) _ :: d' =>
      (exists id, stores_of def = [id] /\ In id ready) /\ guarded ready d'
  | _ :: d' => guarded ready d'
  end.

Definition three_polls_host : Host :=
  host_of [("PROJECT_ENDPOINT", "https://example.test")]
          (scripted ["in_progress"; "in_progress"; "completed"]).

Definition failing_store_host : Host :=
  host_of [("PROJECT_ENDPOINT", "https://example.test")]
          (scripted ["in_progress"; "failed"]).

(** The shell command that stores one key in the azd environment. *)
Definition azd_env_set (key value : string) : string :=
  "azd env set " +:+ key +:+ " " +:+ dq +:+ value +:+ dq.

(** The keys of the persisted state. *)
Definition STATE_KEYS : list string :=
  ["AGENT_ID"; "AGENT_NAME"; "VECTORSTORE_ID"; "FILE_ID"].

(** The events [d] store some value under [key]. *)
Definition writes_key (key : string) (d : list event) : Prop :=
  exists value, In (System (azd_env_set key value)) d.

Definition configured_host : Host :=
  host_of [("PROJECT_ENDPOINT", "https://example.test");
           ("CHAT_MODEL_DEPLOYMENT", "gpt-4.1")] nominal.

(** The error line of [get_env_or_fail]. *)
Definition env_error (name : string) : event :=
  Print ("Error: " +:+ name +:+ " environment variable not set").

Definition endpoint_required : exn :=
  ValueError "PROJECT_ENDPOINT environment variable is required".

Definition empty_model_host : Host :=
  host_of [("PROJECT_ENDPOINT", "https://example.test");
           ("CHAT_MODEL_DEPLOYMENT", "")] nominal.

Definition plain_id_host : Host :=
  host_of [("PROJECT_ENDPOINT", "https://example.test"); ("AGENT_ID", "MyAgent")]
          nominal.

Definition EXIT_TOKENS : list string := ["quit"; "exit"; "q"].

Definition you_prompt : event := Prompt (PyStr.nl +:+ "You: ").

(** The calls of a chat loop for the agent [name] on the conversation
    [cid]. *)
Definition chat_call (name cid : string) (c : call) : Prop :=
  (exists content, c = ConversationsItemsCreate cid content) \/
  c = ResponsesCreate cid name \/
  c = ConversationsDelete cid.

(** The lines [chat_with_agent] prints before it opens the conversation. *)
Definition banner (name : string) : list event :=
  [Print ("Starting chat with Standard Agent '" +:+ name +:+ "'...");
   Print "Type 'quit' or 'exit' to end the session.";
   Print (PyStr.repeat_char "-" 50)].

Definition chat_host : Host :=
  host_of [("PROJECT_ENDPOINT", "https://example.test"); ("AGENT_ID", "A:B:3")]
          refusing.

Definition FOUNDRY_COMMANDS : list string := ["create"; "delete"; "chat"].
Definition AGENTID_COMMANDS : list string := ["create"; "delete"; "list"].

(** The test of the chat loop for an exit token. *)
Definition is_exit (line : string) : bool :=
  PyStr.mem (PyStr.lower (PyStr.strip line)) EXIT_TOKENS.

(** The calls that one input line which is no exit token costs. *)
Definition turn_calls (name cid line : string) : list call :=
  if String.eqb (PyStr.strip line) "" then []
  else [ConversationsItemsCreate cid (PyStr.strip line); ResponsesCreate cid name].

(** The calls of the turns of a chat loop. *)
Definition turn_call (name cid : string) (c : call) : Prop :=
  (exists content, c = ConversationsItemsCreate cid content) \/
  c = ResponsesCreate cid name.

(** A service that accepts every conversation item and answers every
    response request. *)
Definition accepting (sv : Service) : Prop :=
  (forall t c x, conversations_items_create sv t c x = inr tt) /\
  (forall t c a, exists text, responses_create sv t c a = inr text).

(** What a run of [delete_agent] of the AgentId script comes to: it
    returns or exits with code 1, the exit being the missing endpoint
    before any call; it makes at most one call; and a call that raised is
    reported on the output instead of the success line. *)
Definition delete_report (o : outcome unit) (d : list event) : Prop :=
  (o = Returned tt \/ o = Exited 1%Z) /\
  (o = Exited 1%Z -> remote_calls d = [] /\ In (env_error "PROJECT_ENDPOINT") d) /\
  length (remote_calls d) <= 1 /\
  (forall c e, In (Remote c (inl e)) d ->
     In (Print ("Error deleting agent: " +:+ str_exn e)) d /\
     ~ In (Print "Agent deleted successfully") d).

(** One line of [list_agents] and its two header lines. *)
Definition agent_line (a : Agent) : event :=
  Print ("  " +:+ a_name a +:+ " (id: " +:+ a_id a +:+ ")").

Definition list_header : list event :=
  [Print "Standard Agents in project:"; Print (PyStr.repeat_char "-" 50)].

(** [nominal], except that the project holds the given agents. *)
Definition listing (agents : list Agent) : Service := {|
  files_create := files_create nominal;
  files_delete := files_delete nominal;
  vector_stores_create := vector_stores_create nominal;
  vector_stores_retrieve := vector_stores_retrieve nominal;
  vector_stores_delete := vector_stores_delete nominal;
  agents_create_version := agents_create_version nominal;
  agents_delete_version := agents_delete_version nominal;
  agents_list := fun _ => inr agents;
  conversations_create := conversations_create nominal;
  conversations_delete := conversations_delete nominal;
  conversations_items_create := conversations_items_create nominal;
  responses_create := responses_create nominal
|}.

Definition two_agents : list Agent :=
  [ {| a_id := "OneDrive-Agent:2"; a_name := "OneDrive-Agent" |};
    {| a_id := "IaCDocumentAgent:1"; a_name := "IaCDocumentAgent" |} ].

Definition talkative_lines : list string :=
  ["What is in the manual?"; "   "; "  And the warranty? "].

(** What a run of [create_agent] of the AgentId script comes to. *)
Definition create_report (h : Host) (o : outcome unit) (d : list event) : Prop :=
  length (remote_calls d) <= 1 /\
  (forall name def r,
     In (Remote (AgentsCreateVersion name def) r) d ->
     model def <> "" /\
     environ h !! "CHAT_MODEL_DEPLOYMENT" = Some (model def) /\
     name = default "OneDrive-Agent" (environ h !! "AGENT_NAME") /\
     instructions def = AgentId.AGENT_INSTRUCTIONS /\
     tools def = AgentId.get_function_tools) /\
  (o <> Returned tt -> shell_commands d = []) /\
  (forall c e, In (Remote c (inl e)) d -> o = Raised e).

(** The calls that delete a remote resource. *)
Definition is_deletion (c : call) : bool :=
  match c with
  | FilesDelete _ | VectorStoresDelete _ | AgentsDeleteVersion _ _
  | ConversationsDelete _ => true
  | _ => false
  end.

(** How [create_agent_with_vector_store] deals with failures. *)
Definition abort_report (h : Host) (o : outcome (string * string * string))
    (d : list event) : Prop :=
  Forall (fun c => is_deletion c = false) (remote_calls d) /\
  (forall c e, In (Remote c (inl e)) d ->
     o = Raised e /\ exists pre, d = pre ++ [Remote c (inl e)]) /\
  (docs_exists h = false ->
   remote_calls d = [] /\
   (PyStr.truthy (environ h !! "PROJECT_ENDPOINT") <> None ->
    o = Raised (FileNotFoundError ("Document not found: " +:+ docs_file h)))) /\
  (forall e, docs_exists h = true -> docs_open h = Some e ->
     remote_calls d = [] /\
     (PyStr.truthy (environ h !! "PROJECT_ENDPOINT") <> None -> o = Raised e)).

(** The calls and answers of a successful
    [create_agent_with_vector_store]. *)
Definition success_flow (o : outcome (string * string * string))
    (d : list event) : Prop :=
  forall aid vid fid,
    o = Returned (aid, vid, fid) ->
    exists n def vs a,
      remote_calls d =
        [FilesCreate "assistants"; VectorStoresCreate "ProductDocsVectorStore" [fid]]
        ++ repeat (VectorStoresRetrieve vid) (S n)
        ++ [AgentsCreateVersion "IaCDocumentAgent" def] /\
      tools def = [FileSearchTool [vid]] /\
      In (Remote (FilesCreate "assistants") (inr (AId fid))) d /\
      In (Remote (VectorStoresCreate "ProductDocsVectorStore" [fid]) (inr (AStore vs))) d /\
      v_id vs = vid /\
      In (Remote (AgentsCreateVersion "IaCDocumentAgent" def) (inr (AAgent a))) d /\
      a_id a = aid.

(** [nominal], except that the creation of an agent raises. *)
Definition rejecting : Service := {|
  files_create := files_create nominal;
  files_delete := files_delete nominal;
  vector_stores_create := vector_stores_create nominal;
  vector_stores_retrieve := vector_stores_retrieve nominal;
  vector_stores_delete := vector_stores_delete nominal;
  agents_create_version := fun _ _ _ => inl (ServiceError "quota exceeded");
  agents_delete_version := agents_delete_version nominal;
  agents_list := agents_list nominal;
  conversations_create := conversations_create nominal;
  conversations_delete := conversations_delete nominal;
  conversations_items_create := conversations_items_create nominal;
  responses_create := responses_create nominal
|}.

Definition rejecting_host : Host :=
  host_of [("PROJECT_ENDPOINT", "https://example.test");
           ("CHAT_MODEL_DEPLOYMENT", "gpt-4.1")] rejecting.

Definition no_docs_host : Host :=
  {| environ := list_to_map [("PROJECT_ENDPOINT", "https://example.test")];
     docs_file := "/app/src/docs/product_manual.md";
     docs_exists := false; docs_open := None; service := nominal |}.

(** As [no_docs_host], with the document in place but not readable. *)
Definition unreadable_docs_host : Host :=
  {| environ := list_to_map [("PROJECT_ENDPOINT", "https://example.test")];
     docs_file := "/app/src/docs/product_manual.md";
     docs_exists := true;
     docs_open := Some (OSError "[Errno 13] Permission denied: '/app/src/docs/product_manual.md'");
     service := nominal |}.

(** An exit token as a terminal may deliver it: followed by a no-break
    space (code point 160), which [strip] removes as it removes a space. *)
Definition quit_nbsp : string := "Quit" +:+ String (ascii_of_nat 160) "".

(** The durations of the sleeps of a trace. *)
Definition sleeps (t : list event) : list nat :=
  omap (fun e => match e with Sleep n => Some n | _ => None end) t.

(** The polls of a wait that are not followed by a sleep: the one that
    ended it, if it ended. *)
Definition final_polls {A} (o : outcome A) : nat :=
  match o with
  | OutOfFuel => 0
  | _ => 1
  end.

(** The outcomes of a process that ends with status 0 or 1 only, status 0
    standing for the normal return. *)
Definition plain_exit {A} (o : outcome A) : Prop :=
  match o with
  | Exited c => c = 1%Z
  | _ => True
  end.

(** * Properties *)

(** ** Strings *)

Module PyStrFacts.
Import PyStr.

Lemma contains_count c s : contains c s = negb (Nat.eqb (count c s) 0).
Proof.
  induction s as [|a s IH]; simpl; [reflexivity|].
  destruct (Ascii.eqb a c); simpl; [reflexivity | exact IH].
Qed.

Lemma count_app c s1 s2 : count c (s1 +:+ s2) = count c s1 + count c s2.
Proof. induction s1 as [|a s1 IH]; simpl; [reflexivity | rewrite IH; lia]. Qed.

Lemma split_not_nil c s : split c s <> [].
Proof.
  induction s as [|a s IH]; simpl; [discriminate|].
  destruct (Ascii.eqb a c); [discriminate|].
  destruct (split c s); discriminate.
Qed.

(** The first field of [split] is the text before the first separator. *)
Lemma split_head c s :
  exists h t, split c s = h :: t /\ contains c h = false /\
    (contains c s = true -> exists rest, s = h +:+ String c rest) /\
    (contains c s = false -> h = s /\ t = []).
Proof.
  induction s as [|a s IH]; simpl.
  - exists EmptyString, []. repeat split; try reflexivity; discriminate.
  - destruct (Ascii.eqb a c) eqn:E.
    + apply Ascii.eqb_eq in E; subst a.
      exists EmptyString, (split c s). repeat split; try discriminate.
      intros _. exists s. reflexivity.
    + destruct IH as (h & t & Hs & Hh & Hyes & Hno). rewrite Hs.
      exists (String a h), t. simpl. rewrite E. repeat split; try assumption.
      * intros Hc. destruct (Hyes Hc) as [rest ->]. exists rest. reflexivity.
      * f_equal. apply Hno. assumption.
      * apply Hno. assumption.
Qed.

(** [rsplit1] cuts at the last separator, when there is one. *)
Lemma rsplit1_shape c s :
  (contains c s = false /\ rsplit1 c s = [s]) \/
  (exists n v, rsplit1 c s = [n; v] /\ s = n +:+ String c v /\
               contains c v = false).
Proof.
  induction s as [|a s IH]; simpl.
  - left. split; reflexivity.
  - destruct IH as [[Hc Hr] | (n & v & Hr & Hs & Hv)]; rewrite Hr.
    + destruct (Ascii.eqb a c) eqn:E.
      * apply Ascii.eqb_eq in E; subst a. right.
        exists EmptyString, s. repeat split; assumption.
      * left. split; [assumption | reflexivity].
    + right. exists (String a n), v.
      split; [reflexivity | split; [subst s; reflexivity | exact Hv]].
Qed.

Lemma rsplit1_some c s :
  contains c s = true ->
  exists n v, rsplit1 c s = [n; v] /\ s = n +:+ String c v /\
              contains c v = false.
Proof.
  intros Hc. destruct (rsplit1_shape c s) as [[Hn _] | H]; [congruence | exact H].
Qed.

Lemma lower_char_idem a : lower_char (lower_char a) = lower_char a.
Proof. destruct a as [[] [] [] [] [] [] [] []]; reflexivity. Qed.

Lemma lower_idem s : lower (lower s) = lower s.
Proof.
  induction s as [|a s IH]; simpl; [reflexivity|].
  rewrite lower_char_idem, IH. reflexivity.
Qed.

End PyStrFacts.

(** ** Traces *)

Lemma remote_calls_app t1 t2 :
  remote_calls (t1 ++ t2) = remote_calls t1 ++ remote_calls t2.
Proof. apply omap_app. Qed.

Lemma shell_commands_app t1 t2 :
  shell_commands (t1 ++ t2) = shell_commands t1 ++ shell_commands t2.
Proof. apply omap_app. Qed.

Lemma printed_app t1 t2 : printed (t1 ++ t2) = printed t1 ++ printed t2.
Proof. apply omap_app. Qed.

Lemma polls_app t1 t2 : polls (t1 ++ t2) = polls t1 + polls t2.
Proof. unfold polls. rewrite List.filter_app, length_app. reflexivity. Qed.

Lemma added_app t0 d st : added t0 {| stdin := st; trace := t0 ++ d |} = d.
Proof. unfold added. simpl. apply drop_app_length. Qed.

Lemma after_after s d1 d2 : after (after s d1) d2 = after s (d1 ++ d2).
Proof. unfold after. simpl. rewrite app_assoc. reflexivity. Qed.

(** Two states built from the same one by the same events. *)
Ltac same_state :=
  rewrite ?after_after; unfold after; simpl; rewrite <- ?app_assoc; simpl;
  reflexivity.

Lemma emit_after e s : emit e s = after s [e].
Proof. reflexivity. Qed.

Lemma added_after s d : added (trace s) (after s d) = d.
Proof. apply added_app. Qed.

Lemma returns_ret {A} (a : A) h s : returns (ret a) h s a [].
Proof.
  unfold returns, ret, after. rewrite app_nil_r. destruct s; reflexivity.
Qed.

Lemma returns_bind {A B} (m : M A) (k : A -> M B) h s a d1 b d2 :
  returns m h s a d1 ->
  returns (k a) h (after s d1) b d2 ->
  returns (bind m k) h s b (d1 ++ d2).
Proof.
  unfold returns, bind. intros -> ->. rewrite after_after. reflexivity.
Qed.

Lemma returns_print l h s : returns (print l) h s tt [Print l].
Proof. reflexivity. Qed.

Lemma returns_os_system c h s : returns (os_system c) h s tt [System c].
Proof. reflexivity. Qed.

Lemma returns_environ_get name h s :
  returns (environ_get name) h s (environ h !! name) [].
Proof.
  unfold returns, environ_get, after. rewrite app_nil_r. destruct s; reflexivity.
Qed.

Lemma returns_environ_get_default name d h s :
  returns (environ_get_default name d) h s (default d (environ h !! name)) [].
Proof.
  unfold returns, environ_get_default, after. rewrite app_nil_r.
  destruct s; reflexivity.
Qed.

Lemma returns_remote {A} c (ask : Service -> list event -> reply A) rec h s a :
  ask (service h) (trace s) = inr a ->
  returns (remote c ask rec) h s a [Remote c (inr (rec a))].
Proof. unfold returns, remote. intros ->. reflexivity. Qed.

Lemma raised_bind {A B} (m : M A) (k : A -> M B) h s e s' :
  m h s = (Raised e, s') -> bind m k h s = (Raised e, s').
Proof. unfold bind. intros ->. reflexivity. Qed.

Lemma exited_bind {A B} (m : M A) (k : A -> M B) h s c s' :
  m h s = (Exited c, s') -> bind m k h s = (Exited c, s').
Proof. unfold bind. intros ->. reflexivity. Qed.

Lemma bind_returns_eq {A B} (m : M A) (k : A -> M B) h s a d :
  returns m h s a d -> bind m k h s = k a h (after s d).
Proof. unfold returns, bind. intros ->. reflexivity. Qed.

(** ** The two ways of reading an agent id *)

Lemma parse_agent_id_colon agent_id h s :
  PyStr.contains ":" agent_id = true ->
  exists n v,
    Foundry.parse_agent_id agent_id h s = (Returned (n, v), s) /\
    agent_id = n +:+ ":" +:+ v /\ PyStr.contains ":" v = false.
Proof.
  intros Hc. destruct (PyStrFacts.rsplit1_some _ _ Hc) as (n & v & Hr & Hs & Hv).
  exists n, v. unfold Foundry.parse_agent_id. rewrite Hc, Hr.
  repeat split; assumption.
Qed.

Lemma parse_agent_id_plain agent_id h s :
  PyStr.contains ":" agent_id = false ->
  Foundry.parse_agent_id agent_id h s = (Returned (agent_id, "1"), s).
Proof. intros Hc. unfold Foundry.parse_agent_id. rewrite Hc. reflexivity. Qed.

(** [parse_agent_id] always returns, and touches nothing. *)
Lemma parse_agent_id_total agent_id h s :
  exists n v, Foundry.parse_agent_id agent_id h s = (Returned (n, v), s).
Proof.
  destruct (PyStr.contains ":" agent_id) eqn:Hc.
  - destruct (parse_agent_id_colon agent_id h s Hc) as (n & v & H & _).
    exists n, v. exact H.
  - exists agent_id, "1". apply parse_agent_id_plain. exact Hc.
Qed.

Lemma chat_agent_name_colon agent_id h s :
  PyStr.contains ":" agent_id = true ->
  exists n rest,
    Foundry.chat_agent_name agent_id h s = (Returned n, s) /\
    agent_id = n +:+ ":" +:+ rest /\ PyStr.contains ":" n = false.
Proof.
  intros Hc.
  destruct (PyStrFacts.split_head ":" agent_id) as (n & t & Hs & Hn & Hyes & _).
  destruct (Hyes Hc) as [rest Hrest].
  exists n, rest. unfold Foundry.chat_agent_name. rewrite Hc, Hs.
  repeat split; assumption.
Qed.

Lemma chat_agent_name_plain agent_id h s :
  PyStr.contains ":" agent_id = false ->
  Foundry.chat_agent_name agent_id h s = (Returned agent_id, s).
Proof. intros Hc. unfold Foundry.chat_agent_name. rewrite Hc. reflexivity. Qed.

Lemma chat_agent_name_total agent_id h s :
  exists n, Foundry.chat_agent_name agent_id h s = (Returned n, s).
Proof.
  destruct (PyStr.contains ":" agent_id) eqn:Hc.
  - destruct (chat_agent_name_colon agent_id h s Hc) as (n & r & H & _).
    exists n. exact H.
  - exists agent_id. apply chat_agent_name_plain. exact Hc.
Qed.

Lemma after_nil s : after s [] = s.
Proof. unfold after. rewrite app_nil_r. destruct s; reflexivity. Qed.

Lemma returns_pure {A} (m : M A) h s a :
  m h s = (Returned a, s) -> returns m h s a [].
Proof. unfold returns. rewrite after_nil. trivial. Qed.

Lemma get_project_client_ok h s endpoint :
  PyStr.truthy (environ h !! "PROJECT_ENDPOINT") = Some endpoint ->
  Foundry.get_project_client h s = (Returned tt, s).
Proof.
  intros Hep. unfold Foundry.get_project_client, bind, environ_get.
  rewrite Hep. reflexivity.
Qed.

Lemma get_project_client_missing h s :
  PyStr.truthy (environ h !! "PROJECT_ENDPOINT") = None ->
  Foundry.get_project_client h s =
    (Raised (ValueError "PROJECT_ENDPOINT environment variable is required"), s).
Proof.
  intros Hep. unfold Foundry.get_project_client, bind, environ_get.
  rewrite Hep. reflexivity.
Qed.

(** ** Teardown *)

(** One guarded deletion: whatever the service answers, the block
    returns, the call was made once, and a failure left its warning. *)
Lemma guarded_deletion (a b what : string) (c : call)
    (ask : Service -> list event -> reply unit) h s :
  exists d,
    returns (try_except (print a;; remote c ask no_answer;; print b)
                        (fun e => print ("  Warning: Could not delete " +:+ what
                                           +:+ ": " +:+ str_exn e))) h s tt d /\
    remote_calls d = [c] /\
    (forall c' e, In (Remote c' (inl e)) d -> In (warning what e) d).
Proof.
  unfold returns, try_except, bind, print, remote. simpl.
  destruct (ask (service h) (trace s ++ [Print a])) as [e | []] eqn:E.
  - exists [Print a; Remote c (inl e); warning what e].
    split; [| split].
    + unfold emit, after. simpl. rewrite <- !app_assoc. reflexivity.
    + reflexivity.
    + intros c' e' [H | [H | [H | []]]]; try discriminate.
      injection H as _ ->. right. right. left. reflexivity.
  - exists [Print a; Remote c (inr ANone); Print b].
    split; [| split].
    + unfold emit, after. simpl. rewrite <- !app_assoc. reflexivity.
    + reflexivity.
    + intros c' e' [H | [H | [H | []]]]; discriminate.
Qed.

Lemma agent_deletion agent_id h s :
  exists d n v,
    returns (try_except
               ('(agent_name, agent_version) ← Foundry.parse_agent_id agent_id;
                print ("  Deleting agent: " +:+ agent_name +:+ " version "
                         +:+ agent_version);;
                call_agents_delete_version agent_name agent_version;;
                print "  Agent deleted.")
               (fun e => print ("  Warning: Could not delete agent: " +:+ str_exn e)))
            h s tt d /\
    Foundry.parse_agent_id agent_id h s = (Returned (n, v), s) /\
    remote_calls d = [AgentsDeleteVersion n v] /\
    (forall c' e, In (Remote c' (inl e)) d -> In (warning "agent" e) d).
Proof.
  destruct (parse_agent_id_total agent_id h s) as (n & v & Hp).
  destruct (guarded_deletion
              ("  Deleting agent: " +:+ n +:+ " version " +:+ v)
              "  Agent deleted." "agent" (AgentsDeleteVersion n v)
              (fun sv t => agents_delete_version sv t n v) h s)
    as (d & Hd & Hc & Hw).
  exists d, n, v. split; [| split; [exact Hp | split; [exact Hc | exact Hw]]].
  unfold returns, try_except in *. unfold bind at 1. rewrite Hp.
  exact Hd.
Qed.

(** A deletion that is attempted only for a present identifier. *)
Lemma optional_deletion (v : option string) (block : string -> M unit)
    (mk : string -> call) (what : string) h s :
  (forall id s0, exists d,
      returns (block id) h s0 tt d /\ remote_calls d = [mk id] /\
      (forall c' e, In (Remote c' (inl e)) d -> In (warning what e) d)) ->
  exists d,
    returns (match PyStr.truthy v with
             | Some id => block id
             | None => ret tt
             end) h s tt d /\
    remote_calls d = due mk v /\
    (forall c' e, In (Remote c' (inl e)) d -> In (warning what e) d).
Proof.
  intros Hblock. unfold due. destruct (PyStr.truthy v) as [id |].
  - apply Hblock.
  - exists []. split; [apply returns_ret | split; [reflexivity | intros ? ? []]].
Qed.

Lemma teardown_run h s endpoint :
  PyStr.truthy (environ h !! "PROJECT_ENDPOINT") = Some endpoint ->
  exists d agent_calls,
    Foundry.delete_agent_and_resources h s = (Returned tt, after s d) /\
    remote_calls d =
      agent_calls ++ due VectorStoresDelete (environ h !! "VECTORSTORE_ID")
                  ++ due FilesDelete (environ h !! "FILE_ID") /\
    match PyStr.truthy (environ h !! "AGENT_ID") with
    | Some agent_id =>
        exists n v,
          Foundry.parse_agent_id agent_id h s = (Returned (n, v), s) /\
          agent_calls = [AgentsDeleteVersion n v]
    | None => agent_calls = []
    end /\
    (forall c e, In (Remote c (inl e)) d ->
       exists what, In (warning what e) d) /\
    (forall id,
       PyStr.truthy (environ h !! "AGENT_ID") = None ->
       PyStr.truthy (environ h !! "VECTORSTORE_ID") = Some id ->
       PyStr.truthy (environ h !! "FILE_ID") = None ->
       remote_calls d = [VectorStoresDelete id]).
Proof.
  intros Hep.
  set (s1 := after s [Print "Deleting Standard Agent and resources..."]).
  (* the agent *)
  assert (exists d1 calls1,
    returns (match PyStr.truthy (environ h !! "AGENT_ID") with
             | Some agent_id =>
                 try_except
                   ('(agent_name, agent_version) ← Foundry.parse_agent_id agent_id;
                    print ("  Deleting agent: " +:+ agent_name +:+ " version "
                             +:+ agent_version);;
                    call_agents_delete_version agent_name agent_version;;
                    print "  Agent deleted.")
                   (fun e => print ("  Warning: Could not delete agent: "
                                      +:+ str_exn e))
             | None => ret tt
             end) h s1 tt d1 /\
    remote_calls d1 = calls1 /\
    match PyStr.truthy (environ h !! "AGENT_ID") with
    | Some agent_id =>
        exists n v,
          Foundry.parse_agent_id agent_id h s = (Returned (n, v), s) /\
          calls1 = [AgentsDeleteVersion n v]
    | None => calls1 = []
    end /\
    (forall c' e, In (Remote c' (inl e)) d1 -> In (warning "agent" e) d1))
    as (d1 & calls1 & H1 & Hc1 & Hid1 & Hw1).
  { destruct (PyStr.truthy (environ h !! "AGENT_ID")) as [agent_id |].
    - destruct (agent_deletion agent_id h s1) as (d & n & v & Hr & Hp & Hc & Hw).
      exists d, [AgentsDeleteVersion n v].
      split; [exact Hr | split; [exact Hc | split; [| exact Hw]]].
      exists n, v. split; [| reflexivity].
      destruct (parse_agent_id_total agent_id h s) as (n' & v' & Hp').
      unfold Foundry.parse_agent_id in *.
      destruct (PyStr.contains ":" agent_id);
        [destruct (PyStr.rsplit1 ":" agent_id) as [| ? [| ? [| ? ?]]] |];
        simpl in *; try discriminate; injection Hp as <- <-; reflexivity.
    - exists [], []. split; [apply returns_ret |].
      split; [reflexivity | split; [reflexivity | intros ? ? []]]. }
  (* the vector store *)
  destruct (optional_deletion (environ h !! "VECTORSTORE_ID")
              (fun id => try_except
                 (print ("  Deleting vector store: " +:+ id);;
                  call_vector_stores_delete id;;
                  print "  Vector store deleted.")
                 (fun e => print ("  Warning: Could not delete vector store: "
                                    +:+ str_exn e)))
              VectorStoresDelete "vector store" h (after s1 d1))
    as (d2 & H2 & Hc2 & Hw2).
  { intros id s0.
    exact (guarded_deletion _ _ "vector store" (VectorStoresDelete id)
             (fun sv t => vector_stores_delete sv t id) h s0). }
  (* the file *)
  destruct (optional_deletion (environ h !! "FILE_ID")
              (fun id => try_except
                 (print ("  Deleting file: " +:+ id);;
                  call_files_delete id;;
                  print "  File deleted.")
                 (fun e => print ("  Warning: Could not delete file: "
                                    +:+ str_exn e)))
              FilesDelete "file" h (after (after s1 d1) d2))
    as (d3 & H3 & Hc3 & Hw3).
  { intros id s0.
    exact (guarded_deletion _ _ "file" (FilesDelete id)
             (fun sv t => files_delete sv t id) h s0). }
  exists ([Print "Deleting Standard Agent and resources..."] ++ d1 ++ d2 ++ d3
            ++ [Print ""; Print "Cleanup completed."]), calls1.
  split; [| split; [| split; [exact Hid1 | split]]].
  - unfold Foundry.delete_agent_and_resources.
    rewrite (bind_returns_eq _ _ _ _ _ _ (returns_print _ h s)). fold s1.
    rewrite (bind_returns_eq _ _ _ _ _ _ (returns_environ_get _ h s1)).
    rewrite (bind_returns_eq _ _ _ _ _ _ (returns_environ_get _ h _)).
    rewrite (bind_returns_eq _ _ _ _ _ _ (returns_environ_get _ h _)).
    rewrite !after_nil.
    rewrite (bind_returns_eq _ _ _ _ _ _
               (returns_pure _ h s1 tt (get_project_client_ok h s1 _ Hep))).
    rewrite after_nil.
    rewrite (bind_returns_eq _ _ _ _ _ _ H1).
    rewrite (bind_returns_eq _ _ _ _ _ _ H2).
    rewrite (bind_returns_eq _ _ _ _ _ _ H3).
    unfold bind, print, emit, after, s1. simpl.
    rewrite <- !app_assoc. reflexivity.
  - rewrite !remote_calls_app, Hc1, Hc2, Hc3. simpl. rewrite app_nil_r.
    reflexivity.
  - intros c e Hin. rewrite !in_app_iff in Hin.
    destruct Hin as [Hin | [Hin | [Hin | [Hin | Hin]]]].
    + destruct Hin as [Hin | []]; discriminate.
    + exists "agent". rewrite !in_app_iff. right. left. apply (Hw1 c). exact Hin.
    + exists "vector store". rewrite !in_app_iff. right. right. left.
      apply (Hw2 c). exact Hin.
    + exists "file". rewrite !in_app_iff. right. right. right. left.
      apply (Hw3 c). exact Hin.
    + destruct Hin as [Hin | [Hin | []]]; discriminate.
  - intros id Ha Hv Hf. rewrite Ha in Hid1.
    rewrite !remote_calls_app, Hc1, Hid1, Hc2, Hc3.
    unfold due. rewrite Hv, Hf. reflexivity.
Qed.

(** C3.  Teardown is best effort.  With the project endpoint configured,
    [delete_agent_and_resources] always returns normally, whatever the
    service answers to the deletions.  The deletions it attempts are
    decided by the identifiers alone: the agent version when [AGENT_ID] is
    present, then the vector store when [VECTORSTORE_ID] is present, then
    the file when [FILE_ID] is present, each absent (or empty) identifier
    being skipped.  Every deletion that raised left a warning line in the
    output.  In particular, with only [VECTORSTORE_ID] present the one
    remote call is the deletion of that vector store. *)
Theorem teardown_best_effort h s endpoint :
  PyStr.truthy (environ h !! "PROJECT_ENDPOINT") = Some endpoint ->
  exists d agent_calls,
    Foundry.delete_agent_and_resources h s = (Returned tt, after s d) /\
    remote_calls d =
      agent_calls ++ due VectorStoresDelete (environ h !! "VECTORSTORE_ID")
                  ++ due FilesDelete (environ h !! "FILE_ID") /\
    match PyStr.truthy (environ h !! "AGENT_ID") with
    | Some agent_id =>
        exists n v,
          Foundry.parse_agent_id agent_id h s = (Returned (n, v), s) /\
          agent_calls = [AgentsDeleteVersion n v]
    | None => agent_calls = []
    end /\
    (forall c e, In (Remote c (inl e)) d ->
       exists what, In (warning what e) d) /\
    (forall id,
       PyStr.truthy (environ h !! "AGENT_ID") = None ->
       PyStr.truthy (environ h !! "VECTORSTORE_ID") = Some id ->
       PyStr.truthy (environ h !! "FILE_ID") = None ->
       remote_calls d = [VectorStoresDelete id]).
Proof. apply teardown_run. Qed.

Lemma teardown_best_effort_witness :
  exists d,
    Foundry.delete_agent_and_resources only_store_host (start [])
      = (Returned tt, after (start []) d) /\
    remote_calls d = [VectorStoresDelete "vs_9"] /\
    In (Remote (VectorStoresDelete "vs_9") (inl (ServiceError "store busy"))) d.
Proof.
  destruct (teardown_best_effort only_store_host (start []) "https://example.test")
    as (d & calls & Hrun & _ & _ & _ & Honly).
  - vm_compute. reflexivity.
  - exists d. split; [exact Hrun | split].
    + apply Honly; vm_compute; reflexivity.
    + assert (Hd : d = added [] (snd (Foundry.delete_agent_and_resources
                                        only_store_host (start [])))).
      { rewrite Hrun. symmetry. apply (added_after (start [])). }
      rewrite Hd. vm_compute. tauto.
Defined.

(** ** The readiness wait *)

Lemma obeys_tail sv t0 x script d :
  obeys sv t0 (x :: script) -> polls d = 1 -> obeys sv (t0 ++ d) script.
Proof.
  intros Hob Hd t id k st Hp Hk. apply (Hob t id (S k) st).
  - rewrite Hp, polls_app, Hd. lia.
  - exact Hk.
Qed.

Lemma eqb_neq_false (a b : string) : a <> b -> String.eqb a b = false.
Proof. intros H. apply String.eqb_neq. exact H. Qed.

(** One poll that reports a status which is not terminal: sleep and go
    round again. *)
Lemma await_ready_again fuel id h s v :
  vector_stores_retrieve (service h) (trace s) id = inr v ->
  ~ terminal (v_status v) ->
  Foundry.await_ready (S fuel) id h s =
    Foundry.await_ready fuel id h
      (after s [Remote (VectorStoresRetrieve id) (inr (AStore v)); Sleep 1]).
Proof.
  intros Hv Hnt. unfold terminal in Hnt.
  change (Foundry.await_ready (S fuel) id h s) with
    (bind (call_vector_stores_retrieve id)
       (fun vs_status =>
          if String.eqb (v_status vs_status) "completed" then
            print "  Vector store ready!"
          else if String.eqb (v_status vs_status) "failed" then
            raise (RuntimeError ("Vector store creation failed: " +:+ v_text vs_status))
          else bind (time_sleep 1) (fun _ => Foundry.await_ready fuel id)) h s).
  unfold bind at 1, call_vector_stores_retrieve, remote. rewrite Hv.
  rewrite !eqb_neq_false by tauto.
  unfold bind, time_sleep. rewrite !emit_after, after_after. reflexivity.
Qed.

Lemma await_ready_completed fuel id h s v :
  vector_stores_retrieve (service h) (trace s) id = inr v ->
  v_status v = "completed" ->
  Foundry.await_ready (S fuel) id h s =
    (Returned tt,
     after s [Remote (VectorStoresRetrieve id) (inr (AStore v));
              Print "  Vector store ready!"]).
Proof.
  intros Hv Hst. simpl.
  unfold bind at 1, call_vector_stores_retrieve, remote. rewrite Hv, Hst.
  change (String.eqb "completed" "completed") with true. cbv beta iota.
  unfold print. rewrite !emit_after, after_after. reflexivity.
Qed.

Lemma await_ready_failed fuel id h s v :
  vector_stores_retrieve (service h) (trace s) id = inr v ->
  v_status v = "failed" ->
  Foundry.await_ready (S fuel) id h s =
    (Raised (RuntimeError ("Vector store creation failed: " +:+ v_text v)),
     after s [Remote (VectorStoresRetrieve id) (inr (AStore v))]).
Proof.
  intros Hv Hst. simpl.
  unfold bind at 1, call_vector_stores_retrieve, remote. rewrite Hv, Hst.
  change (String.eqb "failed" "completed") with false.
  change (String.eqb "failed" "failed") with true. cbv beta iota.
  unfold raise. rewrite !emit_after. reflexivity.
Qed.

Lemma await_ready_call_raises fuel id h s e :
  vector_stores_retrieve (service h) (trace s) id = inl e ->
  Foundry.await_ready (S fuel) id h s =
    (Raised e, after s [Remote (VectorStoresRetrieve id) (inl e)]).
Proof.
  intros Hv. simpl.
  unfold bind at 1, call_vector_stores_retrieve, remote. rewrite Hv.
  reflexivity.
Qed.

Lemma await_ready_scripted pre : forall h s id fuel st post,
  obeys (service h) (trace s) (pre ++ st :: post) ->
  Forall (fun x => ~ terminal x) pre ->
  terminal st ->
  length pre < fuel ->
  exists d,
    polls d = S (length pre) /\ statuses_seen d = pre ++ [st] /\
    ((st = "completed" /\
      Foundry.await_ready fuel id h s = (Returned tt, after s d)) \/
     (st = "failed" /\
      exists msg,
        Foundry.await_ready fuel id h s = (Raised (RuntimeError msg), after s d))).
Proof.
  induction pre as [| x pre IH]; intros h s id fuel st post Hob Hpre Hst Hfuel;
    (destruct fuel as [| fuel]; [simpl in Hfuel; lia |]).
  - destruct (Hob (trace s) id 0 st) as (v & Hv & Hvs);
      [lia | reflexivity |].
    destruct Hst as [-> | ->].
    + exists [Remote (VectorStoresRetrieve id) (inr (AStore v));
              Print "  Vector store ready!"].
      split; [reflexivity | split; [simpl; rewrite Hvs; reflexivity |]].
      left. split; [reflexivity |]. apply await_ready_completed; assumption.
    + exists [Remote (VectorStoresRetrieve id) (inr (AStore v))].
      split; [reflexivity | split; [simpl; rewrite Hvs; reflexivity |]].
      right. split; [reflexivity |]. eexists.
      apply await_ready_failed; assumption.
  - destruct (Hob (trace s) id 0 x) as (v & Hv & Hvs);
      [lia | reflexivity |].
    inversion Hpre as [| ? ? Hx Hpre']; subst.
    set (d1 := [Remote (VectorStoresRetrieve id) (inr (AStore v)); Sleep 1]).
    destruct (IH h (after s d1) id fuel st post) as (d & Hp & Hseen & Hrun).
    + simpl. eapply obeys_tail; [exact Hob | reflexivity].
    + exact Hpre'.
    + exact Hst.
    + simpl in Hfuel. lia.
    + exists (d1 ++ d).
      split; [rewrite polls_app, Hp; reflexivity |].
      split; [unfold statuses_seen in *; rewrite omap_app, Hseen; reflexivity |].
      rewrite (await_ready_again fuel id h s v Hv Hx), <- after_after.
      exact Hrun.
Qed.

Lemma await_ready_waiting fuel : forall h s id script,
  obeys (service h) (trace s) script ->
  Forall (fun x => ~ terminal x) script ->
  fuel <= length script ->
  exists d,
    Foundry.await_ready fuel id h s = (OutOfFuel, after s d) /\
    statuses_seen d = take fuel script.
Proof.
  induction fuel as [| fuel IH]; intros h s id script Hob Hall Hfuel.
  - exists []. rewrite after_nil. split; reflexivity.
  - destruct script as [| x script]; [simpl in Hfuel; lia |].
    destruct (Hob (trace s) id 0 x) as (v & Hv & Hvs);
      [lia | reflexivity |].
    inversion Hall as [| ? ? Hx Hall']; subst.
    set (d1 := [Remote (VectorStoresRetrieve id) (inr (AStore v)); Sleep 1]).
    destruct (IH h (after s d1) id script) as (d & Hrun & Hseen).
    + simpl. eapply obeys_tail; [exact Hob | reflexivity].
    + exact Hall'.
    + simpl in Hfuel. lia.
    + exists (d1 ++ d).
      rewrite (await_ready_again fuel id h s v Hv Hx), <- after_after.
      split; [exact Hrun |].
      unfold statuses_seen in *. rewrite omap_app, Hseen. reflexivity.
Qed.

(** C1.  The readiness wait polls once per status of the script until a
    terminal status appears.  When the service answers the polls with
    [pre ++ st :: post], no status of [pre] being terminal and [st] being
    ["completed"] or ["failed"], the wait makes exactly [length pre + 1]
    polls and sees exactly the statuses [pre ++ [st]]; it returns normally
    exactly when [st] is ["completed"], and raises [RuntimeError] (the
    provisioning error of the specification) exactly when [st] is
    ["failed"].  As long as no terminal status appears it keeps polling:
    on a script without one, every bound of [fuel] polls within the script
    is used up. *)
Theorem readiness_wait_polls_until_terminal h s id fuel :
  (forall pre st post,
     obeys (service h) (trace s) (pre ++ st :: post) ->
     Forall (fun x => ~ terminal x) pre ->
     terminal st ->
     length pre < fuel ->
     exists d,
       polls d = S (length pre) /\ statuses_seen d = pre ++ [st] /\
       ((st = "completed" /\
         Foundry.await_ready fuel id h s = (Returned tt, after s d)) \/
        (st = "failed" /\
         exists msg,
           Foundry.await_ready fuel id h s
             = (Raised (RuntimeError msg), after s d)))) /\
  (forall script,
     obeys (service h) (trace s) script ->
     Forall (fun x => ~ terminal x) script ->
     fuel <= length script ->
     exists d,
       Foundry.await_ready fuel id h s = (OutOfFuel, after s d) /\
       statuses_seen d = take fuel script).
Proof.
  split.
  - intros pre st post. apply await_ready_scripted.
  - intros script. apply await_ready_waiting.
Qed.

Lemma scripted_obeys script : obeys (scripted script) [] script.
Proof.
  intros t id k st Hp Hk. simpl in Hp. subst k.
  exists (store id (default "in_progress" (script !! polls t))).
  split; [reflexivity |]. simpl. rewrite Hk. reflexivity.
Qed.

Lemma in_progress_not_terminal : ~ terminal "in_progress".
Proof. intros [H | H]; discriminate. Qed.

Lemma readiness_wait_witness :
  (exists d,
     polls d = 3 /\
     statuses_seen d = ["in_progress"; "in_progress"; "completed"] /\
     Foundry.await_ready 3 "vs_1"
       (host_of [] (scripted ["in_progress"; "in_progress"; "completed"]))
       (start []) = (Returned tt, after (start []) d)) /\
  (exists d msg,
     polls d = 2 /\
     statuses_seen d = ["in_progress"; "failed"] /\
     Foundry.await_ready 2 "vs_1"
       (host_of [] (scripted ["in_progress"; "failed"]))
       (start []) = (Raised (RuntimeError msg), after (start []) d)).
Proof.
  split.
  - destruct (proj1 (readiness_wait_polls_until_terminal
                       (host_of [] (scripted ["in_progress"; "in_progress"; "completed"]))
                       (start []) "vs_1" 3)
                ["in_progress"; "in_progress"] "completed" [])
      as (d & Hp & Hseen & [[_ Hrun] | [Hst _]]).
    + apply scripted_obeys.
    + repeat constructor; apply in_progress_not_terminal.
    + left; reflexivity.
    + simpl; lia.
    + exists d. split; [exact Hp | split; [exact Hseen | exact Hrun]].
    + discriminate Hst.
  - destruct (proj1 (readiness_wait_polls_until_terminal
                       (host_of [] (scripted ["in_progress"; "failed"]))
                       (start []) "vs_1" 2)
                ["in_progress"] "failed" [])
      as (d & Hp & Hseen & [[Hst _] | [_ [msg Hrun]]]).
    + apply scripted_obeys.
    + repeat constructor; apply in_progress_not_terminal.
    + right; reflexivity.
    + simpl; lia.
    + discriminate Hst.
    + exists d, msg. split; [exact Hp | split; [exact Hseen | exact Hrun]].
Defined.

(** ** Order of provisioning *)

(** However the wait ends, it went through waiting events and ended on
    the poll that decided it. *)
Lemma await_ready_inv fuel : forall id h s o s',
  Foundry.await_ready fuel id h s = (o, s') ->
  exists d0,
    Forall (waiting id) d0 /\
    match o with
    | Returned _ =>
        exists v,
          s' = after s (d0 ++ [Remote (VectorStoresRetrieve id) (inr (AStore v));
                               Print "  Vector store ready!"]) /\
          v_status v = "completed"
    | Raised e =>
        (exists v,
           s' = after s (d0 ++ [Remote (VectorStoresRetrieve id) (inr (AStore v))]) /\
           v_status v = "failed" /\
           e = RuntimeError ("Vector store creation failed: " +:+ v_text v)) \/
        s' = after s (d0 ++ [Remote (VectorStoresRetrieve id) (inl e)])
    | Exited _ => False
    | OutOfFuel => s' = after s d0
    end.
Proof.
  induction fuel as [| fuel IH]; intros id h s o s' Hrun.
  - simpl in Hrun. injection Hrun as <- <-. exists [].
    split; [constructor | rewrite after_nil; reflexivity].
  - destruct (vector_stores_retrieve (service h) (trace s) id) as [e | v] eqn:Hv.
    + rewrite (await_ready_call_raises _ _ _ _ _ Hv) in Hrun.
      injection Hrun as <- <-. exists []. split; [constructor |].
      right. reflexivity.
    + destruct (String.eqb (v_status v) "completed") eqn:Hc;
        [| destruct (String.eqb (v_status v) "failed") eqn:Hf].
      * apply String.eqb_eq in Hc.
        rewrite (await_ready_completed _ _ _ _ _ Hv Hc) in Hrun.
        injection Hrun as <- <-. exists []. split; [constructor |].
        exists v. split; [reflexivity | exact Hc].
      * apply String.eqb_eq in Hf.
        rewrite (await_ready_failed _ _ _ _ _ Hv Hf) in Hrun.
        injection Hrun as <- <-. exists []. split; [constructor |].
        left. exists v. repeat split; assumption.
      * apply String.eqb_neq in Hc, Hf.
        assert (Hnt : ~ terminal (v_status v)) by (intros [? | ?]; contradiction).
        rewrite (await_ready_again _ _ _ _ _ Hv Hnt) in Hrun.
        destruct (IH _ _ _ _ _ Hrun) as (d0 & Hd0 & Hend).
        exists ([Remote (VectorStoresRetrieve id) (inr (AStore v)); Sleep 1] ++ d0).
        split.
        { simpl. constructor; [right; exists v; split; [reflexivity | exact Hnt] |].
          constructor; [left; reflexivity | exact Hd0]. }
        destruct o as [[] | e | c |].
        -- destruct Hend as (v' & -> & Hv'). exists v'.
           split; [same_state | exact Hv'].
        -- destruct Hend as [(v' & -> & Hst & ->) | ->].
           ++ left. exists v'. split; [same_state | split; [exact Hst | reflexivity]].
           ++ right. same_state.
        -- exact Hend.
        -- subst s'. same_state.
Qed.

Lemma agent_creations_app t1 t2 :
  agent_creations (t1 ++ t2) = agent_creations t1 ++ agent_creations t2.
Proof. apply omap_app. Qed.

Lemma waiting_no_creation id d0 :
  Forall (waiting id) d0 -> agent_creations d0 = [].
Proof.
  induction 1 as [| e d0 He _ IH]; [reflexivity |].
  destruct He as [-> | (v & -> & _)]; exact IH.
Qed.

Lemma waiting_not_terminal id d0 id' v :
  Forall (waiting id) d0 ->
  In (Remote (VectorStoresRetrieve id') (inr (AStore v))) d0 ->
  ~ terminal (v_status v).
Proof.
  induction 1 as [| e d0 He _ IH]; intros Hin; [destruct Hin |].
  destruct Hin as [-> | Hin]; [| exact (IH Hin)].
  destruct He as [He | (v' & He & Hnt)]; [discriminate |].
  injection He as _ <-. exact Hnt.
Qed.

Lemma waiting_not_creation id d0 name def r :
  Forall (waiting id) d0 -> ~ In (Remote (AgentsCreateVersion name def) r) d0.
Proof.
  induction 1 as [| e d0 He _ IH]; intros Hin; [destruct Hin |].
  destruct Hin as [-> | Hin]; [| exact (IH Hin)].
  destruct He as [He | (v' & He & Hnt)]; discriminate.
Qed.

(** ** Reasoning along a computation *)

Lemma yields_elim {A} (m : M A) h s post o s' :
  yields m h s post -> m h s = (o, s') ->
  exists d, s' = after s d /\ post o d.
Proof.
  intros (o0 & d & Hrun & Hpost) Heq. rewrite Hrun in Heq.
  injection Heq as <- <-. exists d. split; [reflexivity | exact Hpost].
Qed.

Lemma yields_weaken {A} (m : M A) h s (post post' : outcome A -> list event -> Prop) :
  yields m h s post -> (forall o d, post o d -> post' o d) -> yields m h s post'.
Proof. intros (o & d & Hrun & Hpost) Himp. exists o, d. auto. Qed.

Lemma yields_bind {A B} (m : M A) (k : A -> M B) h s post :
  yields m h s
    (fun o d1 =>
       match o with
       | Returned a => yields (k a) h (after s d1) (fun o' d2 => post o' (d1 ++ d2))
       | Raised e => post (Raised e) d1
       | Exited c => post (Exited c) d1
       | OutOfFuel => post OutOfFuel d1
       end) ->
  yields (bind m k) h s post.
Proof.
  intros (o & d1 & Hm & Hpost). unfold yields, bind. rewrite Hm.
  destruct o as [a | e | c |].
  - destruct Hpost as (o' & d2 & Hk & Hpost). exists o', (d1 ++ d2).
    rewrite Hk, after_after. split; [reflexivity | exact Hpost].
  - exists (Raised e), d1. split; [reflexivity | exact Hpost].
  - exists (Exited c), d1. split; [reflexivity | exact Hpost].
  - exists OutOfFuel, d1. split; [reflexivity | exact Hpost].
Qed.

Lemma yields_returns {A} (m : M A) h s a d (post : outcome A -> list event -> Prop) :
  returns m h s a d -> post (Returned a) d -> yields m h s post.
Proof. intros Hr Hp. exists (Returned a), d. split; assumption. Qed.

Lemma yields_ret {A} (a : A) h s (post : outcome A -> list event -> Prop) :
  post (Returned a) [] -> yields (ret a) h s post.
Proof. apply yields_returns, returns_ret. Qed.

Lemma yields_raise {A} e h s (post : outcome A -> list event -> Prop) :
  post (Raised e) [] -> yields (raise e) h s post.
Proof.
  intros Hp. exists (Raised e), []. rewrite after_nil. split; [reflexivity | exact Hp].
Qed.

Lemma yields_sys_exit {A} c h s (post : outcome A -> list event -> Prop) :
  post (Exited c) [] -> yields (sys_exit c) h s post.
Proof.
  intros Hp. exists (Exited c), []. rewrite after_nil. split; [reflexivity | exact Hp].
Qed.

Lemma yields_print l h s (post : outcome unit -> list event -> Prop) :
  post (Returned tt) [Print l] -> yields (print l) h s post.
Proof. apply yields_returns, returns_print. Qed.

Lemma yields_os_system c h s (post : outcome unit -> list event -> Prop) :
  post (Returned tt) [System c] -> yields (os_system c) h s post.
Proof. apply yields_returns, returns_os_system. Qed.

Lemma yields_environ_get name h s (post : outcome (option string) -> list event -> Prop) :
  post (Returned (environ h !! name)) [] -> yields (environ_get name) h s post.
Proof. apply yields_returns, returns_environ_get. Qed.

Lemma yields_environ_get_default name d h s
    (post : outcome string -> list event -> Prop) :
  post (Returned (default d (environ h !! name))) [] ->
  yields (environ_get_default name d) h s post.
Proof. apply yields_returns, returns_environ_get_default. Qed.

Lemma yields_remote {A} c (ask : Service -> list event -> reply A) rec h s
    (post : outcome A -> list event -> Prop) :
  (forall e, ask (service h) (trace s) = inl e ->
             post (Raised e) [Remote c (inl e)]) ->
  (forall a, ask (service h) (trace s) = inr a ->
             post (Returned a) [Remote c (inr (rec a))]) ->
  yields (remote c ask rec) h s post.
Proof.
  intros He Ha. unfold yields, remote.
  destruct (ask (service h) (trace s)) as [e | a].
  - exists (Raised e), [Remote c (inl e)]. split; [reflexivity | auto].
  - exists (Returned a), [Remote c (inr (rec a))]. split; [reflexivity | auto].
Qed.

Lemma yields_get_project_client h s (post : outcome unit -> list event -> Prop) :
  (PyStr.truthy (environ h !! "PROJECT_ENDPOINT") = None ->
   post (Raised (ValueError "PROJECT_ENDPOINT environment variable is required")) []) ->
  (forall endpoint,
     PyStr.truthy (environ h !! "PROJECT_ENDPOINT") = Some endpoint ->
     post (Returned tt) []) ->
  yields Foundry.get_project_client h s post.
Proof.
  intros Hnone Hsome.
  destruct (PyStr.truthy (environ h !! "PROJECT_ENDPOINT")) as [ep |] eqn:Hep.
  - exists (Returned tt), []. rewrite after_nil.
    split; [eapply get_project_client_ok; exact Hep | eauto].
  - exists (Raised (ValueError "PROJECT_ENDPOINT environment variable is required")), [].
    rewrite after_nil.
    split; [apply get_project_client_missing; exact Hep | auto].
Qed.

Lemma yields_await_ready fuel id h s (post : outcome unit -> list event -> Prop) :
  (forall d0 o last,
     Forall (waiting id) d0 ->
     match o with
     | Returned _ =>
         exists v, last = [Remote (VectorStoresRetrieve id) (inr (AStore v));
                           Print "  Vector store ready!"] /\
                   v_status v = "completed"
     | Raised e =>
         (exists v, last = [Remote (VectorStoresRetrieve id) (inr (AStore v))] /\
                    v_status v = "failed" /\
                    e = RuntimeError ("Vector store creation failed: " +:+ v_text v)) \/
         last = [Remote (VectorStoresRetrieve id) (inl e)]
     | Exited _ => False
     | OutOfFuel => last = []
     end ->
     post o (d0 ++ last)) ->
  yields (Foundry.await_ready fuel id) h s post.
Proof.
  intros Hpost.
  destruct (Foundry.await_ready fuel id h s) as [o s'] eqn:Hrun.
  destruct (await_ready_inv _ _ _ _ _ _ Hrun) as (d0 & Hd0 & Hend).
  unfold yields. rewrite Hrun. clear Hrun.
  destruct o as [[] | e | c |].
  - destruct Hend as (v & -> & Hv). eexists _, _. split; [reflexivity |].
    apply (Hpost d0 (Returned tt)); [exact Hd0 |]. exists v. split; [reflexivity | exact Hv].
  - destruct Hend as [(v & -> & Hv & ->) | ->].
    + eexists _, _. split; [reflexivity |].
      apply (Hpost d0 (Raised _)); [exact Hd0 |]. left. exists v. auto.
    + eexists _, _. split; [reflexivity |].
      apply (Hpost d0 (Raised e)); [exact Hd0 |]. right. reflexivity.
  - destruct Hend.
  - subst s'. exists OutOfFuel, d0. split; [reflexivity |].
    rewrite <- (app_nil_r d0). apply (Hpost d0 OutOfFuel); [exact Hd0 | reflexivity].
Qed.

Lemma yields_pure {A} (m : M A) h s a (post : outcome A -> list event -> Prop) :
  m h s = (Returned a, s) -> post (Returned a) [] -> yields m h s post.
Proof. intros Hm. apply yields_returns, returns_pure, Hm. Qed.

Lemma yields_open_docs h s (post : outcome unit -> list event -> Prop) :
  (forall e, docs_open h = Some e -> post (Raised e) []) ->
  (docs_open h = None -> post (Returned tt) []) ->
  yields Foundry.open_docs h s post.
Proof.
  intros Hfail Hopen. unfold yields, Foundry.open_docs.
  destruct (docs_open h) as [e |].
  - exists (Raised e), []. rewrite after_nil. split; [reflexivity | auto].
  - exists (Returned tt), []. rewrite after_nil. split; [reflexivity | auto].
Qed.

(** One step along a computation. *)
Ltac step :=
  unfold call_files_create, call_files_delete, call_vector_stores_create,
    call_vector_stores_retrieve, call_vector_stores_delete,
    call_agents_create_version, call_agents_delete_version, call_agents_list,
    call_conversations_create, call_conversations_delete,
    call_conversations_items_create, call_responses_create;
  lazymatch goal with
  | |- yields (bind _ _) _ _ _ => apply yields_bind
  | |- yields (print _) _ _ _ => apply yields_print
  | |- yields (ret _) _ _ _ => apply yields_ret
  | |- yields (raise _) _ _ _ => apply yields_raise
  | |- yields (sys_exit _) _ _ _ => apply yields_sys_exit
  | |- yields (os_system _) _ _ _ => apply yields_os_system
  | |- yields (environ_get _) _ _ _ => apply yields_environ_get
  | |- yields (environ_get_default _ _) _ _ _ => apply yields_environ_get_default
  | |- yields (remote _ _ _) _ _ _ =>
      apply yields_remote; [intros ? ? | intros ? ?]
  | |- yields Foundry.get_project_client _ _ _ =>
      apply yields_get_project_client; [intros ? | intros ? ?]
  | |- yields Foundry.docs_path _ _ _ =>
      apply (yields_pure Foundry.docs_path _ _ _ _ eq_refl)
  | |- yields Foundry.path_exists _ _ _ =>
      apply (yields_pure Foundry.path_exists _ _ _ _ eq_refl)
  | |- yields Foundry.open_docs _ _ _ =>
      apply yields_open_docs; [intros ? ? | intros ?]
  | |- yields (Foundry.await_ready _ _) _ _ _ =>
      let o := fresh "o" in
      let d0 := fresh "d0" in
      let last := fresh "last" in
      let Hd0 := fresh "Hd0" in
      let Hlast := fresh "Hlast" in
      let v := fresh "v" in
      let Hv := fresh "Hv" in
      apply yields_await_ready; intros d0 o last Hd0 Hlast;
      destruct o as [[] | ? | ? |];
      [ destruct Hlast as (v & -> & Hv)
      | destruct Hlast as [(v & -> & Hv & ->) | ->]
      | destruct Hlast
      | subst last ]
  | |- yields (if ?b then _ else _) _ _ _ =>
      first [ match goal with H : b = _ |- _ => rewrite H end
            | destruct b eqn:? ]
  | |- yields (match ?x with Some _ => _ | None => _ end) _ _ _ =>
      first [ match goal with H : x = _ |- _ => rewrite H end
            | destruct x eqn:? ]
  | |- yields (unpack2 ?l) _ _ _ =>
      match goal with H : l = _ |- _ => rewrite H; unfold unpack2 end
  end;
  cbv beta iota.

(** ** Order of provisioning (continued) *)

Lemma in_agent_creations name def r t :
  In (Remote (AgentsCreateVersion name def) r) t ->
  In (AgentsCreateVersion name def) (agent_creations t).
Proof.
  induction t as [| e t IH]; intros Hin; [destruct Hin |].
  destruct Hin as [-> | Hin]; [left; reflexivity |].
  simpl. destruct e as [| | | | [] ?]; simpl; auto.
Qed.

Lemma in_statuses_seen id v t :
  In (Remote (VectorStoresRetrieve id) (inr (AStore v))) t ->
  In (v_status v) (statuses_seen t).
Proof.
  induction t as [| e t IH]; intros Hin; [destruct Hin |].
  destruct Hin as [-> | Hin]; [left; reflexivity |].
  simpl. destruct e as [| | | | [] [? | []]]; simpl; auto.
Qed.

Lemma statuses_seen_app t1 t2 :
  statuses_seen (t1 ++ t2) = statuses_seen t1 ++ statuses_seen t2.
Proof. apply omap_app. Qed.

Lemma waiting_statuses id d0 :
  Forall (waiting id) d0 -> ~ In "failed" (statuses_seen d0).
Proof.
  induction 1 as [| e d0 He _ IH]; [intros [] |].
  destruct He as [-> | (v & -> & Hnt)]; [exact IH |].
  simpl. intros [Hf | Hin]; [| exact (IH Hin)].
  apply Hnt. right. exact Hf.
Qed.

Lemma no_creation_ok d : agent_creations d = [] -> created_after_completed d.
Proof.
  intros Hnone pre name def r post ->.
  assert (Hin : In (AgentsCreateVersion name def)
                   (agent_creations (pre ++ Remote (AgentsCreateVersion name def) r :: post))).
  { apply (in_agent_creations name def r). apply in_elt. }
  rewrite Hnone in Hin. destruct Hin.
Qed.

Lemma guarded_sound d : forall ready seen,
  (forall id, In id ready ->
     exists v, In (Remote (VectorStoresRetrieve id) (inr (AStore v))) seen /\
               v_status v = "completed") ->
  guarded ready d ->
  forall pre name def r post,
    d = pre ++ Remote (AgentsCreateVersion name def) r :: post ->
    exists id v,
      stores_of def = [id] /\
      In (Remote (VectorStoresRetrieve id) (inr (AStore v))) (seen ++ pre) /\
      v_status v = "completed".
Proof.
  induction d as [| e d IH]; intros ready seen Hready Hg pre name def r post Heq.
  - destruct pre; discriminate Heq.
  - destruct pre as [| e' pre].
    + simpl in Heq. injection Heq as -> ->. simpl in Hg.
      destruct Hg as [(id & Hst & Hin) _].
      destruct (Hready id Hin) as (v & Hv & Hc).
      exists id, v. rewrite app_nil_r. auto.
    + simpl in Heq. injection Heq as <- ->.
      assert (Hstep : exists ready',
                 guarded ready' (pre ++ Remote (AgentsCreateVersion name def) r :: post) /\
                 forall id, In id ready' ->
                   exists v, In (Remote (VectorStoresRetrieve id) (inr (AStore v)))
                                (seen ++ [e]) /\
                             v_status v = "completed").
      { assert (Hkeep : forall id, In id ready ->
                  exists v, In (Remote (VectorStoresRetrieve id) (inr (AStore v)))
                               (seen ++ [e]) /\
                            v_status v = "completed").
        { intros id Hin. destruct (Hready id Hin) as (v & Hv & Hc).
          exists v. split; [apply in_or_app; left; exact Hv | exact Hc]. }
        destruct e as [| | | | c rp]; try (exists ready; split; [exact Hg | exact Hkeep]).
        destruct c; try (exists ready; split; [exact Hg | exact Hkeep]).
        - destruct rp as [? | []]; try (exists ready; split; [exact Hg | exact Hkeep]).
          simpl in Hg.
          destruct (String.eqb (v_status v) "completed") eqn:Hc;
            [| exists ready; split; [exact Hg | exact Hkeep]].
          exists (vector_store_id :: ready). split; [exact Hg |].
          intros id [<- | Hin]; [| exact (Hkeep id Hin)].
          exists v. split; [apply in_or_app; right; left; reflexivity |].
          apply String.eqb_eq. exact Hc.
        - simpl in Hg. exists ready. split; [apply Hg | exact Hkeep]. }
      destruct Hstep as (ready' & Hg' & Hready').
      destruct (IH ready' (seen ++ [e]) Hready' Hg' pre name def r post eq_refl)
        as (id & v & Hst & Hin & Hc).
      exists id, v. rewrite <- app_assoc in Hin. auto.
Qed.

Lemma guarded_ok d : guarded [] d -> created_after_completed d.
Proof.
  intros Hg pre name def r post Heq.
  apply (guarded_sound d [] [] (fun id (H : In id []) => match H with end) Hg
           pre name def r post Heq).
Qed.

Lemma guarded_waiting id d0 ready rest :
  Forall (waiting id) d0 -> guarded ready rest -> guarded ready (d0 ++ rest).
Proof.
  induction 1 as [| e d0 He _ IH]; intros Hg; [exact Hg |].
  destruct He as [-> | (v & -> & Hnt)]; simpl; [exact (IH Hg) |].
  rewrite eqb_neq_false; [exact (IH Hg) |].
  intros Hc. apply Hnt. left. exact Hc.
Qed.

Lemma no_failed_ok {A} (o : outcome A) d :
  ~ In "failed" (statuses_seen d) -> failed_aborts o d.
Proof.
  intros Hnone id v Hin Hf. apply in_statuses_seen in Hin.
  rewrite Hf in Hin. contradiction.
Qed.

Lemma aborted_ok {A} msg d :
  agent_creations d = [] -> failed_aborts (@Raised A (RuntimeError msg)) d.
Proof. intros Hnone id v _ _. split; [exists msg; reflexivity | exact Hnone]. Qed.

(** Closing tactics for the ends of the paths of a computation. *)
Ltac creations_nil :=
  rewrite ?agent_creations_app;
  try match goal with
      | Hd0 : Forall (waiting _) _ |- _ => rewrite (waiting_no_creation _ _ Hd0)
      end;
  reflexivity.

Ltac not_failed :=
  rewrite ?statuses_seen_app; rewrite ?in_app_iff; simpl;
  let H := fresh in
  intros H;
  repeat match goal with
         | H : _ \/ _ |- _ => destruct H
         | H : False |- _ => destruct H
         | Hd0 : Forall (waiting _) ?d, H : In "failed" (statuses_seen ?d) |- _ =>
             exact (waiting_statuses _ _ Hd0 H)
         | Hv : v_status ?v = "completed", H : v_status ?v = "failed" |- _ =>
             rewrite Hv in H; discriminate H
         end.

Ltac creation_guarded :=
  apply guarded_ok; cbn [app]; rewrite <- ?app_assoc; cbn [guarded];
  match goal with
  | Hd0 : Forall (waiting _) _ |- _ => apply (guarded_waiting _ _ _ _ Hd0)
  end;
  cbn [app guarded];
  match goal with
  | Hv : v_status _ = "completed" |- _ => rewrite Hv
  end;
  change (String.eqb "completed" "completed") with true; cbn iota;
  repeat split; eexists; split; [reflexivity | left; reflexivity].

(** C5.  In every run of [create_agent_with_vector_store], whatever the
    service answers and however the run ends, an agent creation is issued
    only after a poll has reported ["completed"] for the vector store its
    definition refers to; and once a poll has reported ["failed"] the run
    ends with [RuntimeError] without any agent creation. *)
Theorem agent_created_only_after_store_completed fuel h s o s' :
  Foundry.create_agent_with_vector_store fuel h s = (o, s') ->
  exists d,
    s' = after s d /\ created_after_completed d /\ failed_aborts o d.
Proof.
  apply (yields_elim _ h s
           (fun o d => created_after_completed d /\ failed_aborts o d)).
  unfold Foundry.create_agent_with_vector_store.
  repeat step.
  all: split.
  all: try (apply no_creation_ok; creations_nil).
  all: try (apply no_failed_ok; not_failed; fail).
  all: try (apply aborted_ok; creations_nil).
  all: creation_guarded.
Qed.

Lemma agent_created_only_after_store_completed_witness :
  (exists d,
     Foundry.create_agent_with_vector_store 3 three_polls_host (start [])
       = (Returned ("IaCDocumentAgent:1", "vs_1", "file_1"), after (start []) d) /\
     created_after_completed d /\
     length (agent_creations d) = 1) /\
  (exists d msg,
     Foundry.create_agent_with_vector_store 3 failing_store_host (start [])
       = (Raised (RuntimeError msg), after (start []) d) /\
     agent_creations d = []).
Proof.
  split.
  - destruct (agent_created_only_after_store_completed 3 three_polls_host (start [])
                (Returned ("IaCDocumentAgent:1", "vs_1", "file_1"))
                (snd (Foundry.create_agent_with_vector_store 3 three_polls_host
                        (start []))))
      as (d & Hs & Hc & _).
    + vm_compute. reflexivity.
    + exists d. split; [rewrite <- Hs; vm_compute; reflexivity |].
      split; [exact Hc |].
      assert (Hd : d = added [] (after (start []) d))
        by (symmetry; apply (added_after (start []))).
      rewrite Hd, <- Hs. vm_compute. reflexivity.
  - destruct (agent_created_only_after_store_completed 3 failing_store_host (start [])
                (fst (Foundry.create_agent_with_vector_store 3 failing_store_host
                        (start [])))
                (snd (Foundry.create_agent_with_vector_store 3 failing_store_host
                        (start []))))
      as (d & Hs & _ & Hf).
    + vm_compute. reflexivity.
    + assert (Hd : d = added [] (after (start []) d))
        by (symmetry; apply (added_after (start []))).
      destruct (Hf "vs_1" (store "vs_1" "failed")) as [[msg Hmsg] Hnone].
      * rewrite Hd, <- Hs. vm_compute. tauto.
      * reflexivity.
      * exists d, msg. split; [| exact Hnone].
        rewrite <- Hs, <- Hmsg. vm_compute. reflexivity.
Defined.

(** ** What [create] leaves behind *)

Lemma waiting_no_shell id d0 : Forall (waiting id) d0 -> shell_commands d0 = [].
Proof.
  induction 1 as [| e d0 He _ IH]; [reflexivity |].
  destruct He as [-> | (v & -> & _)]; exact IH.
Qed.

(** C2, as the specification states it, fails in both scripts: a
    successful [create] of the Foundry script stores no key at all, and a
    successful [create] of the AgentId script stores no [VECTORSTORE_ID]. *)
Lemma create_writes_four_ids_counterexample :
  ~ (forall fuel h s ids s',
       Foundry.create_agent_with_vector_store fuel h s = (Returned ids, s') ->
       forall key, In key STATE_KEYS -> writes_key key (added (trace s) s')) /\
  ~ (forall h s s',
       AgentId.create_agent h s = (Returned tt, s') ->
       forall key, In key STATE_KEYS -> writes_key key (added (trace s) s')).
Proof.
  split.
  - intros Hall.
    destruct (Hall 1 configured_host (start [])
                ("IaCDocumentAgent:1", "vs_1", "file_1")
                (snd (Foundry.create_agent_with_vector_store 1 configured_host
                        (start [])))
                eq_refl "AGENT_ID") as [value Hin].
    + left. reflexivity.
    + vm_compute in Hin.
      repeat (destruct Hin as [Hin | Hin]; [discriminate Hin |]).
      exact Hin.
  - intros Hall.
    destruct (Hall configured_host (start [])
                (snd (AgentId.create_agent configured_host (start [])))
                eq_refl "VECTORSTORE_ID") as [value Hin].
    + right. right. left. reflexivity.
    + vm_compute in Hin.
      repeat (destruct Hin as [Hin | Hin]; [discriminate Hin |]).
      exact Hin.
Qed.

(** C2, amended.  A successful [create] of the AgentId script issues
    exactly two shell commands after the agent was created, in this order:
    [azd env set AGENT_ID] with the id of the created agent and
    [azd env set AGENT_NAME] with its name.  A successful [create] of the
    Foundry script issues no shell command: it prints the file id, the
    vector store id and the agent id on labelled lines and returns them. *)
Theorem create_records_identifiers :
  (forall h s s',
     AgentId.create_agent h s = (Returned tt, s') ->
     exists d agent def,
       s' = after s d /\
       In (Remote (AgentsCreateVersion
                     (default "OneDrive-Agent" (environ h !! "AGENT_NAME")) def)
                  (inr (AAgent agent))) d /\
       shell_commands d =
         [azd_env_set "AGENT_ID" (a_id agent);
          azd_env_set "AGENT_NAME"
            (default "OneDrive-Agent" (environ h !! "AGENT_NAME"))]) /\
  (forall fuel h s aid vid fid s',
     Foundry.create_agent_with_vector_store fuel h s = (Returned (aid, vid, fid), s') ->
     exists d,
       s' = after s d /\
       shell_commands d = [] /\
       In (Print ("  FILE_ID: " +:+ fid)) d /\
       In (Print ("  VECTORSTORE_ID: " +:+ vid)) d /\
       In (Print ("  AGENT_ID: " +:+ aid)) d).
Proof.
  split.
  - intros h s s' Hrun.
    destruct (yields_elim AgentId.create_agent h s
                (fun o d => o = Returned tt -> exists agent def,
                   In (Remote (AgentsCreateVersion
                                 (default "OneDrive-Agent" (environ h !! "AGENT_NAME")) def)
                              (inr (AAgent agent))) d /\
                   shell_commands d =
                     [azd_env_set "AGENT_ID" (a_id agent);
                      azd_env_set "AGENT_NAME"
                        (default "OneDrive-Agent" (environ h !! "AGENT_NAME"))])
                (Returned tt) s') as (d & Hs & Hpost); [| exact Hrun |].
    + unfold AgentId.create_agent, AgentId.get_project_client,
        AgentId.get_env_or_fail.
      repeat step.
      all: try discriminate.
      intros _. eexists _, _. split; [| reflexivity]. simpl. tauto.
    + destruct (Hpost eq_refl) as (agent & def & Hin & Hsh).
      exists d, agent, def. auto.
  - intros fuel h s aid vid fid s' Hrun.
    destruct (yields_elim (Foundry.create_agent_with_vector_store fuel) h s
                (fun o d => forall aid vid fid, o = Returned (aid, vid, fid) ->
                   shell_commands d = [] /\
                   In (Print ("  FILE_ID: " +:+ fid)) d /\
                   In (Print ("  VECTORSTORE_ID: " +:+ vid)) d /\
                   In (Print ("  AGENT_ID: " +:+ aid)) d)
                (Returned (aid, vid, fid)) s') as (d & Hs & Hpost); [| exact Hrun |].
    + unfold Foundry.create_agent_with_vector_store.
      repeat step.
      all: try (intros ? ? ? Hret; discriminate Hret).
      intros aid' vid' fid' Hret. injection Hret as <- <- <-.
      split; [| rewrite !in_app_iff; simpl; tauto].
      rewrite !shell_commands_app, (waiting_no_shell _ _ Hd0). reflexivity.
    + exists d. split; [exact Hs | apply (Hpost aid vid fid eq_refl)].
Qed.

Lemma create_records_identifiers_witness :
  (exists d,
     AgentId.create_agent configured_host (start []) = (Returned tt, after (start []) d) /\
     shell_commands d =
       [azd_env_set "AGENT_ID" "OneDrive-Agent:1";
        azd_env_set "AGENT_NAME" "OneDrive-Agent"]) /\
  (exists d,
     Foundry.create_agent_with_vector_store 1 configured_host (start [])
       = (Returned ("IaCDocumentAgent:1", "vs_1", "file_1"), after (start []) d) /\
     shell_commands d = [] /\
     In (Print "  AGENT_ID: IaCDocumentAgent:1") d).
Proof.
  split.
  - destruct (proj1 create_records_identifiers configured_host (start [])
                (snd (AgentId.create_agent configured_host (start []))))
      as (d & agent & def & Hs & Hin & Hsh).
    + vm_compute. reflexivity.
    + exists d. split; [rewrite <- Hs; vm_compute; reflexivity |].
      assert (Hd : d = added [] (after (start []) d))
        by (symmetry; apply (added_after (start []))).
      rewrite Hd, <- Hs. vm_compute. reflexivity.
  - destruct (proj2 create_records_identifiers 1 configured_host (start [])
                "IaCDocumentAgent:1" "vs_1" "file_1"
                (snd (Foundry.create_agent_with_vector_store 1 configured_host
                        (start []))))
      as (d & Hs & Hsh & _ & _ & Hin).
    + vm_compute. reflexivity.
    + exists d. split; [rewrite <- Hs; vm_compute; reflexivity |].
      split; [exact Hsh | exact Hin].
Defined.

(** ** Missing configuration *)

(** Case analysis on the membership of an agent creation in a trace. *)
Ltac creation_cases :=
  repeat match goal with
         | H : _ \/ _ |- _ => destruct H
         | H : False |- _ => destruct H
         | H : Remote _ _ = Remote _ _ |- _ =>
             first [discriminate H | injection H as <- <- <-]
         | H : Print _ = Remote _ _ |- _ => discriminate H
         | Hd0 : Forall (waiting _) ?d,
           H : In (Remote (AgentsCreateVersion _ _) _) ?d |- _ =>
             destruct (waiting_not_creation _ _ _ _ _ Hd0 H)
         end.

Lemma foundry_definition_unchecked fuel h s :
  yields (Foundry.create_agent_with_vector_store fuel) h s
    (fun _ d =>
       forall name def r,
         In (Remote (AgentsCreateVersion name def) r) d ->
         model def = default "gpt-4.1-mini" (environ h !! "CHAT_MODEL_DEPLOYMENT") /\
         instructions def = Foundry.INSTRUCTIONS).
Proof.
  unfold Foundry.create_agent_with_vector_store.
  repeat step.
  all: intros name def r Hin; rewrite ?in_app_iff in Hin; simpl in Hin.
  all: creation_cases.
  all: split; reflexivity.
Qed.

(** C7, as the specification states it, fails in the Foundry script: a
    run can create an agent from a definition whose model deployment is
    empty. *)
Lemma missing_configuration_counterexample :
  ~ (forall fuel h s o s' name def r,
       Foundry.create_agent_with_vector_store fuel h s = (o, s') ->
       In (Remote (AgentsCreateVersion name def) r) (trace s') ->
       model def <> "").
Proof.
  intros Hall.
  apply (Hall 1 empty_model_host (start [])
           (fst (Foundry.create_agent_with_vector_store 1 empty_model_host (start [])))
           (snd (Foundry.create_agent_with_vector_store 1 empty_model_host (start [])))
           "IaCDocumentAgent"
           {| model := ""; instructions := Foundry.INSTRUCTIONS;
              tools := [FileSearchTool ["vs_1"]] |}
           (inr (AAgent {| a_id := "IaCDocumentAgent:1"; a_name := "IaCDocumentAgent" |}))).
  - vm_compute. reflexivity.
  - vm_compute. tauto.
  - reflexivity.
Qed.

(** A missing (or empty) variable at [get_env_or_fail]: an error line and
    [sys.exit(1)]. *)
Lemma get_env_or_fail_missing name h s :
  PyStr.truthy (environ h !! name) = None ->
  AgentId.get_env_or_fail name h s = (Exited 1, after s [env_error name]).
Proof.
  intros Hmiss.
  unfold AgentId.get_env_or_fail, bind, environ_get. rewrite Hmiss.
  reflexivity.
Qed.

Lemma agentid_create_unconfigured h s :
  PyStr.truthy (environ h !! "CHAT_MODEL_DEPLOYMENT") = None \/
  PyStr.truthy (environ h !! "PROJECT_ENDPOINT") = None ->
  exists d,
    AgentId.create_agent h s = (Exited 1, after s d) /\
    remote_calls d = [] /\ exists name, In (env_error name) d.
Proof.
  intros Hmiss.
  assert (Hy : yields AgentId.create_agent h s
                 (fun o d => o = Exited 1%Z /\ remote_calls d = [] /\
                             exists name, In (env_error name) d)).
  { unfold AgentId.create_agent, AgentId.get_project_client,
      AgentId.get_env_or_fail.
    repeat step.
    all: try (destruct Hmiss; congruence).
    all: split; [reflexivity | split; [reflexivity |]].
    all: eexists; unfold env_error; simpl; eauto. }
  destruct Hy as (o & d & Hrun & -> & Hpost). exists d. auto.
Qed.

Lemma foundry_create_no_endpoint fuel h s :
  PyStr.truthy (environ h !! "PROJECT_ENDPOINT") = None ->
  exists d,
    Foundry.create_agent_with_vector_store fuel h s
      = (Raised endpoint_required, after s d) /\
    remote_calls d = [].
Proof.
  intros Hmiss.
  assert (Hy : yields (Foundry.create_agent_with_vector_store fuel) h s
                 (fun o d => o = Raised endpoint_required /\ remote_calls d = [])).
  { unfold Foundry.create_agent_with_vector_store.
    repeat step.
    all: try congruence.
    all: split; reflexivity. }
  destruct Hy as (o & d & Hrun & -> & Hpost). exists d. auto.
Qed.

Lemma foundry_delete_no_endpoint h s :
  PyStr.truthy (environ h !! "PROJECT_ENDPOINT") = None ->
  exists d,
    Foundry.delete_agent_and_resources h s = (Raised endpoint_required, after s d) /\
    remote_calls d = [].
Proof.
  intros Hmiss.
  assert (Hy : yields Foundry.delete_agent_and_resources h s
                 (fun o d => o = Raised endpoint_required /\ remote_calls d = [])).
  { unfold Foundry.delete_agent_and_resources.
    repeat step.
    all: try congruence.
    all: split; reflexivity. }
  destruct Hy as (o & d & Hrun & -> & Hpost). exists d. auto.
Qed.

Lemma instructions_not_empty :
  Foundry.INSTRUCTIONS <> "" /\ AgentId.AGENT_INSTRUCTIONS <> "".
Proof. split; intros H; vm_compute in H; discriminate H. Qed.

Lemma yields_try_except {A} (body : M A) (handler : exn -> M A) h s post :
  yields body h s
    (fun o d1 =>
       match o with
       | Raised e => yields (handler e) h (after s d1) (fun o' d2 => post o' (d1 ++ d2))
       | Returned a => post (Returned a) d1
       | Exited c => post (Exited c) d1
       | OutOfFuel => post OutOfFuel d1
       end) ->
  yields (try_except body handler) h s post.
Proof.
  intros (o & d1 & Hm & Hpost). unfold yields, try_except. rewrite Hm.
  destruct o as [a | e | c |].
  - exists (Returned a), d1. split; [reflexivity | exact Hpost].
  - destruct Hpost as (o' & d2 & Hk & Hpost). exists o', (d1 ++ d2).
    rewrite Hk, after_after. split; [reflexivity | exact Hpost].
  - exists (Exited c), d1. split; [reflexivity | exact Hpost].
  - exists OutOfFuel, d1. split; [reflexivity | exact Hpost].
Qed.

(** ** Reading the agent id at delete time *)

(** C4, as the specification states it, fails in the AgentId script: with
    [AGENT_ID] set to ["MyAgent"] (and [AGENT_NAME] not set) the agent
    deleted is not ["MyAgent"] version ["1"]. *)
Lemma delete_parsing_counterexample :
  ~ (forall h s s' endpoint,
       PyStr.truthy (environ h !! "PROJECT_ENDPOINT") = Some endpoint ->
       environ h !! "AGENT_ID" = Some "MyAgent" ->
       AgentId.delete_agent h s = (Returned tt, s') ->
       remote_calls (added (trace s) s') = [AgentsDeleteVersion "MyAgent" "1"]).
Proof.
  intros Hall.
  specialize (Hall plain_id_host (start [])
                (snd (AgentId.delete_agent plain_id_host (start [])))
                "https://example.test" eq_refl eq_refl eq_refl).
  vm_compute in Hall. discriminate Hall.
Qed.

Lemma agentid_delete_calls h s endpoint agent_id :
  PyStr.truthy (environ h !! "PROJECT_ENDPOINT") = Some endpoint ->
  PyStr.truthy (environ h !! "AGENT_ID") = Some agent_id ->
  exists d n v,
    AgentId.delete_agent h s = (Returned tt, after s d) /\
    remote_calls d = [AgentsDeleteVersion n v] /\
    if PyStr.contains ":" agent_id
    then agent_id = n +:+ ":" +:+ v /\ PyStr.contains ":" v = false
    else n = default "OneDrive-Agent" (environ h !! "AGENT_NAME") /\ v = "1".
Proof.
  intros Hep Hid.
  assert (Hy : yields AgentId.delete_agent h s
                 (fun o d =>
                    o = Returned tt /\
                    exists n v,
                      remote_calls d = [AgentsDeleteVersion n v] /\
                      if PyStr.contains ":" agent_id
                      then agent_id = n +:+ ":" +:+ v /\ PyStr.contains ":" v = false
                      else n = default "OneDrive-Agent" (environ h !! "AGENT_NAME") /\
                           v = "1")).
  { unfold AgentId.delete_agent, AgentId.get_project_client, AgentId.get_env_or_fail.
    destruct (PyStr.contains ":" agent_id) eqn:Hc.
    - destruct (PyStrFacts.rsplit1_some _ _ Hc) as (n & v & Hr & Hs & Hv).
      repeat (first [step | apply yields_try_except; cbv beta iota]).
      all: split; [reflexivity |].
      all: exists n, v; split; [reflexivity | split; assumption].
    - repeat (first [step | apply yields_try_except; cbv beta iota]).
      all: split; [reflexivity |].
      all: eexists _, _; split; [reflexivity | split; reflexivity]. }
  destruct Hy as (o & d & Hrun & -> & n & v & H1 & H2). exists d, n, v. auto.
Qed.

(** C4, amended.  At delete time both scripts cut an agent id that
    contains a colon at its last colon, into the name before it and the
    version after it (["MyAgent:3"] gives ["MyAgent"] and ["3"]).  For an
    id without a colon the Foundry script takes the whole id as the name
    and ["1"] as the version (["MyAgent"] gives ["MyAgent"] and ["1"]);
    the AgentId script takes the name from [AGENT_NAME], ["OneDrive-Agent"]
    when that is not set, and ["1"] as the version. *)
Theorem agent_id_parsing_at_delete :
  (forall agent_id h s,
     (PyStr.contains ":" agent_id = true ->
      exists n v,
        Foundry.parse_agent_id agent_id h s = (Returned (n, v), s) /\
        agent_id = n +:+ ":" +:+ v /\ PyStr.contains ":" v = false) /\
     (PyStr.contains ":" agent_id = false ->
      Foundry.parse_agent_id agent_id h s = (Returned (agent_id, "1"), s))) /\
  (forall h s,
     Foundry.parse_agent_id "MyAgent:3" h s = (Returned ("MyAgent", "3"), s) /\
     Foundry.parse_agent_id "MyAgent" h s = (Returned ("MyAgent", "1"), s)) /\
  (forall h s endpoint agent_id,
     PyStr.truthy (environ h !! "PROJECT_ENDPOINT") = Some endpoint ->
     PyStr.truthy (environ h !! "AGENT_ID") = Some agent_id ->
     exists d n v,
       AgentId.delete_agent h s = (Returned tt, after s d) /\
       remote_calls d = [AgentsDeleteVersion n v] /\
       if PyStr.contains ":" agent_id
       then agent_id = n +:+ ":" +:+ v /\ PyStr.contains ":" v = false
       else n = default "OneDrive-Agent" (environ h !! "AGENT_NAME") /\ v = "1").
Proof.
  repeat apply conj.
  - intros agent_id h s. split.
    + apply parse_agent_id_colon.
    + apply parse_agent_id_plain.
  - intros h s. split; reflexivity.
  - intros h s endpoint agent_id. apply agentid_delete_calls.
Qed.

Lemma agent_id_parsing_at_delete_witness :
  (exists d,
     AgentId.delete_agent plain_id_host (start []) = (Returned tt, after (start []) d) /\
     remote_calls d = [AgentsDeleteVersion "OneDrive-Agent" "1"]) /\
  (exists n v,
     Foundry.parse_agent_id "A:B:3" plain_id_host (start [])
       = (Returned (n, v), start []) /\
     "A:B:3" = n +:+ ":" +:+ v /\ PyStr.contains ":" v = false).
Proof.
  destruct agent_id_parsing_at_delete as (Hparse & _ & Hdelete).
  split.
  - destruct (Hdelete plain_id_host (start []) "https://example.test" "MyAgent")
      as (d & n & v & Hrun & Hcalls & Hnv).
    + vm_compute. reflexivity.
    + vm_compute. reflexivity.
    + exists d. split; [exact Hrun |].
      change (PyStr.contains ":" "MyAgent") with false in Hnv.
      destruct Hnv as [-> ->]. exact Hcalls.
  - apply (Hparse "A:B:3" plain_id_host (start [])). reflexivity.
Defined.

(** ** The chat session *)

(** A blank line: the loop goes round again without any call. *)
Lemma chat_loop_blank fuel name cid h line rest t :
  PyStr.strip line = "" ->
  Foundry.chat_loop (S fuel) name cid h {| stdin := line :: rest; trace := t |} =
  Foundry.chat_loop fuel name cid h {| stdin := rest; trace := t ++ [you_prompt] |}.
Proof.
  intros Hblank. cbn [Foundry.chat_loop].
  unfold bind at 1, input. cbn [stdin trace]. rewrite Hblank.
  reflexivity.
Qed.

(** An exit token: the conversation is deleted, whatever the service
    answers to that, and the loop ends. *)
Lemma chat_loop_exit fuel name cid h line rest t :
  PyStr.mem (PyStr.lower (PyStr.strip line)) EXIT_TOKENS = true ->
  exists r,
    Foundry.chat_loop (S fuel) name cid h {| stdin := line :: rest; trace := t |} =
    (Returned tt,
     {| stdin := rest;
        trace := t ++ [you_prompt; Remote (ConversationsDelete cid) r;
                       Print "Goodbye!"] |}).
Proof.
  intros Hexit. cbn [Foundry.chat_loop].
  unfold bind at 1, input. cbn [stdin trace].
  unfold EXIT_TOKENS in Hexit. rewrite Hexit.
  unfold bind, try_bare, call_conversations_delete, remote, print, ret, emit.
  cbn [stdin trace].
  destruct (conversations_delete (service h) (t ++ [Prompt (PyStr.nl +:+ "You: ")]) cid)
    as [e | []].
  - exists (inl e). cbn [stdin trace]. rewrite <- !app_assoc. reflexivity.
  - exists (inr ANone). cbn [stdin trace]. rewrite <- !app_assoc. reflexivity.
Qed.

(** Any other line: one user item is appended and one response is
    requested, then the loop goes round again. *)
Lemma chat_loop_turn fuel name cid h line rest t text :
  PyStr.mem (PyStr.lower (PyStr.strip line)) EXIT_TOKENS = false ->
  PyStr.strip line <> "" ->
  conversations_items_create (service h) (t ++ [you_prompt]) cid (PyStr.strip line)
    = inr tt ->
  responses_create (service h)
    (t ++ [you_prompt;
           Remote (ConversationsItemsCreate cid (PyStr.strip line)) (inr ANone)])
    cid name = inr text ->
  Foundry.chat_loop (S fuel) name cid h {| stdin := line :: rest; trace := t |} =
  Foundry.chat_loop fuel name cid h
    {| stdin := rest;
       trace := t ++ [you_prompt;
                      Remote (ConversationsItemsCreate cid (PyStr.strip line)) (inr ANone);
                      Remote (ResponsesCreate cid name) (inr (AText text));
                      Print (PyStr.nl +:+ "Assistant: " +:+ text)] |}.
Proof.
  intros Hexit Hblank Hitem Hresp. cbn [Foundry.chat_loop].
  unfold bind at 1, input. cbn [stdin trace].
  unfold EXIT_TOKENS in Hexit. rewrite Hexit.
  rewrite (eqb_neq_false _ _ Hblank).
  unfold you_prompt in *.
  unfold bind at 1, call_conversations_items_create, remote. cbn [stdin trace].
  rewrite Hitem.
  unfold bind at 1, call_responses_create, remote, emit, no_answer.
  cbn [stdin trace].
  rewrite <- !app_assoc. cbn [app]. rewrite Hresp.
  unfold bind at 1, print, emit. cbn [stdin trace]. rewrite <- !app_assoc.
  reflexivity.
Qed.

Lemma chat_loop_eof fuel name cid h t :
  Foundry.chat_loop (S fuel) name cid h {| stdin := []; trace := t |} =
  (Raised EOFError, {| stdin := []; trace := t ++ [you_prompt] |}).
Proof. reflexivity. Qed.

Lemma chat_loop_item_raises fuel name cid h line rest t e :
  PyStr.mem (PyStr.lower (PyStr.strip line)) EXIT_TOKENS = false ->
  PyStr.strip line <> "" ->
  conversations_items_create (service h) (t ++ [you_prompt]) cid (PyStr.strip line)
    = inl e ->
  Foundry.chat_loop (S fuel) name cid h {| stdin := line :: rest; trace := t |} =
  (Raised e,
   {| stdin := rest;
      trace := t ++ [you_prompt;
                     Remote (ConversationsItemsCreate cid (PyStr.strip line)) (inl e)] |}).
Proof.
  intros Hexit Hblank Hitem. cbn [Foundry.chat_loop].
  unfold bind at 1, input. cbn [stdin trace].
  unfold EXIT_TOKENS in Hexit. rewrite Hexit.
  rewrite (eqb_neq_false _ _ Hblank).
  unfold you_prompt in *.
  unfold bind at 1, call_conversations_items_create, remote. cbn [stdin trace].
  rewrite Hitem. unfold emit. cbn [stdin trace]. rewrite <- !app_assoc.
  reflexivity.
Qed.

Lemma chat_loop_response_raises fuel name cid h line rest t e :
  PyStr.mem (PyStr.lower (PyStr.strip line)) EXIT_TOKENS = false ->
  PyStr.strip line <> "" ->
  conversations_items_create (service h) (t ++ [you_prompt]) cid (PyStr.strip line)
    = inr tt ->
  responses_create (service h)
    (t ++ [you_prompt;
           Remote (ConversationsItemsCreate cid (PyStr.strip line)) (inr ANone)])
    cid name = inl e ->
  Foundry.chat_loop (S fuel) name cid h {| stdin := line :: rest; trace := t |} =
  (Raised e,
   {| stdin := rest;
      trace := t ++ [you_prompt;
                     Remote (ConversationsItemsCreate cid (PyStr.strip line)) (inr ANone);
                     Remote (ResponsesCreate cid name) (inl e)] |}).
Proof.
  intros Hexit Hblank Hitem Hresp. cbn [Foundry.chat_loop].
  unfold bind at 1, input. cbn [stdin trace].
  unfold EXIT_TOKENS in Hexit. rewrite Hexit.
  rewrite (eqb_neq_false _ _ Hblank).
  unfold you_prompt in *.
  unfold bind at 1, call_conversations_items_create, remote. cbn [stdin trace].
  rewrite Hitem.
  unfold bind at 1, call_responses_create, remote, emit, no_answer.
  cbn [stdin trace].
  rewrite <- !app_assoc. cbn [app]. rewrite Hresp. rewrite <- !app_assoc.
  reflexivity.
Qed.

(** Whatever is typed and whatever the service answers, the loop only
    appends items to its conversation, requests responses from its agent
    on its conversation, and deletes its conversation. *)
Lemma chat_loop_calls fuel : forall name cid h s o s',
  Foundry.chat_loop fuel name cid h s = (o, s') ->
  exists d, trace s' = trace s ++ d /\ Forall (chat_call name cid) (remote_calls d).
Proof.
  induction fuel as [| fuel IH]; intros name cid h [inp t] o s' Hrun.
  - injection Hrun as <- <-. exists []. rewrite app_nil_r. split; [reflexivity | constructor].
  - destruct inp as [| line rest].
    + rewrite chat_loop_eof in Hrun. injection Hrun as <- <-.
      exists [you_prompt]. split; [reflexivity | constructor].
    + destruct (PyStr.mem (PyStr.lower (PyStr.strip line)) EXIT_TOKENS) eqn:Hexit.
      * destruct (chat_loop_exit fuel name cid h line rest t Hexit) as [r Hr].
        rewrite Hr in Hrun. injection Hrun as <- <-.
        eexists. split; [reflexivity |].
        simpl. constructor; [right; right; reflexivity | constructor].
      * destruct (String.eqb (PyStr.strip line) "") eqn:Hblank.
        { apply String.eqb_eq in Hblank.
          rewrite (chat_loop_blank fuel name cid h line rest t Hblank) in Hrun.
          destruct (IH _ _ _ _ _ _ Hrun) as (d & Hd & Hcalls). simpl in Hd.
          exists ([you_prompt] ++ d). rewrite Hd, <- app_assoc.
          split; [reflexivity | exact Hcalls]. }
        apply String.eqb_neq in Hblank.
        destruct (conversations_items_create (service h) (t ++ [you_prompt]) cid
                    (PyStr.strip line)) as [e | []] eqn:Hitem.
        { rewrite (chat_loop_item_raises fuel name cid h line rest t e Hexit Hblank Hitem)
            in Hrun.
          injection Hrun as <- <-. eexists. split; [reflexivity |].
          simpl. constructor; [left; eexists; reflexivity | constructor]. }
        destruct (responses_create (service h)
                    (t ++ [you_prompt;
                           Remote (ConversationsItemsCreate cid (PyStr.strip line))
                                  (inr ANone)]) cid name) as [e | text] eqn:Hresp.
        { rewrite (chat_loop_response_raises fuel name cid h line rest t e
                     Hexit Hblank Hitem Hresp) in Hrun.
          injection Hrun as <- <-. eexists. split; [reflexivity |].
          simpl. constructor; [left; eexists; reflexivity |].
          constructor; [right; left; reflexivity | constructor]. }
        rewrite (chat_loop_turn fuel name cid h line rest t text
                   Hexit Hblank Hitem Hresp) in Hrun.
        destruct (IH _ _ _ _ _ _ Hrun) as (d & Hd & Hcalls). simpl in Hd.
        eexists. rewrite Hd, <- app_assoc. split; [reflexivity |].
        rewrite remote_calls_app.
        apply Forall_app. split; [| exact Hcalls].
        simpl. constructor; [left; eexists; reflexivity |].
        constructor; [right; left; reflexivity | constructor].
Qed.

Lemma chat_with_agent_no_id fuel h s :
  PyStr.truthy (environ h !! "AGENT_ID") = None ->
  Foundry.chat_with_agent fuel h s =
    (Exited 1, after s [Print "Error: AGENT_ID not set. Run 'create' first."]).
Proof.
  intros Hid. unfold Foundry.chat_with_agent.
  unfold bind at 1, environ_get. rewrite Hid. reflexivity.
Qed.

Lemma chat_with_agent_no_endpoint fuel h s agent_id name :
  PyStr.truthy (environ h !! "AGENT_ID") = Some agent_id ->
  Foundry.chat_agent_name agent_id h s = (Returned name, s) ->
  PyStr.truthy (environ h !! "PROJECT_ENDPOINT") = None ->
  Foundry.chat_with_agent fuel h s = (Raised endpoint_required, after s (banner name)).
Proof.
  intros Hid Hname Hep. unfold Foundry.chat_with_agent.
  unfold bind at 1, environ_get. rewrite Hid.
  unfold bind at 1. rewrite Hname.
  rewrite (bind_returns_eq _ _ _ _ _ _ (returns_print _ h _)).
  rewrite (bind_returns_eq _ _ _ _ _ _ (returns_print _ h _)).
  rewrite (bind_returns_eq _ _ _ _ _ _ (returns_print _ h _)).
  rewrite (raised_bind _ _ _ _ _ _ (get_project_client_missing _ _ Hep)).
  rewrite !after_after. reflexivity.
Qed.

Lemma chat_with_agent_start fuel h s agent_id name endpoint :
  PyStr.truthy (environ h !! "AGENT_ID") = Some agent_id ->
  Foundry.chat_agent_name agent_id h s = (Returned name, s) ->
  PyStr.truthy (environ h !! "PROJECT_ENDPOINT") = Some endpoint ->
  Foundry.chat_with_agent fuel h s =
    match conversations_create (service h) (trace s ++ banner name) with
    | inl e =>
        (Raised e, after s (banner name ++ [Remote ConversationsCreate (inl e)]))
    | inr cid =>
        Foundry.chat_loop fuel name cid h
          (after s (banner name ++
                    [Remote ConversationsCreate (inr (AId cid));
                     Print ("Conversation started (id: " +:+ cid +:+ ")")]))
    end.
Proof.
  intros Hid Hname Hep. unfold Foundry.chat_with_agent.
  unfold bind at 1, environ_get. rewrite Hid.
  unfold bind at 1. rewrite Hname.
  rewrite (bind_returns_eq _ _ _ _ _ _ (returns_print _ h _)).
  rewrite (bind_returns_eq _ _ _ _ _ _ (returns_print _ h _)).
  rewrite (bind_returns_eq _ _ _ _ _ _ (returns_print _ h _)).
  rewrite (bind_returns_eq _ _ _ _ _ _
             (returns_pure _ h _ tt (get_project_client_ok h _ _ Hep))).
  rewrite !after_after. cbn [app].
  unfold bind at 1, call_conversations_create, remote.
  change (trace (after s
            [Print ("Starting chat with Standard Agent '" +:+ name +:+ "'...");
             Print "Type 'quit' or 'exit' to end the session.";
             Print (PyStr.repeat_char "-" 50)]))
    with (trace s ++ banner name).
  destruct (conversations_create (service h) (trace s ++ banner name)) as [e | cid].
  - rewrite emit_after, after_after. reflexivity.
  - rewrite emit_after, after_after.
    rewrite (bind_returns_eq _ _ _ _ _ _ (returns_print _ h _)).
    rewrite after_after. reflexivity.
Qed.

(** The calls of a whole chat session: none, or the creation of the
    conversation followed by calls on that conversation for the agent name
    taken from the agent id. *)
Lemma chat_session_calls fuel h s o s' :
  Foundry.chat_with_agent fuel h s = (o, s') ->
  exists d,
    trace s' = trace s ++ d /\
    (remote_calls d = [] \/
     exists agent_id name rest,
       PyStr.truthy (environ h !! "AGENT_ID") = Some agent_id /\
       Foundry.chat_agent_name agent_id h s = (Returned name, s) /\
       remote_calls d = ConversationsCreate :: rest /\
       (rest = [] \/ exists cid, Forall (chat_call name cid) rest)).
Proof.
  intros Hrun.
  destruct (PyStr.truthy (environ h !! "AGENT_ID")) as [agent_id |] eqn:Hid.
  2:{ rewrite (chat_with_agent_no_id _ _ _ Hid) in Hrun. injection Hrun as <- <-.
      eexists. split; [reflexivity | left; reflexivity]. }
  destruct (chat_agent_name_total agent_id h s) as [name Hname].
  destruct (PyStr.truthy (environ h !! "PROJECT_ENDPOINT")) as [endpoint |] eqn:Hep.
  2:{ rewrite (chat_with_agent_no_endpoint _ _ _ _ _ Hid Hname Hep) in Hrun.
      injection Hrun as <- <-.
      eexists. split; [reflexivity | left; reflexivity]. }
  rewrite (chat_with_agent_start _ _ _ _ _ _ Hid Hname Hep) in Hrun.
  destruct (conversations_create (service h) (trace s ++ banner name)) as [e | cid].
  - injection Hrun as <- <-. eexists. split; [reflexivity |].
    right. exists agent_id, name, [].
    split; [reflexivity | split; [exact Hname | split; [reflexivity | left; reflexivity]]].
  - destruct (chat_loop_calls _ _ _ _ _ _ _ Hrun) as (d & Hd & Hcalls).
    simpl in Hd. eexists. rewrite Hd, <- app_assoc. split; [reflexivity |].
    right. exists agent_id, name, (remote_calls d).
    split; [reflexivity | split; [exact Hname | split]].
    + rewrite !remote_calls_app. reflexivity.
    + right. exists cid. exact Hcalls.
Qed.

Lemma mem_In x l : PyStr.mem x l = true <-> In x l.
Proof.
  unfold PyStr.mem. rewrite existsb_exists. split.
  - intros (y & Hin & Heq). apply String.eqb_eq in Heq. subst y. exact Hin.
  - intros Hin. exists x. split; [exact Hin | apply String.eqb_refl].
Qed.

Lemma hello_exit_session fuel h s agent_id endpoint cid :
  PyStr.truthy (environ h !! "AGENT_ID") = Some agent_id ->
  PyStr.truthy (environ h !! "PROJECT_ENDPOINT") = Some endpoint ->
  stdin s = ["hello"; "exit"] ->
  2 <= fuel ->
  (forall t, conversations_create (service h) t = inr cid) ->
  (forall t c x, conversations_items_create (service h) t c x = inr tt) ->
  (forall t c a, exists text, responses_create (service h) t c a = inr text) ->
  exists d name,
    Foundry.chat_agent_name agent_id h s = (Returned name, s) /\
    Foundry.chat_with_agent fuel h s
      = (Returned tt, {| stdin := []; trace := trace s ++ d |}) /\
    remote_calls d =
      [ConversationsCreate; ConversationsItemsCreate cid "hello";
       ResponsesCreate cid name; ConversationsDelete cid].
Proof.
  intros Hid Hep Hin Hfuel Hconv Hitem Hresp.
  destruct (chat_agent_name_total agent_id h s) as [name Hname].
  destruct s as [inp t]. simpl in Hin. subst inp.
  destruct fuel as [| [| fuel]]; try lia.
  rewrite (chat_with_agent_start _ _ _ _ _ _ Hid Hname Hep), Hconv.
  unfold after. cbn [stdin trace].
  match goal with
  | |- context [Foundry.chat_loop _ _ _ _ {| stdin := _; trace := ?t1 |}] =>
      destruct (Hresp (t1 ++ [you_prompt;
                              Remote (ConversationsItemsCreate cid (PyStr.strip "hello"))
                                     (inr ANone)]) cid name) as [text Htext];
      rewrite (chat_loop_turn (S fuel) name cid h "hello" ["exit"] t1 text
                 eq_refl ltac:(discriminate) (Hitem _ _ _) Htext)
  end.
  match goal with
  | |- context [Foundry.chat_loop _ _ _ _ {| stdin := _; trace := ?t2 |}] =>
      destruct (chat_loop_exit fuel name cid h "exit" [] t2 eq_refl) as [r Hr];
      rewrite Hr
  end.
  eexists _, name. split; [exact Hname |]. split.
  - rewrite <- !app_assoc. reflexivity.
  - rewrite !remote_calls_app. reflexivity.
Qed.

(** C6.  A chat session on the input lines ["hello"] and ["exit"], with
    the agent id and the endpoint configured and a service that accepts
    the conversation, the item and the response request: the calls of the
    session are exactly one conversation creation, one user item
    ["hello"], one response request for the agent, and the deletion of the
    conversation, whose own outcome does not matter; the session returns
    with the input used up.  In any session a line that is blank after
    stripping costs no call; a line whose stripped, lower-cased text is
    [quit], [exit] or [q] ends the loop after the deletion attempt; and
    the conversation is created at most once, as the first call. *)
Theorem chat_session_protocol :
  (forall fuel h s agent_id endpoint cid,
     PyStr.truthy (environ h !! "AGENT_ID") = Some agent_id ->
     PyStr.truthy (environ h !! "PROJECT_ENDPOINT") = Some endpoint ->
     stdin s = ["hello"; "exit"] ->
     2 <= fuel ->
     (forall t, conversations_create (service h) t = inr cid) ->
     (forall t c x, conversations_items_create (service h) t c x = inr tt) ->
     (forall t c a, exists text, responses_create (service h) t c a = inr text) ->
     exists d name,
       Foundry.chat_agent_name agent_id h s = (Returned name, s) /\
       Foundry.chat_with_agent fuel h s
         = (Returned tt, {| stdin := []; trace := trace s ++ d |}) /\
       remote_calls d =
         [ConversationsCreate; ConversationsItemsCreate cid "hello";
          ResponsesCreate cid name; ConversationsDelete cid]) /\
  (forall fuel name cid h line rest t,
     PyStr.strip line = "" ->
     Foundry.chat_loop (S fuel) name cid h {| stdin := line :: rest; trace := t |} =
     Foundry.chat_loop fuel name cid h {| stdin := rest; trace := t ++ [you_prompt] |}) /\
  (forall fuel name cid h line rest t,
     In (PyStr.lower (PyStr.strip line)) EXIT_TOKENS ->
     exists r,
       Foundry.chat_loop (S fuel) name cid h {| stdin := line :: rest; trace := t |} =
       (Returned tt,
        {| stdin := rest;
           trace := t ++ [you_prompt; Remote (ConversationsDelete cid) r;
                          Print "Goodbye!"] |})) /\
  (forall fuel h s o s',
     Foundry.chat_with_agent fuel h s = (o, s') ->
     exists d,
       trace s' = trace s ++ d /\
       (remote_calls d = [] \/
        exists rest, remote_calls d = ConversationsCreate :: rest /\
                     ~ In ConversationsCreate rest)).
Proof.
  repeat apply conj.
  - apply hello_exit_session.
  - apply chat_loop_blank.
  - intros fuel name cid h line rest t Hexit.
    apply chat_loop_exit. apply mem_In. exact Hexit.
  - intros fuel h s o s' Hrun.
    destruct (chat_session_calls _ _ _ _ _ Hrun)
      as (d & Hd & [Hnone | (agent_id & name & rest & _ & _ & Hcalls & Hrest)]).
    + exists d. split; [exact Hd | left; exact Hnone].
    + exists d. split; [exact Hd |]. right. exists rest. split; [exact Hcalls |].
      destruct Hrest as [-> | [cid Hall]]; [intros [] |].
      intros Hin. rewrite List.Forall_forall in Hall.
      destruct (Hall _ Hin) as [[? Hc] | [Hc | Hc]]; discriminate Hc.
Qed.

Lemma chat_session_protocol_witness :
  (exists d,
     Foundry.chat_with_agent 2 chat_host (start ["hello"; "exit"])
       = (Returned tt, {| stdin := []; trace := d |}) /\
     remote_calls d =
       [ConversationsCreate; ConversationsItemsCreate "conv_1" "hello";
        ResponsesCreate "conv_1" "A"; ConversationsDelete "conv_1"]) /\
  (exists r,
     Foundry.chat_loop 1 "A" "conv_1" chat_host (start ["  QuIt "]) =
     (Returned tt,
      {| stdin := [];
         trace := [you_prompt; Remote (ConversationsDelete "conv_1") r;
                   Print "Goodbye!"] |})).
Proof.
  destruct chat_session_protocol as (Hsession & _ & Hexit & _).
  split.
  - destruct (Hsession 2 chat_host (start ["hello"; "exit"]) "A:B:3"
                "https://example.test" "conv_1")
      as (d & name & Hname & Hrun & Hcalls).
    + vm_compute. reflexivity.
    + vm_compute. reflexivity.
    + reflexivity.
    + lia.
    + reflexivity.
    + reflexivity.
    + intros t c a. exists "Hi!". reflexivity.
    + exists d. split; [exact Hrun |].
      assert (Hn : name = "A").
      { vm_compute in Hname. injection Hname as <-. reflexivity. }
      rewrite Hcalls, Hn. reflexivity.
  - apply (Hexit 0 "A" "conv_1" chat_host "  QuIt " [] []).
    vm_compute. tauto.
Defined.

(** ** Chat and delete read the agent id differently *)

Lemma truthy_nonempty (x : string) :
  x <> "" -> PyStr.truthy (Some x) = Some x.
Proof.
  intros Hx. unfold PyStr.truthy. rewrite (eqb_neq_false _ _ Hx). reflexivity.
Qed.

Lemma added_eq t0 s' d : trace s' = t0 ++ d -> added t0 s' = d.
Proof. intros H. unfold added. rewrite H. apply drop_app_length. Qed.

(** C9.  For an agent id with two or more colons, the chat session takes
    as agent name the text before the first colon and the delete operation
    the text before the last colon, and the two names differ.  With that
    id in [AGENT_ID], every response request of a chat session addresses
    the first name, and the teardown deletes the agent of the second
    name. *)
Theorem chat_and_delete_read_agent_id_differently agent_id h s :
  2 <= PyStr.count ":" agent_id ->
  exists chat_name rest delete_name version,
    Foundry.chat_agent_name agent_id h s = (Returned chat_name, s) /\
    agent_id = chat_name +:+ ":" +:+ rest /\
    PyStr.contains ":" chat_name = false /\
    Foundry.parse_agent_id agent_id h s = (Returned (delete_name, version), s) /\
    agent_id = delete_name +:+ ":" +:+ version /\
    PyStr.contains ":" version = false /\
    PyStr.contains ":" delete_name = true /\
    chat_name <> delete_name /\
    (environ h !! "AGENT_ID" = Some agent_id ->
     (forall fuel o s' cid a,
        Foundry.chat_with_agent fuel h s = (o, s') ->
        In (ResponsesCreate cid a) (remote_calls (added (trace s) s')) ->
        a = chat_name) /\
     (forall endpoint,
        PyStr.truthy (environ h !! "PROJECT_ENDPOINT") = Some endpoint ->
        exists d others,
          Foundry.delete_agent_and_resources h s = (Returned tt, after s d) /\
          remote_calls d = AgentsDeleteVersion delete_name version :: others)).
Proof.
  intros Hcount.
  assert (Hc : PyStr.contains ":" agent_id = true).
  { rewrite PyStrFacts.contains_count.
    destruct (PyStr.count ":" agent_id); [lia | reflexivity]. }
  destruct (chat_agent_name_colon agent_id h s Hc) as (cn & rest & Hchat & Hcs & Hcn).
  destruct (parse_agent_id_colon agent_id h s Hc) as (dn & v & Hparse & Hds & Hv).
  assert (Hdn : PyStr.contains ":" dn = true).
  { rewrite PyStrFacts.contains_count in Hv |- *.
    assert (Hsum : PyStr.count ":" agent_id
                   = PyStr.count ":" dn + (1 + PyStr.count ":" v)).
    { rewrite Hds at 1. rewrite PyStrFacts.count_app. reflexivity. }
    destruct (PyStr.count ":" v); [| discriminate Hv].
    destruct (PyStr.count ":" dn); [lia | reflexivity]. }
  exists cn, rest, dn, v.
  repeat (split; [assumption |]).
  split; [intros ->; congruence |].
  intros Henv.
  assert (Hid : PyStr.truthy (environ h !! "AGENT_ID") = Some agent_id).
  { rewrite Henv. apply truthy_nonempty. intros ->. discriminate Hc. }
  split.
  - intros fuel o s' cid a Hrun Hin.
    destruct (chat_session_calls _ _ _ _ _ Hrun)
      as (d & Hd & [Hnone | (aid & name & calls & Haid & Hname & Hcalls & Hrest)]);
      rewrite (added_eq _ _ _ Hd) in Hin.
    + rewrite Hnone in Hin. destruct Hin.
    + rewrite Hid in Haid. injection Haid as <-.
      rewrite Hchat in Hname. injection Hname as <-.
      rewrite Hcalls in Hin. destruct Hin as [Hin | Hin]; [discriminate Hin |].
      destruct Hrest as [-> | [cid' Hall]]; [destruct Hin |].
      rewrite List.Forall_forall in Hall.
      destruct (Hall _ Hin) as [[? Heq] | [Heq | Heq]]; try discriminate Heq.
      injection Heq as _ ->. reflexivity.
  - intros endpoint Hep.
    destruct (teardown_run h s endpoint Hep) as (d & calls & Hrun & Hcalls & Hagent & _).
    rewrite Hid in Hagent. destruct Hagent as (n' & v' & Hparse' & ->).
    rewrite Hparse in Hparse'. injection Hparse' as <- <-.
    exists d. eexists. split; [exact Hrun |]. rewrite Hcalls. reflexivity.
Qed.

Lemma chat_and_delete_read_agent_id_differently_witness :
  Foundry.chat_agent_name "A:B:3" chat_host (start []) = (Returned "A", start []) /\
  Foundry.parse_agent_id "A:B:3" chat_host (start []) = (Returned ("A:B", "3"), start []) /\
  (exists d others,
     Foundry.delete_agent_and_resources chat_host (start [])
       = (Returned tt, after (start []) d) /\
     remote_calls d = AgentsDeleteVersion "A:B" "3" :: others).
Proof.
  destruct (chat_and_delete_read_agent_id_differently "A:B:3" chat_host (start []))
    as (cn & rest & dn & v & Hchat & _ & _ & Hparse & _ & _ & _ & _ & He2e).
  - vm_compute. lia.
  - assert (Hcn : cn = "A") by (vm_compute in Hchat; injection Hchat as <-; reflexivity).
    assert (Hdn : (dn, v) = ("A:B", "3"))
      by (vm_compute in Hparse; injection Hparse as <- <-; reflexivity).
    injection Hdn as -> ->. subst cn.
    split; [exact Hchat | split; [exact Hparse |]].
    destruct (He2e eq_refl) as [_ Hdel].
    apply (Hdel "https://example.test"). vm_compute. reflexivity.
Defined.

(** ** The command line *)

Lemma not_in_commands (c a b d : string) :
  ~ In c [a; b; d] ->
  String.eqb c a = false /\ String.eqb c b = false /\ String.eqb c d = false.
Proof.
  intros Hnot. repeat split; apply String.eqb_neq; intros ->; apply Hnot; simpl; auto.
Qed.

(** C8.  In both scripts: without a command argument [main] prints the
    usage lines and exits with code 1; with a command that is not one of
    the three of the script it prints the unknown-command line and exits
    with code 1; with one of the three it runs that command and nothing
    else, so that the process ends with code 0 when the command returns
    normally. *)
Theorem main_exit_codes :
  (forall fuel argv h s,
     length argv < 2 ->
     exists d,
       Foundry.main fuel argv h s = (Exited 1, after s d) /\
       printed d = "Usage: python agent_manager.py <command>" :: tl (printed d) /\
       remote_calls d = []) /\
  (forall fuel prog cmd rest h s,
     ~ In (PyStr.lower cmd) FOUNDRY_COMMANDS ->
     Foundry.main fuel (prog :: cmd :: rest) h s =
       (Exited 1, after s [Print ("Unknown command: " +:+ PyStr.lower cmd)])) /\
  (forall fuel prog cmd rest h s,
     (PyStr.lower cmd = "create" ->
      Foundry.main fuel (prog :: cmd :: rest) h s =
        bind (Foundry.create_agent_with_vector_store fuel) (fun _ => ret tt) h s) /\
     (PyStr.lower cmd = "delete" ->
      Foundry.main fuel (prog :: cmd :: rest) h s =
        Foundry.delete_agent_and_resources h s) /\
     (PyStr.lower cmd = "chat" ->
      Foundry.main fuel (prog :: cmd :: rest) h s = Foundry.chat_with_agent fuel h s)) /\
  (forall argv h s,
     length argv < 2 ->
     exists d,
       AgentId.main argv h s = (Exited 1, after s d) /\
       printed d = "Usage: python agent_manager.py <command>" :: tl (printed d) /\
       remote_calls d = []) /\
  (forall prog cmd rest h s,
     ~ In (PyStr.lower cmd) AGENTID_COMMANDS ->
     AgentId.main (prog :: cmd :: rest) h s =
       (Exited 1, after s [Print ("Unknown command: " +:+ PyStr.lower cmd)])) /\
  (forall prog cmd rest h s,
     (PyStr.lower cmd = "create" ->
      AgentId.main (prog :: cmd :: rest) h s = AgentId.create_agent h s) /\
     (PyStr.lower cmd = "delete" ->
      AgentId.main (prog :: cmd :: rest) h s = AgentId.delete_agent h s) /\
     (PyStr.lower cmd = "list" ->
      AgentId.main (prog :: cmd :: rest) h s = AgentId.list_agents h s)) /\
  (forall fuel argv h s o s',
     Foundry.main fuel argv h s = (o, s') ->
     (o = Returned tt -> exit_status o = Some 0%Z) /\
     (o = Exited 1 -> exit_status o = Some 1%Z)) /\
  (forall argv h s o s',
     AgentId.main argv h s = (o, s') ->
     (o = Returned tt -> exit_status o = Some 0%Z) /\
     (o = Exited 1 -> exit_status o = Some 1%Z)).
Proof.
  repeat apply conj.
  - intros fuel argv h s Hlen.
    assert (Hrun : Foundry.main fuel argv h s = bind Foundry.usage (fun _ => sys_exit 1) h s).
    { destruct argv as [| ? [| ? ?]]; [reflexivity | reflexivity | simpl in Hlen; lia]. }
    rewrite Hrun. eexists. split.
    + erewrite bind_returns_eq; [reflexivity |].
      unfold Foundry.usage.
      repeat (eapply returns_bind; [apply returns_print |]). apply returns_print.
    + split; reflexivity.
  - intros fuel prog cmd rest h s Hnot.
    destruct (not_in_commands _ _ _ _ Hnot) as (H1 & H2 & H3).
    unfold Foundry.main. rewrite H1, H2, H3. reflexivity.
  - intros fuel prog cmd rest h s.
    repeat split; intros Hcmd; unfold Foundry.main; rewrite Hcmd; reflexivity.
  - intros argv h s Hlen.
    assert (Hrun : AgentId.main argv h s = bind AgentId.usage (fun _ => sys_exit 1) h s).
    { destruct argv as [| ? [| ? ?]]; [reflexivity | reflexivity | simpl in Hlen; lia]. }
    rewrite Hrun. eexists. split.
    + erewrite bind_returns_eq; [reflexivity |].
      unfold AgentId.usage.
      repeat (eapply returns_bind; [apply returns_print |]). apply returns_print.
    + split; reflexivity.
  - intros prog cmd rest h s Hnot.
    destruct (not_in_commands _ _ _ _ Hnot) as (H1 & H2 & H3).
    unfold AgentId.main. rewrite H1, H2, H3. reflexivity.
  - intros prog cmd rest h s.
    repeat split; intros Hcmd; unfold AgentId.main; rewrite Hcmd; reflexivity.
  - intros fuel argv h s o s' _. split; intros ->; reflexivity.
  - intros argv h s o s' _. split; intros ->; reflexivity.
Qed.

Lemma main_exit_codes_witness :
  (exists d, Foundry.main 1 ["agent_manager.py"] configured_host (start [])
               = (Exited 1, after (start []) d) /\ remote_calls d = []) /\
  Foundry.main 1 ["agent_manager.py"; "List"] configured_host (start [])
    = (Exited 1, after (start []) [Print "Unknown command: list"]) /\
  AgentId.main ["agent_manager.py"; "chat"] configured_host (start [])
    = (Exited 1, after (start []) [Print "Unknown command: chat"]) /\
  exit_status (fst (AgentId.main ["agent_manager.py"; "create"] configured_host (start [])))
    = Some 0%Z.
Proof.
  destruct main_exit_codes as (Husage & Hunknown & _ & _ & Hunknown' & _ & _ & Hstatus).
  split.
  { destruct (Husage 1 ["agent_manager.py"] configured_host (start []))
      as (d & Hrun & _ & Hcalls); [simpl; lia |].
    exists d. auto. }
  split.
  { apply (Hunknown 1 "agent_manager.py" "List" [] configured_host (start [])).
    vm_compute. intros [H | [H | [H | []]]]; discriminate H. }
  split.
  { apply (Hunknown' "agent_manager.py" "chat" [] configured_host (start [])).
    vm_compute. intros [H | [H | [H | []]]]; discriminate H. }
  apply (Hstatus ["agent_manager.py"; "create"] configured_host (start []) _
           (snd (AgentId.main ["agent_manager.py"; "create"] configured_host (start [])))).
  - apply surjective_pairing.
  - vm_compute. reflexivity.
Defined.

(** C10.  In both scripts the command argument is lower-cased before it
    is compared: an invocation behaves exactly as the invocation with the
    lower-cased command, so ["CREATE"], ["Delete"] and ["LIST"] run the
    create, delete and list commands. *)
Theorem command_is_case_insensitive :
  (forall fuel prog cmd rest h s,
     Foundry.main fuel (prog :: cmd :: rest) h s =
     Foundry.main fuel (prog :: PyStr.lower cmd :: rest) h s) /\
  (forall prog cmd rest h s,
     AgentId.main (prog :: cmd :: rest) h s =
     AgentId.main (prog :: PyStr.lower cmd :: rest) h s) /\
  (forall fuel prog h s,
     Foundry.main fuel [prog; "CREATE"] h s = Foundry.main fuel [prog; "create"] h s /\
     Foundry.main fuel [prog; "Delete"] h s = Foundry.delete_agent_and_resources h s /\
     Foundry.main fuel [prog; "Chat"] h s = Foundry.chat_with_agent fuel h s) /\
  (forall prog h s,
     AgentId.main [prog; "CREATE"] h s = AgentId.create_agent h s /\
     AgentId.main [prog; "Delete"] h s = AgentId.delete_agent h s /\
     AgentId.main [prog; "LIST"] h s = AgentId.list_agents h s).
Proof.
  repeat apply conj.
  - intros fuel prog cmd rest h s. unfold Foundry.main.
    rewrite PyStrFacts.lower_idem. reflexivity.
  - intros prog cmd rest h s. unfold AgentId.main.
    rewrite PyStrFacts.lower_idem. reflexivity.
  - intros fuel prog h s. repeat split; reflexivity.
  - intros prog h s. repeat split; reflexivity.
Qed.

(** * Further properties of the two scripts *)

(** ** An agent id put together and taken apart again *)

Lemma contains_app c s1 s2 :
  PyStr.contains c (s1 +:+ s2) = PyStr.contains c s1 || PyStr.contains c s2.
Proof.
  induction s1 as [| a s1 IH]; simpl; [reflexivity |].
  destruct (Ascii.eqb a c); [reflexivity | exact IH].
Qed.

Lemma rsplit1_plain c s : PyStr.contains c s = false -> PyStr.rsplit1 c s = [s].
Proof.
  intros Hc. destruct (PyStrFacts.rsplit1_shape c s) as [[_ H] | (n & v & _ & Hs & _)];
    [exact H |].
  rewrite Hs, contains_app in Hc. simpl in Hc. rewrite Ascii.eqb_refl in Hc.
  rewrite orb_true_r in Hc. discriminate Hc.
Qed.

(** [rsplit1] undoes the joining of a name and a version that has no
    separator in it. *)
Lemma rsplit1_join c n v :
  PyStr.contains c v = false -> PyStr.rsplit1 c (n +:+ String c v) = [n; v].
Proof.
  intros Hv. induction n as [| a n IH].
  - simpl. rewrite (rsplit1_plain c v Hv), Ascii.eqb_refl. reflexivity.
  - change (String a n +:+ String c v) with (String a (n +:+ String c v)).
    cbn [PyStr.rsplit1]. rewrite IH. reflexivity.
Qed.

Lemma split_join_head c n rest :
  PyStr.contains c n = false ->
  exists t, PyStr.split c (n +:+ String c rest) = n :: t.
Proof.
  intros Hn. induction n as [| a n IH].
  - simpl. rewrite Ascii.eqb_refl. eexists. reflexivity.
  - simpl in Hn. destruct (Ascii.eqb a c) eqn:E; [discriminate Hn |].
    destruct (IH Hn) as [t Ht].
    change (String a n +:+ String c rest) with (String a (n +:+ String c rest)).
    cbn [PyStr.split]. rewrite E, Ht. eexists. reflexivity.
Qed.

Lemma contains_join c n v : PyStr.contains c (n +:+ String c v) = true.
Proof.
  rewrite contains_app. simpl. rewrite Ascii.eqb_refl. apply orb_true_r.
Qed.

(** X1.  An agent id is taken apart at delete time exactly as it was put
    together: for every name (colons allowed) and every version without a
    colon, the id [name:version] gives back that name and that version in
    the parsing of the Foundry script, and with that id in [AGENT_ID] both
    scripts ask the service to delete exactly that name and version. *)
Theorem agent_id_round_trip name version h s endpoint :
  PyStr.contains ":" version = false ->
  environ h !! "AGENT_ID" = Some (name +:+ ":" +:+ version) ->
  PyStr.truthy (environ h !! "PROJECT_ENDPOINT") = Some endpoint ->
  Foundry.parse_agent_id (name +:+ ":" +:+ version) h s
    = (Returned (name, version), s) /\
  (exists d others,
     Foundry.delete_agent_and_resources h s = (Returned tt, after s d) /\
     remote_calls d = AgentsDeleteVersion name version :: others) /\
  (exists d,
     AgentId.delete_agent h s = (Returned tt, after s d) /\
     remote_calls d = [AgentsDeleteVersion name version]).
Proof.
  intros Hv Henv Hep.
  assert (Hparse : Foundry.parse_agent_id (name +:+ ":" +:+ version) h s
                   = (Returned (name, version), s)).
  { unfold Foundry.parse_agent_id.
    change (name +:+ ":" +:+ version) with (name +:+ String ":" version).
    rewrite contains_join, (rsplit1_join _ _ _ Hv). reflexivity. }
  assert (Hid : PyStr.truthy (environ h !! "AGENT_ID")
                = Some (name +:+ ":" +:+ version)).
  { rewrite Henv. apply truthy_nonempty. intros Hempty.
    assert (Hc := contains_join ":" name version).
    change (name +:+ String ":" version) with (name +:+ ":" +:+ version) in Hc.
    rewrite Hempty in Hc. discriminate Hc. }
  split; [exact Hparse | split].
  - destruct (teardown_run h s endpoint Hep) as (d & calls & Hrun & Hcalls & Hagent & _).
    rewrite Hid in Hagent. destruct Hagent as (n' & v' & Hparse' & ->).
    rewrite Hparse in Hparse'. injection Hparse' as <- <-.
    exists d. eexists. split; [exact Hrun |]. rewrite Hcalls. reflexivity.
  - destruct (agentid_delete_calls h s endpoint _ Hep Hid) as (d & n & v & Hrun & Hcalls & Hnv).
    change (name +:+ ":" +:+ version) with (name +:+ String ":" version) in Hnv.
    rewrite contains_join in Hnv. destruct Hnv as [Hjoin Hv'].
    assert (Heq : [name; version] = [n; v]).
    { rewrite <- (rsplit1_join ":" name version Hv).
      change (n +:+ ":" +:+ v) with (n +:+ String ":" v) in Hjoin.
      rewrite Hjoin. apply rsplit1_join. exact Hv'. }
    injection Heq as -> ->. exists d. auto.
Qed.

Lemma agent_id_round_trip_witness :
  Foundry.parse_agent_id "A:B:3" chat_host (start []) = (Returned ("A:B", "3"), start []) /\
  (exists d,
     AgentId.delete_agent chat_host (start []) = (Returned tt, after (start []) d) /\
     remote_calls d = [AgentsDeleteVersion "A:B" "3"]).
Proof.
  destruct (agent_id_round_trip "A:B" "3" chat_host (start []) "https://example.test")
    as (Hparse & _ & Hdel).
  - reflexivity.
  - vm_compute. reflexivity.
  - vm_compute. reflexivity.
  - split; [exact Hparse | exact Hdel].
Defined.

(** X2.  For an agent id with at most one colon the chat session and the
    delete operation agree on the agent name: both take the text before
    the colon, or the whole id when there is none. *)
Theorem chat_and_delete_agree_on_simple_ids agent_id h s :
  PyStr.count ":" agent_id <= 1 ->
  exists name version,
    Foundry.chat_agent_name agent_id h s = (Returned name, s) /\
    Foundry.parse_agent_id agent_id h s = (Returned (name, version), s) /\
    PyStr.contains ":" name = false.
Proof.
  intros Hcount.
  destruct (PyStr.contains ":" agent_id) eqn:Hc.
  - destruct (chat_agent_name_colon agent_id h s Hc) as (n & rest & Hchat & Hs & Hn).
    assert (Hrest : PyStr.contains ":" rest = false).
    { rewrite PyStrFacts.contains_count.
      assert (Hsum : PyStr.count ":" agent_id
                     = PyStr.count ":" n + (1 + PyStr.count ":" rest)).
      { rewrite Hs at 1. rewrite PyStrFacts.count_app. reflexivity. }
      destruct (PyStr.count ":" rest); [reflexivity | lia]. }
    exists n, rest. split; [exact Hchat | split; [| exact Hn]].
    unfold Foundry.parse_agent_id. rewrite Hc, Hs.
    change (n +:+ ":" +:+ rest) with (n +:+ String ":" rest).
    rewrite (rsplit1_join _ _ _ Hrest). reflexivity.
  - exists agent_id, "1".
    split; [apply chat_agent_name_plain; exact Hc |].
    split; [apply parse_agent_id_plain; exact Hc | exact Hc].
Qed.

Lemma chat_and_delete_agree_on_simple_ids_witness :
  Foundry.chat_agent_name "IaCDocumentAgent:2" chat_host (start [])
    = (Returned "IaCDocumentAgent", start []) /\
  Foundry.parse_agent_id "IaCDocumentAgent:2" chat_host (start [])
    = (Returned ("IaCDocumentAgent", "2"), start []).
Proof.
  destruct (chat_and_delete_agree_on_simple_ids "IaCDocumentAgent:2" chat_host (start []))
    as (name & version & Hchat & Hparse & _).
  - vm_compute. lia.
  - assert (Hn : name = "IaCDocumentAgent")
      by (vm_compute in Hchat; injection Hchat as <-; reflexivity).
    subst name.
    assert (Hv : version = "2")
      by (vm_compute in Hparse; injection Hparse as <-; reflexivity).
    subst version. split; assumption.
Defined.

(** ** Whole chat sessions *)

Lemma turn_calls_are_turns name cid line :
  Forall (turn_call name cid) (turn_calls name cid line).
Proof.
  unfold turn_calls. destruct (String.eqb (PyStr.strip line) ""); [constructor |].
  constructor; [left; eexists; reflexivity |].
  constructor; [right; reflexivity | constructor].
Qed.

Lemma turns_never_delete name cid calls c :
  Forall (turn_call name cid) calls -> ~ In (ConversationsDelete c) calls.
Proof.
  intros Hall Hin. rewrite List.Forall_forall in Hall.
  destruct (Hall _ Hin) as [[? H] | H]; discriminate H.
Qed.

(** The transcript of a loop whose lines are no exit tokens, on a service
    that accepts them: followed by an exit token the loop returns, leaving
    the lines after it unread; at the end of the input it ends with
    [EOFError]. *)
Lemma chat_loop_transcript lines : forall fuel name cid h t,
  Forall (fun l => is_exit l = false) lines ->
  accepting (service h) ->
  length lines < fuel ->
  (forall exit_line rest,
     is_exit exit_line = true ->
     exists d,
       Foundry.chat_loop fuel name cid h
         {| stdin := lines ++ exit_line :: rest; trace := t |}
         = (Returned tt, {| stdin := rest; trace := t ++ d |}) /\
       remote_calls d
         = flat_map (turn_calls name cid) lines ++ [ConversationsDelete cid]) /\
  (exists d,
     Foundry.chat_loop fuel name cid h {| stdin := lines; trace := t |}
       = (Raised EOFError, {| stdin := []; trace := t ++ d |}) /\
     remote_calls d = flat_map (turn_calls name cid) lines).
Proof.
  induction lines as [| line lines IH]; intros fuel name cid h t Hlines Hacc Hfuel;
    (destruct fuel as [| fuel]; [simpl in Hfuel; lia |]).
  - split.
    + intros exit_line rest Hexit.
      destruct (chat_loop_exit fuel name cid h exit_line rest t Hexit) as [r Hr].
      eexists. split; [exact Hr | reflexivity].
    + eexists. split; [apply chat_loop_eof | reflexivity].
  - inversion Hlines as [| ? ? Hline Hlines']; subst.
    simpl in Hfuel.
    destruct (String.eqb (PyStr.strip line) "") eqn:Hblank.
    + apply String.eqb_eq in Hblank.
      destruct (IH fuel name cid h (t ++ [you_prompt]) Hlines' Hacc ltac:(lia))
        as [Hexit Heof].
      split.
      * intros exit_line rest Hx. destruct (Hexit exit_line rest Hx) as (d & Hrun & Hcalls).
        exists ([you_prompt] ++ d). cbn [app].
        rewrite (chat_loop_blank fuel name cid h line _ t Hblank), Hrun.
        rewrite <- app_assoc. split; [reflexivity |].
        unfold turn_calls at 1. cbn [flat_map]. rewrite Hblank, String.eqb_refl.
        exact Hcalls.
      * destruct Heof as (d & Hrun & Hcalls).
        exists ([you_prompt] ++ d).
        rewrite (chat_loop_blank fuel name cid h line _ t Hblank), Hrun.
        rewrite <- app_assoc. split; [reflexivity |].
        cbn [flat_map]. unfold turn_calls at 1. rewrite Hblank, String.eqb_refl.
        exact Hcalls.
    + assert (Hne : PyStr.strip line <> "") by (apply String.eqb_neq; exact Hblank).
      destruct Hacc as [Hitem Hresp].
      destruct (Hresp (t ++ [you_prompt;
                             Remote (ConversationsItemsCreate cid (PyStr.strip line))
                                    (inr ANone)]) cid name) as [text Htext].
      pose proof (fun rest =>
                    chat_loop_turn fuel name cid h line rest t text Hline Hne
                      (Hitem _ _ _) Htext) as Hturn.
      set (d1 := [you_prompt;
                  Remote (ConversationsItemsCreate cid (PyStr.strip line)) (inr ANone);
                  Remote (ResponsesCreate cid name) (inr (AText text));
                  Print (PyStr.nl +:+ "Assistant: " +:+ text)]) in *.
      destruct (IH fuel name cid h (t ++ d1) Hlines' (conj Hitem Hresp) ltac:(lia))
        as [Hexit Heof].
      split.
      * intros exit_line rest Hx. destruct (Hexit exit_line rest Hx) as (d & Hrun & Hcalls).
        exists (d1 ++ d). cbn [app].
        change ((line :: lines) ++ exit_line :: rest)
          with (line :: (lines ++ exit_line :: rest)).
        rewrite Hturn, Hrun. rewrite <- app_assoc. split; [reflexivity |].
        rewrite remote_calls_app, Hcalls. cbn [flat_map].
        unfold turn_calls at 2. rewrite Hblank. reflexivity.
      * destruct Heof as (d & Hrun & Hcalls).
        exists (d1 ++ d). rewrite Hturn, Hrun. rewrite <- app_assoc.
        split; [reflexivity |].
        rewrite remote_calls_app, Hcalls. cbn [flat_map].
        unfold turn_calls at 2. rewrite Hblank. reflexivity.
Qed.

(** X3.  A chat session on any input (text of the code points below 256,
    white space and capitals being those of Python on that range, the
    no-break space and the accented capitals included): with the agent id
    and the endpoint configured and a service that accepts every call, the
    lines before the first exit token cost one item and one response
    request each, in order, with the stripped line as content, blank lines
    costing nothing; the exit token ends the session with the deletion of
    the conversation, and the lines after it stay unread. *)
Theorem chat_session_transcript fuel h s agent_id endpoint cid lines exit_line rest :
  PyStr.truthy (environ h !! "AGENT_ID") = Some agent_id ->
  PyStr.truthy (environ h !! "PROJECT_ENDPOINT") = Some endpoint ->
  (forall t, conversations_create (service h) t = inr cid) ->
  accepting (service h) ->
  stdin s = lines ++ exit_line :: rest ->
  Forall (fun l => is_exit l = false) lines ->
  is_exit exit_line = true ->
  length lines < fuel ->
  exists d name,
    Foundry.chat_agent_name agent_id h s = (Returned name, s) /\
    Foundry.chat_with_agent fuel h s
      = (Returned tt, {| stdin := rest; trace := trace s ++ d |}) /\
    remote_calls d =
      ConversationsCreate :: flat_map (turn_calls name cid) lines
        ++ [ConversationsDelete cid].
Proof.
  intros Hid Hep Hconv Hacc Hin Hlines Hexit Hfuel.
  destruct (chat_agent_name_total agent_id h s) as [name Hname].
  rewrite (chat_with_agent_start _ _ _ _ _ _ Hid Hname Hep), Hconv.
  destruct s as [inp t]. simpl in Hin. subst inp.
  unfold after. cbn [stdin trace].
  match goal with
  | |- context [Foundry.chat_loop _ _ _ _ {| stdin := _; trace := ?t1 |}] =>
      destruct (proj1 (chat_loop_transcript lines fuel name cid h t1 Hlines Hacc Hfuel)
                  exit_line rest Hexit) as (d & Hrun & Hcalls)
  end.
  rewrite Hrun. eexists _, name. split; [exact Hname |]. split.
  - rewrite <- app_assoc. reflexivity.
  - rewrite !remote_calls_app, Hcalls. reflexivity.
Qed.

Lemma chat_session_transcript_witness :
  exists d,
    Foundry.chat_with_agent 4 (host_of [("PROJECT_ENDPOINT", "https://example.test");
                                        ("AGENT_ID", "IaCDocumentAgent:1")] nominal)
      (start (talkative_lines ++ [quit_nbsp; "never read"]))
      = (Returned tt, {| stdin := ["never read"]; trace := d |}) /\
    remote_calls d =
      [ConversationsCreate;
       ConversationsItemsCreate "conv_1" "What is in the manual?";
       ResponsesCreate "conv_1" "IaCDocumentAgent";
       ConversationsItemsCreate "conv_1" "And the warranty?";
       ResponsesCreate "conv_1" "IaCDocumentAgent";
       ConversationsDelete "conv_1"].
Proof.
  destruct (chat_session_transcript 4
              (host_of [("PROJECT_ENDPOINT", "https://example.test");
                        ("AGENT_ID", "IaCDocumentAgent:1")] nominal)
              (start (talkative_lines ++ [quit_nbsp; "never read"]))
              "IaCDocumentAgent:1" "https://example.test" "conv_1"
              talkative_lines quit_nbsp ["never read"])
    as (d & name & Hname & Hrun & Hcalls).
  - vm_compute. reflexivity.
  - vm_compute. reflexivity.
  - reflexivity.
  - split; [reflexivity | intros t c a; exists "Hi!"; reflexivity].
  - reflexivity.
  - repeat constructor.
  - reflexivity.
  - simpl. lia.
  - exists d. split; [exact Hrun |].
    assert (Hn : name = "IaCDocumentAgent")
      by (vm_compute in Hname; injection Hname as <-; reflexivity).
    rewrite Hcalls, Hn. reflexivity.
Defined.

(** X4.  A chat session whose input (text of the code points below 256,
    with Python's white space and capitals on that range) ends without an
    exit token: the turns are served as usual, then [input] raises
    [EOFError], which ends the session; the conversation that was created
    is never deleted. *)
Theorem chat_session_end_of_input fuel h s agent_id endpoint cid :
  PyStr.truthy (environ h !! "AGENT_ID") = Some agent_id ->
  PyStr.truthy (environ h !! "PROJECT_ENDPOINT") = Some endpoint ->
  (forall t, conversations_create (service h) t = inr cid) ->
  accepting (service h) ->
  Forall (fun l => is_exit l = false) (stdin s) ->
  length (stdin s) < fuel ->
  exists d name,
    Foundry.chat_agent_name agent_id h s = (Returned name, s) /\
    Foundry.chat_with_agent fuel h s
      = (Raised EOFError, {| stdin := []; trace := trace s ++ d |}) /\
    remote_calls d = ConversationsCreate :: flat_map (turn_calls name cid) (stdin s) /\
    forall c, ~ In (ConversationsDelete c) (remote_calls d).
Proof.
  intros Hid Hep Hconv Hacc Hlines Hfuel.
  destruct (chat_agent_name_total agent_id h s) as [name Hname].
  rewrite (chat_with_agent_start _ _ _ _ _ _ Hid Hname Hep), Hconv.
  destruct s as [inp t]. cbn [stdin trace] in *.
  unfold after. cbn [stdin trace].
  match goal with
  | |- context [Foundry.chat_loop _ _ _ _ {| stdin := _; trace := ?t1 |}] =>
      destruct (proj2 (chat_loop_transcript inp fuel name cid h t1 Hlines Hacc Hfuel))
        as (d & Hrun & Hcalls)
  end.
  rewrite Hrun. eexists _, name. split; [exact Hname |]. split; [| split].
  - rewrite <- app_assoc. reflexivity.
  - rewrite !remote_calls_app, Hcalls. reflexivity.
  - intros c. rewrite !remote_calls_app, Hcalls. cbn.
    intros [Hin | Hin]; [discriminate Hin |].
    revert Hin. apply (turns_never_delete name cid).
    clear. induction inp as [| l inp IH]; [constructor |].
    cbn [flat_map]. apply Forall_app. split; [apply turn_calls_are_turns | exact IH].
Qed.

Lemma chat_session_end_of_input_witness :
  exists d,
    Foundry.chat_with_agent 2 chat_host (start ["hello"])
      = (Raised EOFError, {| stdin := []; trace := d |}) /\
    remote_calls d =
      [ConversationsCreate; ConversationsItemsCreate "conv_1" "hello";
       ResponsesCreate "conv_1" "A"].
Proof.
  destruct (chat_session_end_of_input 2 chat_host (start ["hello"]) "A:B:3"
              "https://example.test" "conv_1")
    as (d & name & Hname & Hrun & Hcalls & _).
  - vm_compute. reflexivity.
  - vm_compute. reflexivity.
  - reflexivity.
  - split; [reflexivity | intros t c a; exists "Hi!"; reflexivity].
  - repeat constructor.
  - simpl. lia.
  - exists d. split; [exact Hrun |].
    assert (Hn : name = "A") by (vm_compute in Hname; injection Hname as <-; reflexivity).
    rewrite Hcalls, Hn. reflexivity.
Defined.

(** However a chat loop ends, on whatever service: it returns only after
    the deletion of its conversation, which is then its last call; it
    never exits; and when it ends otherwise no deletion was attempted. *)
Lemma chat_loop_end fuel : forall name cid h s o s',
  Foundry.chat_loop fuel name cid h s = (o, s') ->
  exists d,
    trace s' = trace s ++ d /\
    match o with
    | Returned _ =>
        exists pre, remote_calls d = pre ++ [ConversationsDelete cid] /\
                    Forall (turn_call name cid) pre
    | Exited _ => False
    | Raised _ | OutOfFuel => Forall (turn_call name cid) (remote_calls d)
    end.
Proof.
  induction fuel as [| fuel IH]; intros name cid h [inp t] o s' Hrun.
  - injection Hrun as <- <-. exists []. rewrite app_nil_r. split; [reflexivity | constructor].
  - destruct inp as [| line rest].
    + rewrite chat_loop_eof in Hrun. injection Hrun as <- <-.
      exists [you_prompt]. split; [reflexivity | constructor].
    + destruct (PyStr.mem (PyStr.lower (PyStr.strip line)) EXIT_TOKENS) eqn:Hexit.
      * destruct (chat_loop_exit fuel name cid h line rest t Hexit) as [r Hr].
        rewrite Hr in Hrun. injection Hrun as <- <-.
        eexists. split; [reflexivity |].
        exists []. split; [reflexivity | constructor].
      * destruct (String.eqb (PyStr.strip line) "") eqn:Hblank.
        { apply String.eqb_eq in Hblank.
          rewrite (chat_loop_blank fuel name cid h line rest t Hblank) in Hrun.
          destruct (IH _ _ _ _ _ _ Hrun) as (d & Hd & Hend). simpl in Hd.
          exists ([you_prompt] ++ d). rewrite Hd, <- app_assoc.
          split; [reflexivity |].
          destruct o; exact Hend. }
        apply String.eqb_neq in Hblank.
        destruct (conversations_items_create (service h) (t ++ [you_prompt]) cid
                    (PyStr.strip line)) as [e | []] eqn:Hitem.
        { rewrite (chat_loop_item_raises fuel name cid h line rest t e Hexit Hblank Hitem)
            in Hrun.
          injection Hrun as <- <-. eexists. split; [reflexivity |].
          simpl. constructor; [left; eexists; reflexivity | constructor]. }
        destruct (responses_create (service h)
                    (t ++ [you_prompt;
                           Remote (ConversationsItemsCreate cid (PyStr.strip line))
                                  (inr ANone)]) cid name) as [e | text] eqn:Hresp.
        { rewrite (chat_loop_response_raises fuel name cid h line rest t e
                     Hexit Hblank Hitem Hresp) in Hrun.
          injection Hrun as <- <-. eexists. split; [reflexivity |].
          simpl. constructor; [left; eexists; reflexivity |].
          constructor; [right; reflexivity | constructor]. }
        rewrite (chat_loop_turn fuel name cid h line rest t text
                   Hexit Hblank Hitem Hresp) in Hrun.
        destruct (IH _ _ _ _ _ _ Hrun) as (d & Hd & Hend). simpl in Hd.
        eexists. rewrite Hd, <- app_assoc. split; [reflexivity |].
        assert (Hturn : Forall (turn_call name cid)
                          [ConversationsItemsCreate cid (PyStr.strip line);
                           ResponsesCreate cid name]).
        { constructor; [left; eexists; reflexivity |].
          constructor; [right; reflexivity | constructor]. }
        rewrite remote_calls_app.
        destruct o as [[] | e | c |].
        -- destruct Hend as (pre & Hpre & Hall).
           exists ([ConversationsItemsCreate cid (PyStr.strip line);
                    ResponsesCreate cid name] ++ pre).
           split; [rewrite Hpre, <- app_assoc; reflexivity |].
           apply Forall_app. split; assumption.
        -- apply Forall_app. split; [exact Hturn | exact Hend].
        -- exact Hend.
        -- apply Forall_app. split; [exact Hturn | exact Hend].
Qed.

Lemma chat_session_end fuel h s o s' :
  Foundry.chat_with_agent fuel h s = (o, s') ->
  exists d,
    trace s' = trace s ++ d /\
    (o = Returned tt ->
     exists cid mid,
       In (Remote ConversationsCreate (inr (AId cid))) d /\
       remote_calls d = ConversationsCreate :: mid ++ [ConversationsDelete cid] /\
       forall c, ~ In (ConversationsDelete c) mid) /\
    (o <> Returned tt -> forall c, ~ In (ConversationsDelete c) (remote_calls d)) /\
    (forall code, o = Exited code -> code = 1%Z /\ remote_calls d = []).
Proof.
  intros Hrun.
  destruct (PyStr.truthy (environ h !! "AGENT_ID")) as [agent_id |] eqn:Hid.
  2:{ rewrite (chat_with_agent_no_id _ _ _ Hid) in Hrun. injection Hrun as <- <-.
      eexists. split; [reflexivity |].
      split; [intros H; discriminate H |].
      split; [intros _ c [] |].
      intros code H. injection H as <-. split; reflexivity. }
  destruct (chat_agent_name_total agent_id h s) as [name Hname].
  destruct (PyStr.truthy (environ h !! "PROJECT_ENDPOINT")) as [endpoint |] eqn:Hep.
  2:{ rewrite (chat_with_agent_no_endpoint _ _ _ _ _ Hid Hname Hep) in Hrun.
      injection Hrun as <- <-.
      eexists. split; [reflexivity |].
      split; [intros H; discriminate H |].
      split; [intros _ c [] | intros code H; discriminate H]. }
  rewrite (chat_with_agent_start _ _ _ _ _ _ Hid Hname Hep) in Hrun.
  destruct (conversations_create (service h) (trace s ++ banner name)) as [e | cid].
  - injection Hrun as <- <-. eexists. split; [reflexivity |].
    split; [intros H; discriminate H |].
    split; [| intros code H; discriminate H].
    intros _ c. unfold banner. simpl.
    intros [H | []]; discriminate H.
  - destruct (chat_loop_end _ _ _ _ _ _ _ Hrun) as (d & Hd & Hend).
    simpl in Hd. eexists. rewrite Hd, <- app_assoc. split; [reflexivity |].
    rewrite !remote_calls_app.
    change (remote_calls (banner name)) with (@nil call).
    cbn [app remote_calls omap list_omap].
    destruct o as [[] | e | c |].
    + destruct Hend as (pre & Hpre & Hall).
      split; [| split; [intros H; contradiction H; reflexivity
                       | intros code H; discriminate H]].
      intros _. exists cid, pre.
      split; [rewrite ?in_app_iff; simpl; tauto |].
      split; [rewrite Hpre; reflexivity |].
      intros c. apply (turns_never_delete name cid). exact Hall.
    + split; [intros H; discriminate H |].
      split; [| intros code H; discriminate H].
      intros _ c' [H | H]; [discriminate H |].
      revert H. apply (turns_never_delete name cid). exact Hend.
    + destruct Hend.
    + split; [intros H; discriminate H |].
      split; [| intros code H; discriminate H].
      intros _ c' [H | H]; [discriminate H |].
      revert H. apply (turns_never_delete name cid). exact Hend.
Qed.

(** X5.  In every chat session, on whatever service and input: the
    session returns normally only after it has asked for the deletion of
    the conversation it created, as its last call; when it ends in any
    other way (end of input, a call that raised, a missing setting) no
    conversation deletion was attempted; and the only exit code it uses is
    1, before any call of the service. *)
Theorem chat_session_deletes_only_on_exit fuel h s o s' :
  Foundry.chat_with_agent fuel h s = (o, s') ->
  exists d,
    trace s' = trace s ++ d /\
    (o = Returned tt ->
     exists cid mid,
       In (Remote ConversationsCreate (inr (AId cid))) d /\
       remote_calls d = ConversationsCreate :: mid ++ [ConversationsDelete cid] /\
       forall c, ~ In (ConversationsDelete c) mid) /\
    (o <> Returned tt -> forall c, ~ In (ConversationsDelete c) (remote_calls d)) /\
    (forall code, o = Exited code -> code = 1%Z /\ remote_calls d = []).
Proof. apply chat_session_end. Qed.

Lemma chat_session_deletes_only_on_exit_witness :
  exists d,
    trace (snd (Foundry.chat_with_agent 3 chat_host (start ["hi"; "quit"]))) = d /\
    exists cid mid,
      remote_calls d = ConversationsCreate :: mid ++ [ConversationsDelete cid].
Proof.
  destruct (chat_session_deletes_only_on_exit 3 chat_host (start ["hi"; "quit"])
              (Returned tt)
              (snd (Foundry.chat_with_agent 3 chat_host (start ["hi"; "quit"]))))
    as (d & Hd & Hret & _).
  - vm_compute. reflexivity.
  - exists d. split; [exact Hd |].
    destruct (Hret eq_refl) as (cid & mid & _ & Hcalls & _).
    exists cid, mid. exact Hcalls.
Defined.

(** ** The AgentId script: delete and list *)

(** One step along a computation, [try] blocks included. *)
Ltac step' := first [step | apply yields_try_except; cbv beta iota].

(** Case analysis on the membership of an event in a trace. *)
Ltac in_cases :=
  repeat match goal with
         | H : _ \/ _ |- _ => destruct H
         | H : False |- _ => destruct H
         | H : Remote _ _ = Remote _ _ |- _ =>
             first [discriminate H | injection H as <- <-]
         | H : Print _ = Remote _ _ |- _ => discriminate H
         | H : Print _ = Print _ |- _ => discriminate H
         | H : Remote _ _ = Print _ |- _ => discriminate H
         | H : System _ = Remote _ _ |- _ => discriminate H
         end.

Ltac delete_leaf :=
  unfold delete_report, env_error;
  (split; [first [left; reflexivity | right; reflexivity] |]);
  (split; [first [ let Hx := fresh in intros Hx; discriminate Hx
                 | intros _; split; [reflexivity | simpl; auto 10] ] |]);
  (split; [simpl; lia |]);
  let c := fresh "c" in
  let e := fresh "e" in
  let Hin := fresh "Hin" in
  intros c e Hin; simpl in Hin; in_cases;
  try (split; [simpl; auto 10
              | let Hno := fresh "Hno" in simpl; intros Hno; in_cases]).

Lemma agentid_delete_report h s : yields AgentId.delete_agent h s delete_report.
Proof.
  unfold AgentId.delete_agent, AgentId.get_project_client, AgentId.get_env_or_fail.
  destruct (PyStr.truthy (environ h !! "AGENT_ID")) as [agent_id |] eqn:Hid.
  - destruct (PyStr.contains ":" agent_id) eqn:Hc.
    + destruct (PyStrFacts.rsplit1_some _ _ Hc) as (n & v & Hr & _ & _).
      repeat step'.
      all: delete_leaf.
    + repeat step'.
      all: delete_leaf.
  - repeat step'. delete_leaf.
Qed.

(** X6.  [delete_agent] of the AgentId script never lets an exception
    out: every run returns normally or exits with code 1, the exit being
    the missing endpoint, reported before any call; at most one call is
    made; a deletion that raised is printed as an error line in place of
    the success line.  Without an agent id there is nothing to do: one
    line is printed and the endpoint is not even looked at. *)
Theorem agentid_delete_never_raises h s :
  (forall o s',
     AgentId.delete_agent h s = (o, s') ->
     exists d,
       s' = after s d /\
       (o = Returned tt \/ o = Exited 1%Z) /\
       (o = Exited 1%Z -> remote_calls d = [] /\ In (env_error "PROJECT_ENDPOINT") d) /\
       length (remote_calls d) <= 1 /\
       (forall c e, In (Remote c (inl e)) d ->
          In (Print ("Error deleting agent: " +:+ str_exn e)) d /\
          ~ In (Print "Agent deleted successfully") d)) /\
  (PyStr.truthy (environ h !! "AGENT_ID") = None ->
   AgentId.delete_agent h s
     = (Returned tt, after s [Print "No agent to delete (AGENT_ID not set)"])).
Proof.
  split.
  - intros o s' Hrun.
    exact (yields_elim _ h s delete_report o s' (agentid_delete_report h s) Hrun).
  - intros Hid. unfold AgentId.delete_agent.
    unfold bind at 1, environ_get. unfold bind at 1, environ_get_default.
    rewrite Hid. reflexivity.
Qed.

Lemma agentid_delete_never_raises_witness :
  (exists d,
     AgentId.delete_agent (host_of [("PROJECT_ENDPOINT", "https://example.test");
                                    ("AGENT_ID", "OneDrive-Agent:2")] refusing)
       (start []) = (Returned tt, after (start []) d) /\
     In (Print "Error deleting agent: agent busy") d) /\
  AgentId.delete_agent (host_of [] refusing) (start [])
    = (Returned tt, after (start []) [Print "No agent to delete (AGENT_ID not set)"]).
Proof.
  split.
  - destruct (proj1 (agentid_delete_never_raises
                       (host_of [("PROJECT_ENDPOINT", "https://example.test");
                                 ("AGENT_ID", "OneDrive-Agent:2")] refusing)
                       (start []))
                (Returned tt)
                (snd (AgentId.delete_agent
                        (host_of [("PROJECT_ENDPOINT", "https://example.test");
                                  ("AGENT_ID", "OneDrive-Agent:2")] refusing)
                        (start []))))
      as (d & Hs & _ & _ & _ & Hreport).
    + vm_compute. reflexivity.
    + exists d. split; [rewrite <- Hs; vm_compute; reflexivity |].
      apply (Hreport (AgentsDeleteVersion "OneDrive-Agent" "2")
               (ServiceError "agent busy")).
      assert (Hd : d = added [] (after (start []) d))
        by (symmetry; apply (added_after (start []))).
      rewrite Hd, <- Hs. vm_compute. tauto.
  - apply (proj2 (agentid_delete_never_raises (host_of [] refusing) (start []))).
    vm_compute. reflexivity.
Defined.

Lemma print_agents_returns agents : forall h s,
  returns (AgentId.print_agents agents) h s tt (map agent_line agents).
Proof.
  induction agents as [| a agents IH]; intros h s.
  - apply returns_ret.
  - cbn [AgentId.print_agents map].
    change (agent_line a :: map agent_line agents)
      with ([agent_line a] ++ map agent_line agents).
    eapply returns_bind; [apply returns_print | apply IH].
Qed.

(** X7.  [list_agents] prints its two header lines, asks the service once
    for the agents, and prints one line per agent, in the order the
    service gave them, with the name and the id of each.  An error of the
    service is not caught, and a missing endpoint exits with code 1 after
    the header. *)
Theorem list_agents_output h s :
  (forall endpoint agents,
     PyStr.truthy (environ h !! "PROJECT_ENDPOINT") = Some endpoint ->
     agents_list (service h) (trace s ++ list_header) = inr agents ->
     AgentId.list_agents h s =
       (Returned tt,
        after s (list_header ++ Remote AgentsList (inr (AAgents agents))
                               :: map agent_line agents))) /\
  (forall endpoint e,
     PyStr.truthy (environ h !! "PROJECT_ENDPOINT") = Some endpoint ->
     agents_list (service h) (trace s ++ list_header) = inl e ->
     AgentId.list_agents h s =
       (Raised e, after s (list_header ++ [Remote AgentsList (inl e)]))) /\
  (PyStr.truthy (environ h !! "PROJECT_ENDPOINT") = None ->
   AgentId.list_agents h s =
     (Exited 1, after s (list_header ++ [env_error "PROJECT_ENDPOINT"]))).
Proof.
  assert (Hhead : forall k : unit -> M unit,
            bind (print "Standard Agents in project:")
                 (fun _ => bind (print (PyStr.repeat_char "-" 50)) k) h s
            = k tt h (after s list_header)).
  { intros k.
    rewrite (bind_returns_eq _ _ _ _ _ _ (returns_print _ h s)).
    rewrite (bind_returns_eq _ _ _ _ _ _ (returns_print _ h _)).
    rewrite after_after. reflexivity. }
  unfold AgentId.list_agents. rewrite Hhead.
  unfold AgentId.get_project_client, AgentId.get_env_or_fail.
  repeat apply conj.
  - intros endpoint agents Hep Hlist.
    unfold bind at 1. unfold bind at 1. unfold bind at 1, environ_get.
    rewrite Hep. unfold ret.
    unfold bind at 1, call_agents_list, remote.
    change (trace (after s list_header)) with (trace s ++ list_header).
    rewrite Hlist, emit_after, after_after.
    rewrite (print_agents_returns agents h _), after_after, <- app_assoc.
    reflexivity.
  - intros endpoint e Hep Hlist.
    unfold bind at 1. unfold bind at 1. unfold bind at 1, environ_get.
    rewrite Hep. unfold ret.
    unfold bind at 1, call_agents_list, remote.
    change (trace (after s list_header)) with (trace s ++ list_header).
    rewrite Hlist, emit_after, after_after. reflexivity.
  - intros Hep.
    unfold bind at 1. unfold bind at 1. unfold bind at 1, environ_get.
    rewrite Hep.
    unfold bind at 1, print, sys_exit. rewrite emit_after, after_after.
    reflexivity.
Qed.

Lemma list_agents_output_witness :
  AgentId.list_agents (host_of [("PROJECT_ENDPOINT", "https://example.test")]
                               (listing two_agents)) (start [])
    = (Returned tt,
       after (start [])
         (list_header ++
          [Remote AgentsList (inr (AAgents two_agents));
           Print "  OneDrive-Agent (id: OneDrive-Agent:2)";
           Print "  IaCDocumentAgent (id: IaCDocumentAgent:1)"])) /\
  AgentId.list_agents (host_of [] (listing two_agents)) (start [])
    = (Exited 1, after (start []) (list_header ++ [env_error "PROJECT_ENDPOINT"])).
Proof.
  split.
  - apply (proj1 (list_agents_output _ _) "https://example.test" two_agents).
    + vm_compute. reflexivity.
    + reflexivity.
  - apply (proj2 (proj2 (list_agents_output _ _))). vm_compute. reflexivity.
Defined.

(** ** The AgentId script: create *)

Lemma truthy_some v x : PyStr.truthy v = Some x -> v = Some x /\ x <> "".
Proof.
  unfold PyStr.truthy. destruct v as [y |]; [| discriminate].
  destruct (String.eqb y "") eqn:E; [discriminate |].
  intros H. injection H as <-. split; [reflexivity | apply String.eqb_neq; exact E].
Qed.

Lemma agentid_create_report h s : yields AgentId.create_agent h s (create_report h).
Proof.
  unfold AgentId.create_agent, AgentId.get_project_client, AgentId.get_env_or_fail.
  repeat step.
  all: unfold create_report.
  all: (split; [simpl; lia |]).
  all: (split; [intros name def r Hin; simpl in Hin; in_cases |]).
  all: try match goal with
           | H : PyStr.truthy (environ _ !! "CHAT_MODEL_DEPLOYMENT") = Some _
             |- _ /\ _ /\ _ /\ _ /\ _ =>
               destruct (truthy_some _ _ H); repeat split; assumption
           end.
  all: (split; [first [ intros _; reflexivity
                      | let Hx := fresh in intros Hx; contradiction Hx; reflexivity ] |]).
  all: intros c e' Hin; simpl in Hin; in_cases; try reflexivity.
Qed.

(** X8.  [create_agent] of the AgentId script calls the service at most
    once; the definition it submits carries the value of
    [CHAT_MODEL_DEPLOYMENT], which is never empty, the fixed instructions
    and the three function tools, under the name from [AGENT_NAME] or its
    default.  When the creation raises, the exception is the outcome, and
    whenever the run does not return normally no [azd env set] was issued:
    the state is written only after the agent exists. *)
Theorem agentid_create_writes_only_after_creation h s o s' :
  AgentId.create_agent h s = (o, s') ->
  exists d,
    s' = after s d /\
    length (remote_calls d) <= 1 /\
    (forall name def r,
       In (Remote (AgentsCreateVersion name def) r) d ->
       model def <> "" /\
       environ h !! "CHAT_MODEL_DEPLOYMENT" = Some (model def) /\
       name = default "OneDrive-Agent" (environ h !! "AGENT_NAME") /\
       instructions def = AgentId.AGENT_INSTRUCTIONS /\
       tools def = AgentId.get_function_tools) /\
    (o <> Returned tt -> shell_commands d = []) /\
    (forall c e, In (Remote c (inl e)) d -> o = Raised e).
Proof.
  intros Hrun.
  exact (yields_elim _ h s (create_report h) o s' (agentid_create_report h s) Hrun).
Qed.

Lemma agentid_create_writes_only_after_creation_witness :
  exists d,
    AgentId.create_agent rejecting_host (start [])
      = (Raised (ServiceError "quota exceeded"), after (start []) d) /\
    length (remote_calls d) = 1 /\
    shell_commands d = [].
Proof.
  destruct (agentid_create_writes_only_after_creation rejecting_host (start [])
              (Raised (ServiceError "quota exceeded"))
              (snd (AgentId.create_agent rejecting_host (start []))))
    as (d & Hs & _ & _ & Hshell & _).
  - vm_compute. reflexivity.
  - exists d. split; [rewrite <- Hs; vm_compute; reflexivity |].
    split; [| apply Hshell; discriminate].
    assert (Hd : d = added [] (after (start []) d))
      by (symmetry; apply (added_after (start []))).
    rewrite Hd, <- Hs. vm_compute. reflexivity.
Defined.

(** ** Missing configuration, command by command *)

Lemma agentid_list_no_endpoint h s :
  PyStr.truthy (environ h !! "PROJECT_ENDPOINT") = None ->
  AgentId.list_agents h s =
    (Exited 1, after s (list_header ++ [env_error "PROJECT_ENDPOINT"])).
Proof.
  intros Hep. unfold AgentId.list_agents.
  rewrite (bind_returns_eq _ _ _ _ _ _ (returns_print _ h s)).
  rewrite (bind_returns_eq _ _ _ _ _ _ (returns_print _ h _)).
  unfold AgentId.get_project_client.
  unfold bind at 1. unfold bind at 1.
  rewrite (get_env_or_fail_missing _ _ _ Hep).
  rewrite !after_after. reflexivity.
Qed.

Lemma agentid_delete_no_id h s :
  PyStr.truthy (environ h !! "AGENT_ID") = None ->
  AgentId.delete_agent h s
    = (Returned tt, after s [Print "No agent to delete (AGENT_ID not set)"]).
Proof.
  intros Hid. unfold AgentId.delete_agent.
  unfold bind at 1, environ_get. unfold bind at 1, environ_get_default.
  rewrite Hid. reflexivity.
Qed.

Lemma agentid_delete_no_endpoint h s agent_id :
  PyStr.truthy (environ h !! "AGENT_ID") = Some agent_id ->
  PyStr.truthy (environ h !! "PROJECT_ENDPOINT") = None ->
  AgentId.delete_agent h s =
    (Exited 1,
     after s [Print ("Deleting agent: "
                       +:+ default "OneDrive-Agent" (environ h !! "AGENT_NAME")
                       +:+ " (ID: " +:+ agent_id +:+ ")");
              env_error "PROJECT_ENDPOINT"]).
Proof.
  intros Hid Hep. unfold AgentId.delete_agent.
  unfold bind at 1, environ_get. unfold bind at 1, environ_get_default.
  rewrite Hid.
  rewrite (bind_returns_eq _ _ _ _ _ _ (returns_print _ h s)).
  unfold AgentId.get_project_client.
  unfold bind at 1. unfold bind at 1.
  rewrite (get_env_or_fail_missing _ _ _ Hep).
  rewrite !after_after. reflexivity.
Qed.

Lemma foundry_chat_no_endpoint fuel h s agent_id :
  PyStr.truthy (environ h !! "AGENT_ID") = Some agent_id ->
  PyStr.truthy (environ h !! "PROJECT_ENDPOINT") = None ->
  exists name,
    Foundry.chat_with_agent fuel h s = (Raised endpoint_required, after s (banner name)).
Proof.
  intros Hid Hep.
  destruct (chat_agent_name_total agent_id h s) as [name Hname].
  exists name. exact (chat_with_agent_no_endpoint fuel h s agent_id name Hid Hname Hep).
Qed.

Lemma agentid_definition_checked h s o s' name def r :
  AgentId.create_agent h s = (o, s') ->
  In (Remote (AgentsCreateVersion name def) r) (added (trace s) s') ->
  model def <> "" /\ instructions def = AgentId.AGENT_INSTRUCTIONS.
Proof.
  intros Hrun Hin.
  destruct (yields_elim _ h s (create_report h) o s' (agentid_create_report h s) Hrun)
    as (d & -> & _ & Hdef & _).
  rewrite added_after in Hin.
  destruct (Hdef name def r Hin) as (Hm & _ & _ & Hi & _). split; assumption.
Qed.

(** C7, amended.  What a missing (or empty) variable does, command by
    command, where the command reads it.

    In the AgentId script [get_env_or_fail] prints an error line and exits
    with code 1.  So [create] exits with code 1 before any call of the
    service when [CHAT_MODEL_DEPLOYMENT] or [PROJECT_ENDPOINT] is missing,
    [list] does when [PROJECT_ENDPOINT] is missing, and [delete] does when
    [AGENT_ID] is set and [PROJECT_ENDPOINT] is missing; [delete] without
    [AGENT_ID] does not look at the endpoint: it prints one line and
    returns.

    In the Foundry script [get_project_client] raises [ValueError] with a
    message when [PROJECT_ENDPOINT] is missing.  [create] and [delete] end
    with it before any call of the service, and so does [chat] when
    [AGENT_ID] is set; [chat] without [AGENT_ID] prints an error line and
    exits with code 1, whatever the endpoint.

    The definition: the AgentId script never submits an empty model
    deployment; the Foundry script does not check it, the definition
    carries the value of [CHAT_MODEL_DEPLOYMENT] as it is, or
    ["gpt-4.1-mini"] when the variable is absent.  The instructions are the
    fixed texts of the scripts, which are not empty. *)
Theorem missing_configuration_is_fatal :
  (forall name h s,
     PyStr.truthy (environ h !! name) = None ->
     AgentId.get_env_or_fail name h s = (Exited 1, after s [env_error name])) /\
  (forall h s,
     PyStr.truthy (environ h !! "CHAT_MODEL_DEPLOYMENT") = None \/
     PyStr.truthy (environ h !! "PROJECT_ENDPOINT") = None ->
     exists d,
       AgentId.create_agent h s = (Exited 1, after s d) /\
       remote_calls d = [] /\ exists name, In (env_error name) d) /\
  (forall h s,
     PyStr.truthy (environ h !! "PROJECT_ENDPOINT") = None ->
     exists d,
       AgentId.list_agents h s = (Exited 1, after s d) /\
       remote_calls d = [] /\ In (env_error "PROJECT_ENDPOINT") d) /\
  (forall h s agent_id,
     PyStr.truthy (environ h !! "AGENT_ID") = Some agent_id ->
     PyStr.truthy (environ h !! "PROJECT_ENDPOINT") = None ->
     exists d,
       AgentId.delete_agent h s = (Exited 1, after s d) /\
       remote_calls d = [] /\ In (env_error "PROJECT_ENDPOINT") d) /\
  (forall h s,
     PyStr.truthy (environ h !! "AGENT_ID") = None ->
     AgentId.delete_agent h s
       = (Returned tt, after s [Print "No agent to delete (AGENT_ID not set)"])) /\
  (forall h s,
     PyStr.truthy (environ h !! "PROJECT_ENDPOINT") = None ->
     Foundry.get_project_client h s = (Raised endpoint_required, s)) /\
  (forall fuel h s,
     PyStr.truthy (environ h !! "PROJECT_ENDPOINT") = None ->
     exists d,
       Foundry.create_agent_with_vector_store fuel h s
         = (Raised endpoint_required, after s d) /\
       remote_calls d = []) /\
  (forall h s,
     PyStr.truthy (environ h !! "PROJECT_ENDPOINT") = None ->
     exists d,
       Foundry.delete_agent_and_resources h s = (Raised endpoint_required, after s d) /\
       remote_calls d = []) /\
  (forall fuel h s agent_id,
     PyStr.truthy (environ h !! "AGENT_ID") = Some agent_id ->
     PyStr.truthy (environ h !! "PROJECT_ENDPOINT") = None ->
     exists d,
       Foundry.chat_with_agent fuel h s = (Raised endpoint_required, after s d) /\
       remote_calls d = []) /\
  (forall fuel h s,
     PyStr.truthy (environ h !! "AGENT_ID") = None ->
     Foundry.chat_with_agent fuel h s =
       (Exited 1, after s [Print "Error: AGENT_ID not set. Run 'create' first."])) /\
  (forall h s o s' name def r,
     AgentId.create_agent h s = (o, s') ->
     In (Remote (AgentsCreateVersion name def) r) (added (trace s) s') ->
     model def <> "" /\ instructions def = AgentId.AGENT_INSTRUCTIONS) /\
  (forall fuel h s o s' name def r,
     Foundry.create_agent_with_vector_store fuel h s = (o, s') ->
     In (Remote (AgentsCreateVersion name def) r) (added (trace s) s') ->
     model def = default "gpt-4.1-mini" (environ h !! "CHAT_MODEL_DEPLOYMENT") /\
     instructions def = Foundry.INSTRUCTIONS) /\
  Foundry.INSTRUCTIONS <> "" /\ AgentId.AGENT_INSTRUCTIONS <> "".
Proof.
  split; [exact get_env_or_fail_missing |].
  split; [exact agentid_create_unconfigured |].
  split.
  { intros h s Hep. eexists. split; [exact (agentid_list_no_endpoint h s Hep) |].
    split; [reflexivity | simpl; auto]. }
  split.
  { intros h s agent_id Hid Hep.
    eexists. split; [exact (agentid_delete_no_endpoint h s agent_id Hid Hep) |].
    split; [reflexivity | simpl; auto]. }
  split; [exact agentid_delete_no_id |].
  split; [intros h s Hep; apply get_project_client_missing; exact Hep |].
  split; [exact foundry_create_no_endpoint |].
  split; [exact foundry_delete_no_endpoint |].
  split.
  { intros fuel h s agent_id Hid Hep.
    destruct (foundry_chat_no_endpoint fuel h s agent_id Hid Hep) as [name Hrun].
    exists (banner name). split; [exact Hrun | reflexivity]. }
  split; [exact chat_with_agent_no_id |].
  split; [exact agentid_definition_checked |].
  split; [| exact instructions_not_empty].
  intros fuel h s o s' name def r Hrun Hin.
  destruct (yields_elim _ _ _ _ _ _ (foundry_definition_unchecked fuel h s) Hrun)
    as (d & -> & Hpost).
  rewrite added_after in Hin. exact (Hpost name def r Hin).
Qed.

Lemma missing_configuration_is_fatal_witness :
  AgentId.get_env_or_fail "PROJECT_ENDPOINT" (host_of [] nominal) (start [])
    = (Exited 1, after (start []) [env_error "PROJECT_ENDPOINT"]) /\
  (exists d,
     AgentId.create_agent (host_of [("PROJECT_ENDPOINT", "https://example.test")] nominal)
       (start []) = (Exited 1, after (start []) d) /\
     remote_calls d = []) /\
  (exists d,
     AgentId.list_agents (host_of [("PROJECT_ENDPOINT", "")] nominal) (start [])
       = (Exited 1, after (start []) d) /\
     remote_calls d = []) /\
  (exists d,
     AgentId.delete_agent (host_of [("AGENT_ID", "OneDrive-Agent:1")] nominal) (start [])
       = (Exited 1, after (start []) d) /\
     remote_calls d = []) /\
  AgentId.delete_agent (host_of [] nominal) (start [])
    = (Returned tt, after (start []) [Print "No agent to delete (AGENT_ID not set)"]) /\
  Foundry.get_project_client (host_of [("PROJECT_ENDPOINT", "")] nominal) (start [])
    = (Raised endpoint_required, start []) /\
  (exists d,
     Foundry.create_agent_with_vector_store 1 (host_of [] nominal) (start [])
       = (Raised endpoint_required, after (start []) d) /\
     remote_calls d = []) /\
  (exists d,
     Foundry.delete_agent_and_resources (host_of [("AGENT_ID", "A:1")] nominal) (start [])
       = (Raised endpoint_required, after (start []) d) /\
     remote_calls d = []) /\
  (exists d,
     Foundry.chat_with_agent 1 (host_of [("AGENT_ID", "A:1")] nominal) (start ["hello"])
       = (Raised endpoint_required, after (start ["hello"]) d) /\
     remote_calls d = []) /\
  Foundry.chat_with_agent 1 (host_of [("PROJECT_ENDPOINT", "https://example.test")] nominal)
    (start ["hello"])
    = (Exited 1, after (start ["hello"])
                   [Print "Error: AGENT_ID not set. Run 'create' first."]).
Proof.
  destruct missing_configuration_is_fatal
    as (H1 & H2 & H3 & H4 & H5 & H6 & H7 & H8 & H9 & H10 & _).
  split; [apply H1; vm_compute; reflexivity |].
  split.
  { destruct (H2 (host_of [("PROJECT_ENDPOINT", "https://example.test")] nominal)
                (start [])) as (d & Hrun & Hc & _).
    - left. vm_compute. reflexivity.
    - exists d. auto. }
  split.
  { destruct (H3 (host_of [("PROJECT_ENDPOINT", "")] nominal) (start []))
      as (d & Hrun & Hc & _).
    - vm_compute. reflexivity.
    - exists d. auto. }
  split.
  { destruct (H4 (host_of [("AGENT_ID", "OneDrive-Agent:1")] nominal) (start [])
                "OneDrive-Agent:1") as (d & Hrun & Hc & _).
    - vm_compute. reflexivity.
    - vm_compute. reflexivity.
    - exists d. auto. }
  split; [apply H5; vm_compute; reflexivity |].
  split; [apply H6; vm_compute; reflexivity |].
  split; [apply H7; vm_compute; reflexivity |].
  split; [apply H8; vm_compute; reflexivity |].
  split; [apply (H9 1 _ _ "A:1"); vm_compute; reflexivity |].
  apply H10. vm_compute. reflexivity.
Defined.

(** ** The Foundry script: create, step by step *)

Lemma waiting_calls id d0 :
  Forall (waiting id) d0 ->
  remote_calls d0 = repeat (VectorStoresRetrieve id) (polls d0).
Proof.
  induction 1 as [| e d0 He _ IH]; [reflexivity |].
  destruct He as [-> | (v & -> & _)].
  - exact IH.
  - change (remote_calls (Remote (VectorStoresRetrieve id) (inr (AStore v)) :: d0))
      with (VectorStoresRetrieve id :: remote_calls d0).
    rewrite IH. reflexivity.
Qed.

Lemma waiting_no_failure id d0 c e :
  Forall (waiting id) d0 -> ~ In (Remote c (inl e)) d0.
Proof.
  induction 1 as [| ev d0 He _ IH]; intros Hin; [destruct Hin |].
  destruct Hin as [-> | Hin]; [| exact (IH Hin)].
  destruct He as [He | (v' & He & _)]; discriminate.
Qed.

Lemma repeat_no_deletion id n :
  Forall (fun c => is_deletion c = false) (repeat (VectorStoresRetrieve id) n).
Proof. induction n; simpl; constructor; [reflexivity | assumption]. Qed.

Lemma foundry_create_abort_report fuel h s :
  yields (Foundry.create_agent_with_vector_store fuel) h s (abort_report h).
Proof.
  unfold Foundry.create_agent_with_vector_store.
  repeat step.
  all: unfold abort_report.
  all: split; [rewrite ?remote_calls_app;
               try match goal with
                   | Hd0 : Forall (waiting _) _ |- _ => rewrite (waiting_calls _ _ Hd0)
                   end;
               rewrite ?Forall_app; simpl; repeat split; repeat constructor;
               try apply repeat_no_deletion |].
  all: split; [| split].
  all: try lazymatch goal with
           | |- docs_exists _ = false -> _ =>
               intros Hdocs;
               first [ congruence
                     | split; [reflexivity
                              | intros Hne; first [contradiction | reflexivity]] ]
           | |- forall e, docs_exists _ = true -> _ =>
               intros e0 Hdocs Hopen;
               first [ congruence
                     | split; [reflexivity
                              | intros Hne; first [contradiction | congruence]] ]
           end.
  all: intros c e' Hin; rewrite ?in_app_iff in Hin; simpl in Hin.
  all: repeat match goal with
              | H : _ \/ _ |- _ => destruct H
              | H : False |- _ => destruct H
              | H : Remote _ _ = Remote _ _ |- _ =>
                  first [discriminate H | injection H as <- <-]
              | H : Print _ = Remote _ _ |- _ => discriminate H
              | Hd0 : Forall (waiting _) ?d, H : In (Remote _ (inl _)) ?d |- _ =>
                  destruct (waiting_no_failure _ _ _ _ Hd0 H)
              end.
  all: split; [reflexivity | eexists; rewrite ?app_assoc; reflexivity].
Qed.

(** X9.  [create_agent_with_vector_store] has no clean-up: no run ever
    calls a deletion; a call of the service that raises is the last thing
    the run does and its exception is the outcome, whatever was created
    before.  When the document is missing no call is made at all, and with
    the endpoint configured the outcome is [FileNotFoundError] naming the
    path; when the document is there but [open] raises, no call is made
    either, and with the endpoint configured the outcome is the exception
    of [open]. *)
Theorem foundry_create_aborts_without_cleanup fuel h s o s' :
  Foundry.create_agent_with_vector_store fuel h s = (o, s') ->
  exists d,
    s' = after s d /\
    Forall (fun c => is_deletion c = false) (remote_calls d) /\
    (forall c e, In (Remote c (inl e)) d ->
       o = Raised e /\ exists pre, d = pre ++ [Remote c (inl e)]) /\
    (docs_exists h = false ->
     remote_calls d = [] /\
     (PyStr.truthy (environ h !! "PROJECT_ENDPOINT") <> None ->
      o = Raised (FileNotFoundError ("Document not found: " +:+ docs_file h)))) /\
    (forall e, docs_exists h = true -> docs_open h = Some e ->
       remote_calls d = [] /\
       (PyStr.truthy (environ h !! "PROJECT_ENDPOINT") <> None -> o = Raised e)).
Proof.
  intros Hrun.
  exact (yields_elim _ h s (abort_report h) o s'
           (foundry_create_abort_report fuel h s) Hrun).
Qed.

Lemma foundry_create_aborts_without_cleanup_witness :
  (exists d,
     Foundry.create_agent_with_vector_store 1 rejecting_host (start [])
       = (Raised (ServiceError "quota exceeded"), after (start []) d) /\
     Forall (fun c => is_deletion c = false) (remote_calls d) /\
     length (remote_calls d) = 4) /\
  (exists d,
     Foundry.create_agent_with_vector_store 1 no_docs_host (start [])
       = (Raised (FileNotFoundError "Document not found: /app/src/docs/product_manual.md"),
          after (start []) d) /\
     remote_calls d = []) /\
  (exists d,
     Foundry.create_agent_with_vector_store 1 unreadable_docs_host (start [])
       = (Raised (OSError "[Errno 13] Permission denied: '/app/src/docs/product_manual.md'"),
          after (start []) d) /\
     remote_calls d = []).
Proof.
  split; [| split].
  - destruct (foundry_create_aborts_without_cleanup 1 rejecting_host (start [])
                (Raised (ServiceError "quota exceeded"))
                (snd (Foundry.create_agent_with_vector_store 1 rejecting_host (start []))))
      as (d & Hs & Hnodel & _ & _ & _).
    + vm_compute. reflexivity.
    + exists d. split; [rewrite <- Hs; vm_compute; reflexivity |].
      split; [exact Hnodel |].
      assert (Hd : d = added [] (after (start []) d))
        by (symmetry; apply (added_after (start []))).
      rewrite Hd, <- Hs. vm_compute. reflexivity.
  - destruct (foundry_create_aborts_without_cleanup 1 no_docs_host (start [])
                (fst (Foundry.create_agent_with_vector_store 1 no_docs_host (start [])))
                (snd (Foundry.create_agent_with_vector_store 1 no_docs_host (start []))))
      as (d & Hs & _ & _ & Hdocs & _).
    + vm_compute. reflexivity.
    + destruct (Hdocs eq_refl) as [Hcalls Hout].
      exists d. split; [| exact Hcalls].
      rewrite <- Hs. vm_compute. reflexivity.
  - destruct (foundry_create_aborts_without_cleanup 1 unreadable_docs_host (start [])
                (fst (Foundry.create_agent_with_vector_store 1 unreadable_docs_host
                        (start [])))
                (snd (Foundry.create_agent_with_vector_store 1 unreadable_docs_host
                        (start []))))
      as (d & Hs & _ & _ & _ & Hopen).
    + vm_compute. reflexivity.
    + destruct (Hopen _ eq_refl eq_refl) as [Hcalls Hout].
      exists d. split; [| exact Hcalls].
      rewrite <- Hs. vm_compute. reflexivity.
Defined.

Lemma foundry_create_success_flow_run fuel h s :
  yields (Foundry.create_agent_with_vector_store fuel) h s success_flow.
Proof.
  unfold Foundry.create_agent_with_vector_store.
  repeat step.
  all: unfold success_flow; intros aid vid fid Hret; try discriminate Hret.
  injection Hret as <- <- <-.
  exists (polls d0). eexists _, _, _.
  split.
  { rewrite !remote_calls_app, (waiting_calls _ _ Hd0).
    cbn [remote_calls omap list_omap app].
    rewrite <- app_assoc. cbn [app].
    cbn [repeat]. rewrite repeat_cons, <- app_assoc. reflexivity. }
  split; [reflexivity |].
  rewrite !in_app_iff. simpl. repeat split; tauto.
Qed.

(** X10.  A successful [create_agent_with_vector_store] made exactly
    these calls, in this order: the upload of the document, the creation
    of the vector store from the uploaded file alone, one or more polls of
    that vector store, and the creation of the agent whose only tool is
    the file search over that vector store.  The three identifiers it
    returns are the ones the service answered with. *)
Theorem foundry_create_success_flow fuel h s aid vid fid s' :
  Foundry.create_agent_with_vector_store fuel h s = (Returned (aid, vid, fid), s') ->
  exists d n def vs a,
    s' = after s d /\
    remote_calls d =
      [FilesCreate "assistants"; VectorStoresCreate "ProductDocsVectorStore" [fid]]
      ++ repeat (VectorStoresRetrieve vid) (S n)
      ++ [AgentsCreateVersion "IaCDocumentAgent" def] /\
    tools def = [FileSearchTool [vid]] /\
    In (Remote (FilesCreate "assistants") (inr (AId fid))) d /\
    In (Remote (VectorStoresCreate "ProductDocsVectorStore" [fid]) (inr (AStore vs))) d /\
    v_id vs = vid /\
    In (Remote (AgentsCreateVersion "IaCDocumentAgent" def) (inr (AAgent a))) d /\
    a_id a = aid.
Proof.
  intros Hrun.
  destruct (yields_elim _ h s success_flow _ s'
              (foundry_create_success_flow_run fuel h s) Hrun) as (d & Hs & Hflow).
  destruct (Hflow aid vid fid eq_refl) as (n & def & vs & a & H).
  exists d, n, def, vs, a. split; [exact Hs | exact H].
Qed.

Lemma foundry_create_success_flow_witness :
  exists d def,
    Foundry.create_agent_with_vector_store 3 three_polls_host (start [])
      = (Returned ("IaCDocumentAgent:1", "vs_1", "file_1"), after (start []) d) /\
    remote_calls d =
      [FilesCreate "assistants";
       VectorStoresCreate "ProductDocsVectorStore" ["file_1"];
       VectorStoresRetrieve "vs_1"; VectorStoresRetrieve "vs_1";
       VectorStoresRetrieve "vs_1";
       AgentsCreateVersion "IaCDocumentAgent" def] /\
    tools def = [FileSearchTool ["vs_1"]].
Proof.
  destruct (foundry_create_success_flow 3 three_polls_host (start [])
              "IaCDocumentAgent:1" "vs_1" "file_1"
              (snd (Foundry.create_agent_with_vector_store 3 three_polls_host (start []))))
    as (d & n & def & vs & a & Hs & Hcalls & Htools & _).
  - vm_compute. reflexivity.
  - exists d, def. split; [rewrite <- Hs; vm_compute; reflexivity |].
    split; [| exact Htools].
    assert (Hn : n = 2).
    { assert (Hd : d = added [] (after (start []) d))
        by (symmetry; apply (added_after (start []))).
      assert (Hlen : length (remote_calls d) = 6).
      { rewrite Hd, <- Hs. vm_compute. reflexivity. }
      rewrite Hcalls in Hlen. cbn [app length] in Hlen.
      rewrite length_app, repeat_length in Hlen. simpl in Hlen. lia. }
    rewrite Hcalls, Hn. reflexivity.
Defined.

(** ** The pace of the readiness wait *)

Lemma sleeps_app t1 t2 : sleeps (t1 ++ t2) = sleeps t1 ++ sleeps t2.
Proof. apply omap_app. Qed.

Lemma await_ready_pace fuel : forall id h s o s',
  Foundry.await_ready fuel id h s = (o, s') ->
  exists d,
    s' = after s d /\
    sleeps d = repeat 1 (polls d - final_polls o) /\
    final_polls o <= polls d + (match o with OutOfFuel => 1 | _ => 0 end) /\
    (o = OutOfFuel -> polls d = fuel).
Proof.
  induction fuel as [| fuel IH]; intros id h s o s' Hrun.
  - simpl in Hrun. injection Hrun as <- <-. exists [].
    rewrite after_nil. repeat split; simpl; lia.
  - destruct (vector_stores_retrieve (service h) (trace s) id) as [e | v] eqn:Hv.
    + rewrite (await_ready_call_raises _ _ _ _ _ Hv) in Hrun.
      injection Hrun as <- <-. eexists. split; [reflexivity |].
      repeat split; [simpl; lia | discriminate].
    + destruct (String.eqb (v_status v) "completed") eqn:Hc;
        [| destruct (String.eqb (v_status v) "failed") eqn:Hf].
      * apply String.eqb_eq in Hc.
        rewrite (await_ready_completed _ _ _ _ _ Hv Hc) in Hrun.
        injection Hrun as <- <-. eexists. split; [reflexivity |].
        repeat split; [simpl; lia | discriminate].
      * apply String.eqb_eq in Hf.
        rewrite (await_ready_failed _ _ _ _ _ Hv Hf) in Hrun.
        injection Hrun as <- <-. eexists. split; [reflexivity |].
        repeat split; [simpl; lia | discriminate].
      * apply String.eqb_neq in Hc, Hf.
        assert (Hnt : ~ terminal (v_status v)) by (intros [? | ?]; contradiction).
        rewrite (await_ready_again _ _ _ _ _ Hv Hnt) in Hrun.
        destruct (IH _ _ _ _ _ Hrun) as (d & -> & Hsl & Hle & Hfuel).
        exists ([Remote (VectorStoresRetrieve id) (inr (AStore v)); Sleep 1] ++ d).
        split; [same_state |].
        rewrite sleeps_app, polls_app, Hsl.
        change (sleeps [Remote (VectorStoresRetrieve id) (inr (AStore v)); Sleep 1])
          with [1].
        change (polls [Remote (VectorStoresRetrieve id) (inr (AStore v)); Sleep 1])
          with 1.
        split; [| split].
        -- replace (1 + polls d - final_polls o) with (S (polls d - final_polls o)).
           ++ reflexivity.
           ++ destruct o; simpl in *; lia.
        -- destruct o; simpl in *; lia.
        -- intros Ho. rewrite (Hfuel Ho). reflexivity.
Qed.

(** X11.  The readiness wait sleeps one second after every poll that did
    not end it and at no other time: whatever the service answers, the
    sleeps of a wait are all of one second, and there is one for each poll
    except the poll that ended the wait. *)
Theorem readiness_wait_sleeps_between_polls fuel id h s o s' :
  Foundry.await_ready fuel id h s = (o, s') ->
  exists d,
    s' = after s d /\
    sleeps d = repeat 1 (polls d - final_polls o) /\
    (o <> OutOfFuel -> 1 <= polls d).
Proof.
  intros Hrun.
  destruct (await_ready_pace _ _ _ _ _ _ Hrun) as (d & Hs & Hsl & Hle & _).
  exists d. split; [exact Hs | split; [exact Hsl |]].
  intros Ho. destruct o; simpl in *; try lia. contradiction Ho. reflexivity.
Qed.

Lemma readiness_wait_sleeps_between_polls_witness :
  exists d,
    Foundry.await_ready 5 "vs_1" three_polls_host (start [])
      = (Returned tt, after (start []) d) /\
    polls d = 3 /\ sleeps d = [1; 1].
Proof.
  destruct (readiness_wait_sleeps_between_polls 5 "vs_1" three_polls_host (start [])
              (Returned tt)
              (snd (Foundry.await_ready 5 "vs_1" three_polls_host (start []))))
    as (d & Hs & Hsl & _).
  - vm_compute. reflexivity.
  - assert (Hd : d = added [] (after (start []) d))
      by (symmetry; apply (added_after (start []))).
    assert (Hp : polls d = 3) by (rewrite Hd, <- Hs; vm_compute; reflexivity).
    exists d. split; [rewrite <- Hs; vm_compute; reflexivity |].
    split; [exact Hp |]. rewrite Hsl, Hp. reflexivity.
Defined.

(** ** Exit codes *)

Lemma foundry_create_plain_exit fuel h s o s' :
  Foundry.create_agent_with_vector_store fuel h s = (o, s') -> plain_exit o.
Proof.
  intros Hrun.
  destruct (yields_elim (Foundry.create_agent_with_vector_store fuel) h s
              (fun o _ => plain_exit o) o s') as (d & _ & H); [| exact Hrun | exact H].
  unfold Foundry.create_agent_with_vector_store.
  repeat step.
  all: exact I.
Qed.

Lemma foundry_delete_plain_exit h s o s' :
  Foundry.delete_agent_and_resources h s = (o, s') -> plain_exit o.
Proof.
  intros Hrun.
  destruct (PyStr.truthy (environ h !! "PROJECT_ENDPOINT")) as [endpoint |] eqn:Hep.
  - destruct (teardown_run h s endpoint Hep) as (d & calls & Hret & _).
    rewrite Hret in Hrun. injection Hrun as <- _. exact I.
  - destruct (yields_elim Foundry.delete_agent_and_resources h s
                (fun o _ => plain_exit o) o s') as (d & _ & H);
      [| exact Hrun | exact H].
    unfold Foundry.delete_agent_and_resources.
    repeat step.
    all: try congruence.
    all: exact I.
Qed.

Lemma foundry_chat_plain_exit fuel h s o s' :
  Foundry.chat_with_agent fuel h s = (o, s') -> plain_exit o.
Proof.
  intros Hrun.
  destruct (chat_session_end _ _ _ _ _ Hrun) as (d & _ & _ & _ & Hexit).
  destruct o as [a | e | c |]; try exact I.
  apply (Hexit c eq_refl).
Qed.

Lemma agentid_create_plain_exit h s o s' :
  AgentId.create_agent h s = (o, s') -> plain_exit o /\ o <> OutOfFuel.
Proof.
  intros Hrun.
  destruct (yields_elim AgentId.create_agent h s
              (fun o _ => plain_exit o /\ o <> OutOfFuel) o s') as (d & _ & H);
    [| exact Hrun | exact H].
  unfold AgentId.create_agent, AgentId.get_project_client, AgentId.get_env_or_fail.
  repeat step.
  all: split; [first [exact I | reflexivity] | discriminate].
Qed.

Lemma agentid_delete_plain_exit h s o s' :
  AgentId.delete_agent h s = (o, s') -> plain_exit o /\ o <> OutOfFuel.
Proof.
  intros Hrun.
  destruct (yields_elim _ h s delete_report o s' (agentid_delete_report h s) Hrun)
    as (d & _ & [-> | ->] & _).
  - split; [exact I | discriminate].
  - split; [reflexivity | discriminate].
Qed.

Lemma agentid_list_plain_exit h s o s' :
  AgentId.list_agents h s = (o, s') -> plain_exit o /\ o <> OutOfFuel.
Proof.
  intros Hrun.
  destruct (yields_elim AgentId.list_agents h s
              (fun o _ => plain_exit o /\ o <> OutOfFuel) o s') as (d & _ & H);
    [| exact Hrun | exact H].
  unfold AgentId.list_agents, AgentId.get_project_client, AgentId.get_env_or_fail.
  repeat step.
  all: try (apply (yields_returns _ _ _ _ _ _ (print_agents_returns _ _ _))).
  all: split; [first [exact I | reflexivity] | discriminate].
Qed.

Lemma usage_exit (usage : M unit) h s (o : outcome unit) s' :
  (exists d, returns usage h s tt d) ->
  bind usage (fun _ => sys_exit 1) h s = (o, s') -> o = Exited 1.
Proof.
  intros [d Hd] Hrun. rewrite (bind_returns_eq _ _ _ _ _ _ Hd) in Hrun.
  injection Hrun as <- _. reflexivity.
Qed.

Lemma foundry_usage_returns h s : exists d, returns Foundry.usage h s tt d.
Proof.
  eexists. unfold Foundry.usage.
  repeat (eapply returns_bind; [apply returns_print |]). apply returns_print.
Qed.

Lemma agentid_usage_returns h s : exists d, returns AgentId.usage h s tt d.
Proof.
  eexists. unfold AgentId.usage.
  repeat (eapply returns_bind; [apply returns_print |]). apply returns_print.
Qed.

Lemma foundry_main_plain_exit fuel argv h s o s' :
  Foundry.main fuel argv h s = (o, s') -> plain_exit o.
Proof.
  intros Hrun. unfold Foundry.main in Hrun.
  destruct argv as [| prog [| cmd rest]].
  - rewrite (usage_exit _ _ _ _ _ (foundry_usage_returns h s) Hrun). reflexivity.
  - rewrite (usage_exit _ _ _ _ _ (foundry_usage_returns h s) Hrun). reflexivity.
  - destruct (String.eqb (PyStr.lower cmd) "create").
    { unfold bind in Hrun.
      destruct (Foundry.create_agent_with_vector_store fuel h s) as [o1 s1] eqn:Hc.
      pose proof (foundry_create_plain_exit _ _ _ _ _ Hc) as Hp.
      destruct o1; injection Hrun as <- _; exact Hp. }
    destruct (String.eqb (PyStr.lower cmd) "delete").
    { exact (foundry_delete_plain_exit _ _ _ _ Hrun). }
    destruct (String.eqb (PyStr.lower cmd) "chat").
    { exact (foundry_chat_plain_exit _ _ _ _ _ Hrun). }
    unfold bind, print, sys_exit in Hrun. injection Hrun as <- _. reflexivity.
Qed.

Lemma agentid_main_plain_exit argv h s o s' :
  AgentId.main argv h s = (o, s') -> plain_exit o /\ o <> OutOfFuel.
Proof.
  intros Hrun. unfold AgentId.main in Hrun.
  destruct argv as [| prog [| cmd rest]].
  - rewrite (usage_exit _ _ _ _ _ (agentid_usage_returns h s) Hrun).
    split; [reflexivity | discriminate].
  - rewrite (usage_exit _ _ _ _ _ (agentid_usage_returns h s) Hrun).
    split; [reflexivity | discriminate].
  - destruct (String.eqb (PyStr.lower cmd) "create").
    { exact (agentid_create_plain_exit _ _ _ _ Hrun). }
    destruct (String.eqb (PyStr.lower cmd) "delete").
    { exact (agentid_delete_plain_exit _ _ _ _ Hrun). }
    destruct (String.eqb (PyStr.lower cmd) "list").
    { exact (agentid_list_plain_exit _ _ _ _ Hrun). }
    unfold bind, print, sys_exit in Hrun. injection Hrun as <- _.
    split; [reflexivity | discriminate].
Qed.

(** X12.  Both scripts end with status 0 or 1 and nothing else: every
    [sys.exit] of either script, in whatever command, passes the code 1,
    so the status is 0 exactly when the command returned normally, and 1
    after an exit or an uncaught exception.  (A run of the Foundry script
    that is still polling or reading when the bound of the model runs out
    has no status.) *)
Theorem exit_status_is_zero_or_one :
  (forall fuel argv h s o s',
     Foundry.main fuel argv h s = (o, s') ->
     (exit_status o = Some 0%Z <-> o = Returned tt) /\
     (o <> Returned tt -> o <> OutOfFuel -> exit_status o = Some 1%Z)) /\
  (forall argv h s o s',
     AgentId.main argv h s = (o, s') ->
     (exit_status o = Some 0%Z <-> o = Returned tt) /\
     (o <> Returned tt -> exit_status o = Some 1%Z)).
Proof.
  split.
  - intros fuel argv h s o s' Hrun.
    pose proof (foundry_main_plain_exit _ _ _ _ _ _ Hrun) as Hp.
    destruct o as [[] | e | c |]; simpl in *.
    + split; [tauto | intros H; contradiction H; reflexivity].
    + split; [split; discriminate | reflexivity].
    + subst c. split; [split; discriminate | reflexivity].
    + split; [split; discriminate | intros _ H; contradiction H; reflexivity].
  - intros argv h s o s' Hrun.
    destruct (agentid_main_plain_exit _ _ _ _ _ Hrun) as [Hp Hfuel].
    destruct o as [[] | e | c |]; simpl in *.
    + split; [tauto | intros H; contradiction H; reflexivity].
    + split; [split; discriminate | reflexivity].
    + subst c. split; [split; discriminate | reflexivity].
    + contradiction Hfuel. reflexivity.
Qed.

Lemma exit_status_is_zero_or_one_witness :
  exit_status (fst (Foundry.main 1 ["agent_manager.py"; "chat"]
                      (host_of [] nominal) (start []))) = Some 1%Z /\
  exit_status (fst (AgentId.main ["agent_manager.py"; "create"] rejecting_host
                      (start []))) = Some 1%Z /\
  exit_status (fst (AgentId.main ["agent_manager.py"; "delete"] (host_of [] nominal)
                      (start []))) = Some 0%Z.
Proof.
  destruct exit_status_is_zero_or_one as [Hf Ha].
  split; [| split].
  - apply (Hf 1 ["agent_manager.py"; "chat"] (host_of [] nominal) (start []) _
             (snd (Foundry.main 1 ["agent_manager.py"; "chat"] (host_of [] nominal)
                     (start [])))).
    + apply surjective_pairing.
    + vm_compute. discriminate.
    + vm_compute. discriminate.
  - apply (Ha ["agent_manager.py"; "create"] rejecting_host (start []) _
             (snd (AgentId.main ["agent_manager.py"; "create"] rejecting_host (start [])))).
    + apply surjective_pairing.
    + vm_compute. discriminate.
  - apply (Ha ["agent_manager.py"; "delete"] (host_of [] nominal) (start []) _
             (snd (AgentId.main ["agent_manager.py"; "delete"] (host_of [] nominal)
                     (start [])))).
    + apply surjective_pairing.
    + vm_compute. reflexivity.
Defined.
